(** * Alice/LG quilt rendering: a shallow embedding of [lightfield_render.py]

    The development follows the source file top-down: the Python fragments
    the code relies on (exceptions, [str], [zfill], [os.path]), the data
    held by a [RenderJob], the path functions, the camera rig, the quilt
    assembly on pixel buffers, the file clean-up, the render handlers with
    the modal operator, and the lockfile persistence.

    Conventions.
    - Python [int] is [Z]; Python [float] is idealised as a real number
      ([R]), so rounding is not part of the model; [None]-able attributes
      are [option]s.
    - A Python exception is the [Raise] case of [result]; statements of a
      method are sequenced with the bind of that monad.
    - Attributes that refer to live Blender objects hold an index into the
      object store of the [Blender] state, so that aliasing is kept. *)

From Stdlib Require Import ZArith List String Ascii Reals Lra Lia Bool DecimalString.
From Stdlib Require DecimalPos.
From Corelib Require PrimFloat SpecFloat FloatOps.
From stdpp Require Import gmap strings.
Import ListNotations.

#[local] Open Scope string_scope.
#[local] Open Scope list_scope.
#[local] Open Scope Z_scope.

(** ** Python fragments *)

(** The exceptions that the modelled statements can raise. *)
Inductive exn : Type :=
| ZeroDivisionError
| TypeError
| ValueError
| IndexError
| KeyError
| AttributeError
| ReferenceError
| FileNotFoundError
| OverflowError.

Inductive result (A : Type) : Type :=
| Ok (a : A)
| Raise (e : exn).
Arguments Ok {A} a.
Arguments Raise {A} e.

(** Statements are sequenced in the exception monad, written with stdpp's
    [x ← m; k]. *)
#[global] Instance result_ret : MRet result := fun A a => Ok a.
#[global] Instance result_bind : MBind result := fun A B k m =>
  match m with
  | Ok a => k a
  | Raise e => Raise e
  end.

(** Reading an attribute that may hold [None] where a value is needed:
    the operation applied to it raises [TypeError]. *)
Definition need {A : Type} (o : option A) : result A :=
  match o with
  | Some a => Ok a
  | None => Raise TypeError
  end.

(** Following a reference that may be [None]: [None.attr] raises
    [AttributeError]. *)
Definition deref {A : Type} (o : option A) : result A :=
  match o with
  | Some a => Ok a
  | None => Raise AttributeError
  end.

(** [a / b] on two [int]s: true division, a float. *)
Definition int_truediv (a b : Z) : result R :=
  if b =? 0 then Raise ZeroDivisionError else Ok (IZR a / IZR b)%R.

(** [a / b] on floats. *)
Definition float_truediv (a b : R) : result R :=
  if Req_dec_T b 0 then Raise ZeroDivisionError else Ok (a / b)%R.

(** [math.radians]. *)
Definition radians (x : R) : R := (x * (PI / 180))%R.

(** [str(i)] for an [int]. *)
Definition str_int (z : Z) : string := NilZero.string_of_int (Z.to_int z).

(** [str(x)] where [x] is an [int] or [None]. *)
Definition str_opt_int (o : option Z) : string :=
  match o with
  | Some z => str_int z
  | None => "None"
  end.

Fixpoint zeros (n : nat) : string :=
  match n with
  | O => ""
  | S k => String "0" (zeros k)
  end.

(** [s.zfill(width)]: pad on the left with zeros, after a leading sign. *)
Definition zfill (s : string) (width : nat) : string :=
  let n := String.length s in
  if (width <=? n)%nat then s
  else match s with
       | String c rest =>
           if (Ascii.eqb c "+" || Ascii.eqb c "-")%bool
           then String c (zeros (width - n) +:+ rest)
           else zeros (width - n) +:+ s
       | EmptyString => zeros (width - n)
       end.

(** [s.startswith("/")] and [s.endswith("/")]. *)
Definition starts_with_sep (s : string) : bool :=
  match s with
  | String c _ => Ascii.eqb c "/"
  | EmptyString => false
  end.

Fixpoint ends_with_sep (s : string) : bool :=
  match s with
  | EmptyString => false
  | String c EmptyString => Ascii.eqb c "/"
  | String _ rest => ends_with_sep rest
  end.

(** [os.path.join(a, b)] (the POSIX flavour). *)
Definition os_path_join (a b : string) : string :=
  if starts_with_sep b then b
  else if (String.eqb a "" || ends_with_sep a)%bool then a +:+ b
  else a +:+ "/" +:+ b.

(** The second component of [os.path.split(p)]: what follows the last
    separator. *)
Fixpoint os_path_basename (p : string) : string :=
  match p with
  | EmptyString => ""
  | String c rest =>
      if existsb (Ascii.eqb "/") (list_ascii_of_string rest)
      then os_path_basename rest
      else if Ascii.eqb c "/" then rest else p
  end.

(** ** Data model *)

(** What the job needs of [mathutils]: vectors of three floats and 4x4
    matrices, stored by rows. *)
Module mathutils.

Record Vector : Type := mkVector { x : R; y : R; z : R }.

Definition Matrix : Type := list (list R).

End mathutils.
Abbreviation Vector := mathutils.Vector.
Abbreviation Matrix := mathutils.Matrix.

(** A flat [numpy] array of floats, and its reshaped forms. *)
Abbreviation ndarray := (list R).
Abbreviation ndarray3 := (list (list (list R))).

(** The states of a render job ([RenderJob._state]). *)
Inductive State : Type :=
| INVOKE_RENDER
| INIT_RENDER
| PRE_RENDER
| POST_RENDER
| COMPLETE_RENDER
| CANCEL_RENDER
| IDLE.

#[global] Instance State_eq_dec : EqDecision State.
Proof. solve_decision. Defined.

(** A camera data block and the object that carries it. *)
Record CameraData : Type := mkCameraData {
  angle : R;
  shift_x : R
}.

Record Object : Type := mkObject {
  name : string;
  matrix_world : Matrix;
  scale : Vector;
  location : Vector;
  data : CameraData
}.

(** An image data block: where it was loaded from, the size it was scaled
    to, and its pixels. *)
Record Image : Type := mkImage {
  image_name : string;
  image_filepath : string;
  image_size : option (Z * Z);
  image_pixels : ndarray
}.

(** A render view of the scene ([scene.render.views]). *)
Record RenderView : Type := mkRenderView {
  view_name : string;
  camera_suffix : string;
  use : bool
}.

Record RenderJob : Type := mkRenderJob {
  init : bool;
  add_suffix : bool;
  scene : string;
  animation : bool;
  _use_lockfile : bool;
  use_multiview : bool;
  _state : State;
  frame : Z;
  subframe : R;
  view : Z;
  seed : option Z;
  view_width : option Z;
  view_height : option Z;
  rows : option Z;
  columns : option Z;
  total_views : option Z;
  quilt_aspect : option R;
  view_cone : option R;
  lockfile_path : option string;
  outputpath : option string;
  file_use_temp : bool;
  file_temp_name : string;
  file_dirname : option string;
  file_basename : option string;
  file_extension : option string;
  file_quilt_suffix : option string;
  file_force_keep : bool;
  _camera_temp_basename : string;
  _camera_temp : list nat;
  _camera_active : option nat;
  _camera_original : option nat;
  _multiview_view_basename : string;
  _view_matrix : option Matrix;
  _view_matrix_inv : option Matrix;
  _view_image : option Image;
  _view_images_pixels : list ndarray;
  _quilt_image : option Image;
  cancel_sign : option string;
  cancel_message : option string
}.

(** Attribute assignments [self.attr = v]. *)
Definition set_init (v : bool) (j : RenderJob) : RenderJob :=
  {| init := v; add_suffix := add_suffix j; scene := scene j; animation := animation j;
     _use_lockfile := _use_lockfile j; use_multiview := use_multiview j; _state := _state j;
     frame := frame j; subframe := subframe j; view := view j; seed := seed j;
     view_width := view_width j; view_height := view_height j; rows := rows j;
     columns := columns j; total_views := total_views j; quilt_aspect := quilt_aspect j;
     view_cone := view_cone j; lockfile_path := lockfile_path j; outputpath := outputpath j;
     file_use_temp := file_use_temp j; file_temp_name := file_temp_name j;
     file_dirname := file_dirname j; file_basename := file_basename j;
     file_extension := file_extension j; file_quilt_suffix := file_quilt_suffix j;
     file_force_keep := file_force_keep j; _camera_temp_basename := _camera_temp_basename j;
     _camera_temp := _camera_temp j; _camera_active := _camera_active j;
     _camera_original := _camera_original j;
     _multiview_view_basename := _multiview_view_basename j; _view_matrix := _view_matrix j;
     _view_matrix_inv := _view_matrix_inv j; _view_image := _view_image j;
     _view_images_pixels := _view_images_pixels j; _quilt_image := _quilt_image j;
     cancel_sign := cancel_sign j; cancel_message := cancel_message j |}.

Definition set__use_lockfile (v : bool) (j : RenderJob) : RenderJob :=
  {| init := init j; add_suffix := add_suffix j; scene := scene j; animation := animation j;
     _use_lockfile := v; use_multiview := use_multiview j; _state := _state j; frame := frame j;
     subframe := subframe j; view := view j; seed := seed j; view_width := view_width j;
     view_height := view_height j; rows := rows j; columns := columns j;
     total_views := total_views j; quilt_aspect := quilt_aspect j; view_cone := view_cone j;
     lockfile_path := lockfile_path j; outputpath := outputpath j;
     file_use_temp := file_use_temp j; file_temp_name := file_temp_name j;
     file_dirname := file_dirname j; file_basename := file_basename j;
     file_extension := file_extension j; file_quilt_suffix := file_quilt_suffix j;
     file_force_keep := file_force_keep j; _camera_temp_basename := _camera_temp_basename j;
     _camera_temp := _camera_temp j; _camera_active := _camera_active j;
     _camera_original := _camera_original j;
     _multiview_view_basename := _multiview_view_basename j; _view_matrix := _view_matrix j;
     _view_matrix_inv := _view_matrix_inv j; _view_image := _view_image j;
     _view_images_pixels := _view_images_pixels j; _quilt_image := _quilt_image j;
     cancel_sign := cancel_sign j; cancel_message := cancel_message j |}.

Definition set__state (v : State) (j : RenderJob) : RenderJob :=
  {| init := init j; add_suffix := add_suffix j; scene := scene j; animation := animation j;
     _use_lockfile := _use_lockfile j; use_multiview := use_multiview j; _state := v;
     frame := frame j; subframe := subframe j; view := view j; seed := seed j;
     view_width := view_width j; view_height := view_height j; rows := rows j;
     columns := columns j; total_views := total_views j; quilt_aspect := quilt_aspect j;
     view_cone := view_cone j; lockfile_path := lockfile_path j; outputpath := outputpath j;
     file_use_temp := file_use_temp j; file_temp_name := file_temp_name j;
     file_dirname := file_dirname j; file_basename := file_basename j;
     file_extension := file_extension j; file_quilt_suffix := file_quilt_suffix j;
     file_force_keep := file_force_keep j; _camera_temp_basename := _camera_temp_basename j;
     _camera_temp := _camera_temp j; _camera_active := _camera_active j;
     _camera_original := _camera_original j;
     _multiview_view_basename := _multiview_view_basename j; _view_matrix := _view_matrix j;
     _view_matrix_inv := _view_matrix_inv j; _view_image := _view_image j;
     _view_images_pixels := _view_images_pixels j; _quilt_image := _quilt_image j;
     cancel_sign := cancel_sign j; cancel_message := cancel_message j |}.

Definition set_frame (v : Z) (j : RenderJob) : RenderJob :=
  {| init := init j; add_suffix := add_suffix j; scene := scene j; animation := animation j;
     _use_lockfile := _use_lockfile j; use_multiview := use_multiview j; _state := _state j;
     frame := v; subframe := subframe j; view := view j; seed := seed j;
     view_width := view_width j; view_height := view_height j; rows := rows j;
     columns := columns j; total_views := total_views j; quilt_aspect := quilt_aspect j;
     view_cone := view_cone j; lockfile_path := lockfile_path j; outputpath := outputpath j;
     file_use_temp := file_use_temp j; file_temp_name := file_temp_name j;
     file_dirname := file_dirname j; file_basename := file_basename j;
     file_extension := file_extension j; file_quilt_suffix := file_quilt_suffix j;
     file_force_keep := file_force_keep j; _camera_temp_basename := _camera_temp_basename j;
     _camera_temp := _camera_temp j; _camera_active := _camera_active j;
     _camera_original := _camera_original j;
     _multiview_view_basename := _multiview_view_basename j; _view_matrix := _view_matrix j;
     _view_matrix_inv := _view_matrix_inv j; _view_image := _view_image j;
     _view_images_pixels := _view_images_pixels j; _quilt_image := _quilt_image j;
     cancel_sign := cancel_sign j; cancel_message := cancel_message j |}.

Definition set_subframe (v : R) (j : RenderJob) : RenderJob :=
  {| init := init j; add_suffix := add_suffix j; scene := scene j; animation := animation j;
     _use_lockfile := _use_lockfile j; use_multiview := use_multiview j; _state := _state j;
     frame := frame j; subframe := v; view := view j; seed := seed j; view_width := view_width j;
     view_height := view_height j; rows := rows j; columns := columns j;
     total_views := total_views j; quilt_aspect := quilt_aspect j; view_cone := view_cone j;
     lockfile_path := lockfile_path j; outputpath := outputpath j;
     file_use_temp := file_use_temp j; file_temp_name := file_temp_name j;
     file_dirname := file_dirname j; file_basename := file_basename j;
     file_extension := file_extension j; file_quilt_suffix := file_quilt_suffix j;
     file_force_keep := file_force_keep j; _camera_temp_basename := _camera_temp_basename j;
     _camera_temp := _camera_temp j; _camera_active := _camera_active j;
     _camera_original := _camera_original j;
     _multiview_view_basename := _multiview_view_basename j; _view_matrix := _view_matrix j;
     _view_matrix_inv := _view_matrix_inv j; _view_image := _view_image j;
     _view_images_pixels := _view_images_pixels j; _quilt_image := _quilt_image j;
     cancel_sign := cancel_sign j; cancel_message := cancel_message j |}.

Definition set_view (v : Z) (j : RenderJob) : RenderJob :=
  {| init := init j; add_suffix := add_suffix j; scene := scene j; animation := animation j;
     _use_lockfile := _use_lockfile j; use_multiview := use_multiview j; _state := _state j;
     frame := frame j; subframe := subframe j; view := v; seed := seed j;
     view_width := view_width j; view_height := view_height j; rows := rows j;
     columns := columns j; total_views := total_views j; quilt_aspect := quilt_aspect j;
     view_cone := view_cone j; lockfile_path := lockfile_path j; outputpath := outputpath j;
     file_use_temp := file_use_temp j; file_temp_name := file_temp_name j;
     file_dirname := file_dirname j; file_basename := file_basename j;
     file_extension := file_extension j; file_quilt_suffix := file_quilt_suffix j;
     file_force_keep := file_force_keep j; _camera_temp_basename := _camera_temp_basename j;
     _camera_temp := _camera_temp j; _camera_active := _camera_active j;
     _camera_original := _camera_original j;
     _multiview_view_basename := _multiview_view_basename j; _view_matrix := _view_matrix j;
     _view_matrix_inv := _view_matrix_inv j; _view_image := _view_image j;
     _view_images_pixels := _view_images_pixels j; _quilt_image := _quilt_image j;
     cancel_sign := cancel_sign j; cancel_message := cancel_message j |}.

Definition set_seed (v : option Z) (j : RenderJob) : RenderJob :=
  {| init := init j; add_suffix := add_suffix j; scene := scene j; animation := animation j;
     _use_lockfile := _use_lockfile j; use_multiview := use_multiview j; _state := _state j;
     frame := frame j; subframe := subframe j; view := view j; seed := v;
     view_width := view_width j; view_height := view_height j; rows := rows j;
     columns := columns j; total_views := total_views j; quilt_aspect := quilt_aspect j;
     view_cone := view_cone j; lockfile_path := lockfile_path j; outputpath := outputpath j;
     file_use_temp := file_use_temp j; file_temp_name := file_temp_name j;
     file_dirname := file_dirname j; file_basename := file_basename j;
     file_extension := file_extension j; file_quilt_suffix := file_quilt_suffix j;
     file_force_keep := file_force_keep j; _camera_temp_basename := _camera_temp_basename j;
     _camera_temp := _camera_temp j; _camera_active := _camera_active j;
     _camera_original := _camera_original j;
     _multiview_view_basename := _multiview_view_basename j; _view_matrix := _view_matrix j;
     _view_matrix_inv := _view_matrix_inv j; _view_image := _view_image j;
     _view_images_pixels := _view_images_pixels j; _quilt_image := _quilt_image j;
     cancel_sign := cancel_sign j; cancel_message := cancel_message j |}.

Definition set_file_force_keep (v : bool) (j : RenderJob) : RenderJob :=
  {| init := init j; add_suffix := add_suffix j; scene := scene j; animation := animation j;
     _use_lockfile := _use_lockfile j; use_multiview := use_multiview j; _state := _state j;
     frame := frame j; subframe := subframe j; view := view j; seed := seed j;
     view_width := view_width j; view_height := view_height j; rows := rows j;
     columns := columns j; total_views := total_views j; quilt_aspect := quilt_aspect j;
     view_cone := view_cone j; lockfile_path := lockfile_path j; outputpath := outputpath j;
     file_use_temp := file_use_temp j; file_temp_name := file_temp_name j;
     file_dirname := file_dirname j; file_basename := file_basename j;
     file_extension := file_extension j; file_quilt_suffix := file_quilt_suffix j;
     file_force_keep := v; _camera_temp_basename := _camera_temp_basename j;
     _camera_temp := _camera_temp j; _camera_active := _camera_active j;
     _camera_original := _camera_original j;
     _multiview_view_basename := _multiview_view_basename j; _view_matrix := _view_matrix j;
     _view_matrix_inv := _view_matrix_inv j; _view_image := _view_image j;
     _view_images_pixels := _view_images_pixels j; _quilt_image := _quilt_image j;
     cancel_sign := cancel_sign j; cancel_message := cancel_message j |}.

Definition set__camera_temp (v : list nat) (j : RenderJob) : RenderJob :=
  {| init := init j; add_suffix := add_suffix j; scene := scene j; animation := animation j;
     _use_lockfile := _use_lockfile j; use_multiview := use_multiview j; _state := _state j;
     frame := frame j; subframe := subframe j; view := view j; seed := seed j;
     view_width := view_width j; view_height := view_height j; rows := rows j;
     columns := columns j; total_views := total_views j; quilt_aspect := quilt_aspect j;
     view_cone := view_cone j; lockfile_path := lockfile_path j; outputpath := outputpath j;
     file_use_temp := file_use_temp j; file_temp_name := file_temp_name j;
     file_dirname := file_dirname j; file_basename := file_basename j;
     file_extension := file_extension j; file_quilt_suffix := file_quilt_suffix j;
     file_force_keep := file_force_keep j; _camera_temp_basename := _camera_temp_basename j;
     _camera_temp := v; _camera_active := _camera_active j;
     _camera_original := _camera_original j;
     _multiview_view_basename := _multiview_view_basename j; _view_matrix := _view_matrix j;
     _view_matrix_inv := _view_matrix_inv j; _view_image := _view_image j;
     _view_images_pixels := _view_images_pixels j; _quilt_image := _quilt_image j;
     cancel_sign := cancel_sign j; cancel_message := cancel_message j |}.

Definition set__camera_active (v : option nat) (j : RenderJob) : RenderJob :=
  {| init := init j; add_suffix := add_suffix j; scene := scene j; animation := animation j;
     _use_lockfile := _use_lockfile j; use_multiview := use_multiview j; _state := _state j;
     frame := frame j; subframe := subframe j; view := view j; seed := seed j;
     view_width := view_width j; view_height := view_height j; rows := rows j;
     columns := columns j; total_views := total_views j; quilt_aspect := quilt_aspect j;
     view_cone := view_cone j; lockfile_path := lockfile_path j; outputpath := outputpath j;
     file_use_temp := file_use_temp j; file_temp_name := file_temp_name j;
     file_dirname := file_dirname j; file_basename := file_basename j;
     file_extension := file_extension j; file_quilt_suffix := file_quilt_suffix j;
     file_force_keep := file_force_keep j; _camera_temp_basename := _camera_temp_basename j;
     _camera_temp := _camera_temp j; _camera_active := v; _camera_original := _camera_original j;
     _multiview_view_basename := _multiview_view_basename j; _view_matrix := _view_matrix j;
     _view_matrix_inv := _view_matrix_inv j; _view_image := _view_image j;
     _view_images_pixels := _view_images_pixels j; _quilt_image := _quilt_image j;
     cancel_sign := cancel_sign j; cancel_message := cancel_message j |}.

Definition set__camera_original (v : option nat) (j : RenderJob) : RenderJob :=
  {| init := init j; add_suffix := add_suffix j; scene := scene j; animation := animation j;
     _use_lockfile := _use_lockfile j; use_multiview := use_multiview j; _state := _state j;
     frame := frame j; subframe := subframe j; view := view j; seed := seed j;
     view_width := view_width j; view_height := view_height j; rows := rows j;
     columns := columns j; total_views := total_views j; quilt_aspect := quilt_aspect j;
     view_cone := view_cone j; lockfile_path := lockfile_path j; outputpath := outputpath j;
     file_use_temp := file_use_temp j; file_temp_name := file_temp_name j;
     file_dirname := file_dirname j; file_basename := file_basename j;
     file_extension := file_extension j; file_quilt_suffix := file_quilt_suffix j;
     file_force_keep := file_force_keep j; _camera_temp_basename := _camera_temp_basename j;
     _camera_temp := _camera_temp j; _camera_active := _camera_active j; _camera_original := v;
     _multiview_view_basename := _multiview_view_basename j; _view_matrix := _view_matrix j;
     _view_matrix_inv := _view_matrix_inv j; _view_image := _view_image j;
     _view_images_pixels := _view_images_pixels j; _quilt_image := _quilt_image j;
     cancel_sign := cancel_sign j; cancel_message := cancel_message j |}.

Definition set__view_matrix (v : option Matrix) (j : RenderJob) : RenderJob :=
  {| init := init j; add_suffix := add_suffix j; scene := scene j; animation := animation j;
     _use_lockfile := _use_lockfile j; use_multiview := use_multiview j; _state := _state j;
     frame := frame j; subframe := subframe j; view := view j; seed := seed j;
     view_width := view_width j; view_height := view_height j; rows := rows j;
     columns := columns j; total_views := total_views j; quilt_aspect := quilt_aspect j;
     view_cone := view_cone j; lockfile_path := lockfile_path j; outputpath := outputpath j;
     file_use_temp := file_use_temp j; file_temp_name := file_temp_name j;
     file_dirname := file_dirname j; file_basename := file_basename j;
     file_extension := file_extension j; file_quilt_suffix := file_quilt_suffix j;
     file_force_keep := file_force_keep j; _camera_temp_basename := _camera_temp_basename j;
     _camera_temp := _camera_temp j; _camera_active := _camera_active j;
     _camera_original := _camera_original j;
     _multiview_view_basename := _multiview_view_basename j; _view_matrix := v;
     _view_matrix_inv := _view_matrix_inv j; _view_image := _view_image j;
     _view_images_pixels := _view_images_pixels j; _quilt_image := _quilt_image j;
     cancel_sign := cancel_sign j; cancel_message := cancel_message j |}.

Definition set__view_matrix_inv (v : option Matrix) (j : RenderJob) : RenderJob :=
  {| init := init j; add_suffix := add_suffix j; scene := scene j; animation := animation j;
     _use_lockfile := _use_lockfile j; use_multiview := use_multiview j; _state := _state j;
     frame := frame j; subframe := subframe j; view := view j; seed := seed j;
     view_width := view_width j; view_height := view_height j; rows := rows j;
     columns := columns j; total_views := total_views j; quilt_aspect := quilt_aspect j;
     view_cone := view_cone j; lockfile_path := lockfile_path j; outputpath := outputpath j;
     file_use_temp := file_use_temp j; file_temp_name := file_temp_name j;
     file_dirname := file_dirname j; file_basename := file_basename j;
     file_extension := file_extension j; file_quilt_suffix := file_quilt_suffix j;
     file_force_keep := file_force_keep j; _camera_temp_basename := _camera_temp_basename j;
     _camera_temp := _camera_temp j; _camera_active := _camera_active j;
     _camera_original := _camera_original j;
     _multiview_view_basename := _multiview_view_basename j; _view_matrix := _view_matrix j;
     _view_matrix_inv := v; _view_image := _view_image j;
     _view_images_pixels := _view_images_pixels j; _quilt_image := _quilt_image j;
     cancel_sign := cancel_sign j; cancel_message := cancel_message j |}.

Definition set__view_image (v : option Image) (j : RenderJob) : RenderJob :=
  {| init := init j; add_suffix := add_suffix j; scene := scene j; animation := animation j;
     _use_lockfile := _use_lockfile j; use_multiview := use_multiview j; _state := _state j;
     frame := frame j; subframe := subframe j; view := view j; seed := seed j;
     view_width := view_width j; view_height := view_height j; rows := rows j;
     columns := columns j; total_views := total_views j; quilt_aspect := quilt_aspect j;
     view_cone := view_cone j; lockfile_path := lockfile_path j; outputpath := outputpath j;
     file_use_temp := file_use_temp j; file_temp_name := file_temp_name j;
     file_dirname := file_dirname j; file_basename := file_basename j;
     file_extension := file_extension j; file_quilt_suffix := file_quilt_suffix j;
     file_force_keep := file_force_keep j; _camera_temp_basename := _camera_temp_basename j;
     _camera_temp := _camera_temp j; _camera_active := _camera_active j;
     _camera_original := _camera_original j;
     _multiview_view_basename := _multiview_view_basename j; _view_matrix := _view_matrix j;
     _view_matrix_inv := _view_matrix_inv j; _view_image := v;
     _view_images_pixels := _view_images_pixels j; _quilt_image := _quilt_image j;
     cancel_sign := cancel_sign j; cancel_message := cancel_message j |}.

Definition set__view_images_pixels (v : list ndarray) (j : RenderJob) : RenderJob :=
  {| init := init j; add_suffix := add_suffix j; scene := scene j; animation := animation j;
     _use_lockfile := _use_lockfile j; use_multiview := use_multiview j; _state := _state j;
     frame := frame j; subframe := subframe j; view := view j; seed := seed j;
     view_width := view_width j; view_height := view_height j; rows := rows j;
     columns := columns j; total_views := total_views j; quilt_aspect := quilt_aspect j;
     view_cone := view_cone j; lockfile_path := lockfile_path j; outputpath := outputpath j;
     file_use_temp := file_use_temp j; file_temp_name := file_temp_name j;
     file_dirname := file_dirname j; file_basename := file_basename j;
     file_extension := file_extension j; file_quilt_suffix := file_quilt_suffix j;
     file_force_keep := file_force_keep j; _camera_temp_basename := _camera_temp_basename j;
     _camera_temp := _camera_temp j; _camera_active := _camera_active j;
     _camera_original := _camera_original j;
     _multiview_view_basename := _multiview_view_basename j; _view_matrix := _view_matrix j;
     _view_matrix_inv := _view_matrix_inv j; _view_image := _view_image j;
     _view_images_pixels := v; _quilt_image := _quilt_image j; cancel_sign := cancel_sign j;
     cancel_message := cancel_message j |}.

Definition set__quilt_image (v : option Image) (j : RenderJob) : RenderJob :=
  {| init := init j; add_suffix := add_suffix j; scene := scene j; animation := animation j;
     _use_lockfile := _use_lockfile j; use_multiview := use_multiview j; _state := _state j;
     frame := frame j; subframe := subframe j; view := view j; seed := seed j;
     view_width := view_width j; view_height := view_height j; rows := rows j;
     columns := columns j; total_views := total_views j; quilt_aspect := quilt_aspect j;
     view_cone := view_cone j; lockfile_path := lockfile_path j; outputpath := outputpath j;
     file_use_temp := file_use_temp j; file_temp_name := file_temp_name j;
     file_dirname := file_dirname j; file_basename := file_basename j;
     file_extension := file_extension j; file_quilt_suffix := file_quilt_suffix j;
     file_force_keep := file_force_keep j; _camera_temp_basename := _camera_temp_basename j;
     _camera_temp := _camera_temp j; _camera_active := _camera_active j;
     _camera_original := _camera_original j;
     _multiview_view_basename := _multiview_view_basename j; _view_matrix := _view_matrix j;
     _view_matrix_inv := _view_matrix_inv j; _view_image := _view_image j;
     _view_images_pixels := _view_images_pixels j; _quilt_image := v;
     cancel_sign := cancel_sign j; cancel_message := cancel_message j |}.

Definition set_cancel_sign (v : option string) (j : RenderJob) : RenderJob :=
  {| init := init j; add_suffix := add_suffix j; scene := scene j; animation := animation j;
     _use_lockfile := _use_lockfile j; use_multiview := use_multiview j; _state := _state j;
     frame := frame j; subframe := subframe j; view := view j; seed := seed j;
     view_width := view_width j; view_height := view_height j; rows := rows j;
     columns := columns j; total_views := total_views j; quilt_aspect := quilt_aspect j;
     view_cone := view_cone j; lockfile_path := lockfile_path j; outputpath := outputpath j;
     file_use_temp := file_use_temp j; file_temp_name := file_temp_name j;
     file_dirname := file_dirname j; file_basename := file_basename j;
     file_extension := file_extension j; file_quilt_suffix := file_quilt_suffix j;
     file_force_keep := file_force_keep j; _camera_temp_basename := _camera_temp_basename j;
     _camera_temp := _camera_temp j; _camera_active := _camera_active j;
     _camera_original := _camera_original j;
     _multiview_view_basename := _multiview_view_basename j; _view_matrix := _view_matrix j;
     _view_matrix_inv := _view_matrix_inv j; _view_image := _view_image j;
     _view_images_pixels := _view_images_pixels j; _quilt_image := _quilt_image j;
     cancel_sign := v; cancel_message := cancel_message j |}.

Definition set_cancel_message (v : option string) (j : RenderJob) : RenderJob :=
  {| init := init j; add_suffix := add_suffix j; scene := scene j; animation := animation j;
     _use_lockfile := _use_lockfile j; use_multiview := use_multiview j; _state := _state j;
     frame := frame j; subframe := subframe j; view := view j; seed := seed j;
     view_width := view_width j; view_height := view_height j; rows := rows j;
     columns := columns j; total_views := total_views j; quilt_aspect := quilt_aspect j;
     view_cone := view_cone j; lockfile_path := lockfile_path j; outputpath := outputpath j;
     file_use_temp := file_use_temp j; file_temp_name := file_temp_name j;
     file_dirname := file_dirname j; file_basename := file_basename j;
     file_extension := file_extension j; file_quilt_suffix := file_quilt_suffix j;
     file_force_keep := file_force_keep j; _camera_temp_basename := _camera_temp_basename j;
     _camera_temp := _camera_temp j; _camera_active := _camera_active j;
     _camera_original := _camera_original j;
     _multiview_view_basename := _multiview_view_basename j; _view_matrix := _view_matrix j;
     _view_matrix_inv := _view_matrix_inv j; _view_image := _view_image j;
     _view_images_pixels := _view_images_pixels j; _quilt_image := _quilt_image j;
     cancel_sign := cancel_sign j; cancel_message := v |}.

(** The host state the job reads and writes through [self.scene],
    [bpy.data] and [os]: the frame range and render settings of the scene,
    the add-on settings, the objects (an object is referred to by its
    index; a removed one leaves [None]), the image files on disk with
    their pixels, the pixels of the last render ("Render Result"), the path
    of the open .blend file and the record in the lockfile. *)
Record Blender : Type := mkBlender {
  frame_start : Z;
  frame_end : Z;
  frame_current : Z;
  frame_subframe : R;
  engine : string;
  cycles_seed : Z;
  use_animated_seed : bool;
  resolution_x : Z;
  resolution_y : Z;
  camera : option nat;
  views_format : string;
  views : list RenderView;
  collection_objects : list nat;
  focalPlane : R;
  lookingglassCamera : option nat;
  render_cancel : bool;
  render_output : string;
  render_progress : Z;
  objects : list (option Object);
  files : gmap string ndarray;
  render_result : ndarray;
  blend_filepath : string;
  lockfile : option RenderJob
}.

(** Assignments to the host state. *)
Definition set_frame_current (v : Z) (b : Blender) : Blender :=
  {| frame_start := frame_start b; frame_end := frame_end b; frame_current := v;
     frame_subframe := frame_subframe b; engine := engine b; cycles_seed := cycles_seed b;
     use_animated_seed := use_animated_seed b; resolution_x := resolution_x b;
     resolution_y := resolution_y b; camera := camera b; views_format := views_format b;
     views := views b; collection_objects := collection_objects b; focalPlane := focalPlane b;
     lookingglassCamera := lookingglassCamera b; render_cancel := render_cancel b;
     render_output := render_output b; render_progress := render_progress b;
     objects := objects b; files := files b; render_result := render_result b;
     blend_filepath := blend_filepath b; lockfile := lockfile b |}.

Definition set_frame_subframe (v : R) (b : Blender) : Blender :=
  {| frame_start := frame_start b; frame_end := frame_end b; frame_current := frame_current b;
     frame_subframe := v; engine := engine b; cycles_seed := cycles_seed b;
     use_animated_seed := use_animated_seed b; resolution_x := resolution_x b;
     resolution_y := resolution_y b; camera := camera b; views_format := views_format b;
     views := views b; collection_objects := collection_objects b; focalPlane := focalPlane b;
     lookingglassCamera := lookingglassCamera b; render_cancel := render_cancel b;
     render_output := render_output b; render_progress := render_progress b;
     objects := objects b; files := files b; render_result := render_result b;
     blend_filepath := blend_filepath b; lockfile := lockfile b |}.

Definition set_cycles_seed (v : Z) (b : Blender) : Blender :=
  {| frame_start := frame_start b; frame_end := frame_end b; frame_current := frame_current b;
     frame_subframe := frame_subframe b; engine := engine b; cycles_seed := v;
     use_animated_seed := use_animated_seed b; resolution_x := resolution_x b;
     resolution_y := resolution_y b; camera := camera b; views_format := views_format b;
     views := views b; collection_objects := collection_objects b; focalPlane := focalPlane b;
     lookingglassCamera := lookingglassCamera b; render_cancel := render_cancel b;
     render_output := render_output b; render_progress := render_progress b;
     objects := objects b; files := files b; render_result := render_result b;
     blend_filepath := blend_filepath b; lockfile := lockfile b |}.

Definition set_camera (v : option nat) (b : Blender) : Blender :=
  {| frame_start := frame_start b; frame_end := frame_end b; frame_current := frame_current b;
     frame_subframe := frame_subframe b; engine := engine b; cycles_seed := cycles_seed b;
     use_animated_seed := use_animated_seed b; resolution_x := resolution_x b;
     resolution_y := resolution_y b; camera := v; views_format := views_format b;
     views := views b; collection_objects := collection_objects b; focalPlane := focalPlane b;
     lookingglassCamera := lookingglassCamera b; render_cancel := render_cancel b;
     render_output := render_output b; render_progress := render_progress b;
     objects := objects b; files := files b; render_result := render_result b;
     blend_filepath := blend_filepath b; lockfile := lockfile b |}.

Definition set_views_format (v : string) (b : Blender) : Blender :=
  {| frame_start := frame_start b; frame_end := frame_end b; frame_current := frame_current b;
     frame_subframe := frame_subframe b; engine := engine b; cycles_seed := cycles_seed b;
     use_animated_seed := use_animated_seed b; resolution_x := resolution_x b;
     resolution_y := resolution_y b; camera := camera b; views_format := v; views := views b;
     collection_objects := collection_objects b; focalPlane := focalPlane b;
     lookingglassCamera := lookingglassCamera b; render_cancel := render_cancel b;
     render_output := render_output b; render_progress := render_progress b;
     objects := objects b; files := files b; render_result := render_result b;
     blend_filepath := blend_filepath b; lockfile := lockfile b |}.

Definition set_views (v : list RenderView) (b : Blender) : Blender :=
  {| frame_start := frame_start b; frame_end := frame_end b; frame_current := frame_current b;
     frame_subframe := frame_subframe b; engine := engine b; cycles_seed := cycles_seed b;
     use_animated_seed := use_animated_seed b; resolution_x := resolution_x b;
     resolution_y := resolution_y b; camera := camera b; views_format := views_format b;
     views := v; collection_objects := collection_objects b; focalPlane := focalPlane b;
     lookingglassCamera := lookingglassCamera b; render_cancel := render_cancel b;
     render_output := render_output b; render_progress := render_progress b;
     objects := objects b; files := files b; render_result := render_result b;
     blend_filepath := blend_filepath b; lockfile := lockfile b |}.

Definition set_collection_objects (v : list nat) (b : Blender) : Blender :=
  {| frame_start := frame_start b; frame_end := frame_end b; frame_current := frame_current b;
     frame_subframe := frame_subframe b; engine := engine b; cycles_seed := cycles_seed b;
     use_animated_seed := use_animated_seed b; resolution_x := resolution_x b;
     resolution_y := resolution_y b; camera := camera b; views_format := views_format b;
     views := views b; collection_objects := v; focalPlane := focalPlane b;
     lookingglassCamera := lookingglassCamera b; render_cancel := render_cancel b;
     render_output := render_output b; render_progress := render_progress b;
     objects := objects b; files := files b; render_result := render_result b;
     blend_filepath := blend_filepath b; lockfile := lockfile b |}.

Definition set_render_cancel (v : bool) (b : Blender) : Blender :=
  {| frame_start := frame_start b; frame_end := frame_end b; frame_current := frame_current b;
     frame_subframe := frame_subframe b; engine := engine b; cycles_seed := cycles_seed b;
     use_animated_seed := use_animated_seed b; resolution_x := resolution_x b;
     resolution_y := resolution_y b; camera := camera b; views_format := views_format b;
     views := views b; collection_objects := collection_objects b; focalPlane := focalPlane b;
     lookingglassCamera := lookingglassCamera b; render_cancel := v;
     render_output := render_output b; render_progress := render_progress b;
     objects := objects b; files := files b; render_result := render_result b;
     blend_filepath := blend_filepath b; lockfile := lockfile b |}.

Definition set_render_progress (v : Z) (b : Blender) : Blender :=
  {| frame_start := frame_start b; frame_end := frame_end b; frame_current := frame_current b;
     frame_subframe := frame_subframe b; engine := engine b; cycles_seed := cycles_seed b;
     use_animated_seed := use_animated_seed b; resolution_x := resolution_x b;
     resolution_y := resolution_y b; camera := camera b; views_format := views_format b;
     views := views b; collection_objects := collection_objects b; focalPlane := focalPlane b;
     lookingglassCamera := lookingglassCamera b; render_cancel := render_cancel b;
     render_output := render_output b; render_progress := v; objects := objects b;
     files := files b; render_result := render_result b; blend_filepath := blend_filepath b;
     lockfile := lockfile b |}.

Definition set_objects (v : list (option Object)) (b : Blender) : Blender :=
  {| frame_start := frame_start b; frame_end := frame_end b; frame_current := frame_current b;
     frame_subframe := frame_subframe b; engine := engine b; cycles_seed := cycles_seed b;
     use_animated_seed := use_animated_seed b; resolution_x := resolution_x b;
     resolution_y := resolution_y b; camera := camera b; views_format := views_format b;
     views := views b; collection_objects := collection_objects b; focalPlane := focalPlane b;
     lookingglassCamera := lookingglassCamera b; render_cancel := render_cancel b;
     render_output := render_output b; render_progress := render_progress b; objects := v;
     files := files b; render_result := render_result b; blend_filepath := blend_filepath b;
     lockfile := lockfile b |}.

Definition set_files (v : gmap string ndarray) (b : Blender) : Blender :=
  {| frame_start := frame_start b; frame_end := frame_end b; frame_current := frame_current b;
     frame_subframe := frame_subframe b; engine := engine b; cycles_seed := cycles_seed b;
     use_animated_seed := use_animated_seed b; resolution_x := resolution_x b;
     resolution_y := resolution_y b; camera := camera b; views_format := views_format b;
     views := views b; collection_objects := collection_objects b; focalPlane := focalPlane b;
     lookingglassCamera := lookingglassCamera b; render_cancel := render_cancel b;
     render_output := render_output b; render_progress := render_progress b;
     objects := objects b; files := v; render_result := render_result b;
     blend_filepath := blend_filepath b; lockfile := lockfile b |}.

Definition set_lockfile (v : option RenderJob) (b : Blender) : Blender :=
  {| frame_start := frame_start b; frame_end := frame_end b; frame_current := frame_current b;
     frame_subframe := frame_subframe b; engine := engine b; cycles_seed := cycles_seed b;
     use_animated_seed := use_animated_seed b; resolution_x := resolution_x b;
     resolution_y := resolution_y b; camera := camera b; views_format := views_format b;
     views := views b; collection_objects := collection_objects b; focalPlane := focalPlane b;
     lookingglassCamera := lookingglassCamera b; render_cancel := render_cancel b;
     render_output := render_output b; render_progress := render_progress b;
     objects := objects b; files := files b; render_result := render_result b;
     blend_filepath := blend_filepath b; lockfile := v |}.

Definition set_engine (v : string) (b : Blender) : Blender :=
  {| frame_start := frame_start b; frame_end := frame_end b; frame_current := frame_current b;
     frame_subframe := frame_subframe b; engine := v; cycles_seed := cycles_seed b;
     use_animated_seed := use_animated_seed b; resolution_x := resolution_x b;
     resolution_y := resolution_y b; camera := camera b; views_format := views_format b;
     views := views b; collection_objects := collection_objects b; focalPlane := focalPlane b;
     lookingglassCamera := lookingglassCamera b; render_cancel := render_cancel b;
     render_output := render_output b; render_progress := render_progress b;
     objects := objects b; files := files b; render_result := render_result b;
     blend_filepath := blend_filepath b; lockfile := lockfile b |}.

Definition set_use_animated_seed (v : bool) (b : Blender) : Blender :=
  {| frame_start := frame_start b; frame_end := frame_end b; frame_current := frame_current b;
     frame_subframe := frame_subframe b; engine := engine b; cycles_seed := cycles_seed b;
     use_animated_seed := v; resolution_x := resolution_x b; resolution_y := resolution_y b;
     camera := camera b; views_format := views_format b; views := views b;
     collection_objects := collection_objects b; focalPlane := focalPlane b;
     lookingglassCamera := lookingglassCamera b; render_cancel := render_cancel b;
     render_output := render_output b; render_progress := render_progress b;
     objects := objects b; files := files b; render_result := render_result b;
     blend_filepath := blend_filepath b; lockfile := lockfile b |}.

Definition set_resolution_x (v : Z) (b : Blender) : Blender :=
  {| frame_start := frame_start b; frame_end := frame_end b; frame_current := frame_current b;
     frame_subframe := frame_subframe b; engine := engine b; cycles_seed := cycles_seed b;
     use_animated_seed := use_animated_seed b; resolution_x := v; resolution_y := resolution_y b;
     camera := camera b; views_format := views_format b; views := views b;
     collection_objects := collection_objects b; focalPlane := focalPlane b;
     lookingglassCamera := lookingglassCamera b; render_cancel := render_cancel b;
     render_output := render_output b; render_progress := render_progress b;
     objects := objects b; files := files b; render_result := render_result b;
     blend_filepath := blend_filepath b; lockfile := lockfile b |}.

Definition set_resolution_y (v : Z) (b : Blender) : Blender :=
  {| frame_start := frame_start b; frame_end := frame_end b; frame_current := frame_current b;
     frame_subframe := frame_subframe b; engine := engine b; cycles_seed := cycles_seed b;
     use_animated_seed := use_animated_seed b; resolution_x := resolution_x b; resolution_y := v;
     camera := camera b; views_format := views_format b; views := views b;
     collection_objects := collection_objects b; focalPlane := focalPlane b;
     lookingglassCamera := lookingglassCamera b; render_cancel := render_cancel b;
     render_output := render_output b; render_progress := render_progress b;
     objects := objects b; files := files b; render_result := render_result b;
     blend_filepath := blend_filepath b; lockfile := lockfile b |}.

Definition set_frame_start (v : Z) (b : Blender) : Blender :=
  {| frame_start := v; frame_end := frame_end b; frame_current := frame_current b;
     frame_subframe := frame_subframe b; engine := engine b; cycles_seed := cycles_seed b;
     use_animated_seed := use_animated_seed b; resolution_x := resolution_x b;
     resolution_y := resolution_y b; camera := camera b; views_format := views_format b;
     views := views b; collection_objects := collection_objects b; focalPlane := focalPlane b;
     lookingglassCamera := lookingglassCamera b; render_cancel := render_cancel b;
     render_output := render_output b; render_progress := render_progress b;
     objects := objects b; files := files b; render_result := render_result b;
     blend_filepath := blend_filepath b; lockfile := lockfile b |}.

Definition set_frame_end (v : Z) (b : Blender) : Blender :=
  {| frame_start := frame_start b; frame_end := v; frame_current := frame_current b;
     frame_subframe := frame_subframe b; engine := engine b; cycles_seed := cycles_seed b;
     use_animated_seed := use_animated_seed b; resolution_x := resolution_x b;
     resolution_y := resolution_y b; camera := camera b; views_format := views_format b;
     views := views b; collection_objects := collection_objects b; focalPlane := focalPlane b;
     lookingglassCamera := lookingglassCamera b; render_cancel := render_cancel b;
     render_output := render_output b; render_progress := render_progress b;
     objects := objects b; files := files b; render_result := render_result b;
     blend_filepath := blend_filepath b; lockfile := lockfile b |}.

Definition set_focalPlane (v : R) (b : Blender) : Blender :=
  {| frame_start := frame_start b; frame_end := frame_end b; frame_current := frame_current b;
     frame_subframe := frame_subframe b; engine := engine b; cycles_seed := cycles_seed b;
     use_animated_seed := use_animated_seed b; resolution_x := resolution_x b;
     resolution_y := resolution_y b; camera := camera b; views_format := views_format b;
     views := views b; collection_objects := collection_objects b; focalPlane := v;
     lookingglassCamera := lookingglassCamera b; render_cancel := render_cancel b;
     render_output := render_output b; render_progress := render_progress b;
     objects := objects b; files := files b; render_result := render_result b;
     blend_filepath := blend_filepath b; lockfile := lockfile b |}.

Definition set_lookingglassCamera (v : option nat) (b : Blender) : Blender :=
  {| frame_start := frame_start b; frame_end := frame_end b; frame_current := frame_current b;
     frame_subframe := frame_subframe b; engine := engine b; cycles_seed := cycles_seed b;
     use_animated_seed := use_animated_seed b; resolution_x := resolution_x b;
     resolution_y := resolution_y b; camera := camera b; views_format := views_format b;
     views := views b; collection_objects := collection_objects b; focalPlane := focalPlane b;
     lookingglassCamera := v; render_cancel := render_cancel b; render_output := render_output b;
     render_progress := render_progress b; objects := objects b; files := files b;
     render_result := render_result b; blend_filepath := blend_filepath b;
     lockfile := lockfile b |}.

Definition set_render_output (v : string) (b : Blender) : Blender :=
  {| frame_start := frame_start b; frame_end := frame_end b; frame_current := frame_current b;
     frame_subframe := frame_subframe b; engine := engine b; cycles_seed := cycles_seed b;
     use_animated_seed := use_animated_seed b; resolution_x := resolution_x b;
     resolution_y := resolution_y b; camera := camera b; views_format := views_format b;
     views := views b; collection_objects := collection_objects b; focalPlane := focalPlane b;
     lookingglassCamera := lookingglassCamera b; render_cancel := render_cancel b;
     render_output := v; render_progress := render_progress b; objects := objects b;
     files := files b; render_result := render_result b; blend_filepath := blend_filepath b;
     lockfile := lockfile b |}.

(** The copies of the scene's render settings held by [RenderSettings]
    that the operator reads back, with the snapshot taken when the settings
    were created ([original]); and the operator's own attributes, with the
    messages it has passed to [self.report]. *)
Record Snapshot : Type := mkSnapshot {
  saved_job : RenderJob;
  saved_host : Blender;
  saved_frame_step : Z;
  saved_engine : string;
  saved_use_lock_interface : bool
}.

Record RenderSettings : Type := mkRenderSettings {
  frame_step : Z;
  settings_engine : string;
  use_lock_interface : bool;
  original : Snapshot
}.

Record Operator : Type := mkOperator {
  op_animation : bool;
  op_use_lockfile : bool;
  discard_lockfile : bool;
  op_use_multiview : bool;
  op_cancel_sign : string;
  op_cancel_message : string;
  reports : list (string * string)
}.

Definition set_use_lock_interface (v : bool) (s : RenderSettings) : RenderSettings :=
  mkRenderSettings (frame_step s) (settings_engine s) v (original s).

Definition set_op_use_lockfile (v : bool) (o : Operator) : Operator :=
  mkOperator (op_animation o) v (discard_lockfile o) (op_use_multiview o)
    (op_cancel_sign o) (op_cancel_message o) (reports o).

Definition set_op_cancel_sign (v : string) (o : Operator) : Operator :=
  mkOperator (op_animation o) (op_use_lockfile o) (discard_lockfile o) (op_use_multiview o)
    v (op_cancel_message o) (reports o).

Definition set_op_cancel_message (v : string) (o : Operator) : Operator :=
  mkOperator (op_animation o) (op_use_lockfile o) (discard_lockfile o) (op_use_multiview o)
    (op_cancel_sign o) v (reports o).

Definition add_report (sign message : string) (o : Operator) : Operator :=
  mkOperator (op_animation o) (op_use_lockfile o) (discard_lockfile o) (op_use_multiview o)
    (op_cancel_sign o) (op_cancel_message o) (reports o ++ [(sign, message)]).

(** Everything a handler or the operator can reach. *)
Record World : Type := mkWorld {
  operator : Operator;
  render_settings : RenderSettings;
  job : RenderJob;
  host : Blender
}.

(** ** Statements with effects

    A method is a function from the state before it to its [outcome]: it
    returns, or it raises; either way the state reached is kept, so that
    what was assigned before an exception stays assigned. *)
Inductive outcome (A : Type) : Type :=
| Done (a : A) (w : World)
| Raised (e : exn) (w : World).
Arguments Done {A} a w.
Arguments Raised {A} e w.

Definition M (A : Type) : Type := World -> outcome A.

#[global] Instance M_ret : MRet M := fun A a w => Done a w.
#[global] Instance M_bind : MBind M := fun A B k m w =>
  match m w with
  | Done a w' => k a w'
  | Raised e w' => Raised e w'
  end.

(** A pure computation that may raise. *)
Definition lift {A : Type} (r : result A) : M A := fun w =>
  match r with
  | Ok a => Done a w
  | Raise e => Raised e w
  end.

(** Reading [self] and the host, and assigning to them. *)
Definition world : M World := fun w => Done w w.
Definition self : M RenderJob := fun w => Done (job w) w.
Definition bpy : M Blender := fun w => Done (host w) w.

Definition assign (f : RenderJob -> RenderJob) : M unit := fun w =>
  Done tt (mkWorld (operator w) (render_settings w) (f (job w)) (host w)).

Definition assign_host (f : Blender -> Blender) : M unit := fun w =>
  Done tt (mkWorld (operator w) (render_settings w) (job w) (f (host w))).

Definition assign_operator (f : Operator -> Operator) : M unit := fun w =>
  Done tt (mkWorld (f (operator w)) (render_settings w) (job w) (host w)).

Definition assign_settings (f : RenderSettings -> RenderSettings) : M unit := fun w =>
  Done tt (mkWorld (operator w) (f (render_settings w)) (job w) (host w)).

Definition skip : M unit := mret tt.

(** [for i in range(0, n): body i], by recursion on the number of rounds. *)
Fixpoint for_range_from (start : Z) (rounds : nat) (body : Z -> M unit) : M unit :=
  match rounds with
  | O => skip
  | S k => body start ;; for_range_from (start + 1) k body
  end.

Definition for_range (n : Z) (body : Z -> M unit) : M unit :=
  for_range_from 0 (Z.to_nat n) body.

(** ** The lockfile record

    [RenderSettings.to_dict] and [from_dict] work by reflection, on the
    names and the types of the attributes they find.  Python values are
    therefore modelled as a tree; an instance is the list of its attributes
    in the order of its [__dict__]. *)

(** The classes [to_dict] tells apart: an instance with a [__dict__] (the
    settings and the job), the add-on settings, and the settings of a
    render engine ([scene.eevee], [scene.cycles], [scene.cycles_curves]). *)
Inductive pyclass : Type := PlainObject | AddonSettings | EngineSettings.

(** The collections of [bpy.data] that [from_dict] looks names up in. *)
Inductive datablock : Type := SceneData | ImageData | ObjectData.

#[global] Instance datablock_eq_dec : EqDecision datablock.
Proof. solve_decision. Defined.

#[local] Set Warnings "-register-all".

Inductive pyval : Type :=
| VNone
| VBool (b : bool)
| VInt (i : Z)
| VFloat (f : R)
| VStr (s : string)
| VList (l : list pyval)
| VDict (d : list (string * pyval))
| VObject (c : pyclass) (attrs : list (string * pyval))
| VData (k : datablock) (n : string)
| VHandle.

(** [VData k n] is the data block named [n] of [bpy.data]; [VHandle] is any
    other live value (a camera object, a matrix, an image, a pixel array). *)

(** The names in [bpy.data.scenes], [bpy.data.images], [bpy.data.objects]. *)
Record BlendData : Type := mkBlendData {
  scenes : list string;
  images : list string;
  data_objects : list string
}.

Definition startswith_ (key : string) : bool :=
  match key with
  | String c _ => Ascii.eqb c "_"
  | EmptyString => false
  end.

Definition is_in (key : string) (l : list string) : bool :=
  existsb (String.eqb key) l.

(** [to_dict(obj)].  The attributes listed for an instance are the ones
    that are not callable; the probes for [_ast] and [_asdict] do not
    apply to any value of the model. *)
Fixpoint to_dict (obj : pyval) : pyval :=
  let fix items (d : list (string * pyval)) : list (string * pyval) :=
    match d with
    | [] => []
    | (k, v) :: rest => (k, to_dict v) :: items rest
    end in
  let fix public_items (excluded : list string) (d : list (string * pyval))
      : list (string * pyval) :=
    match d with
    | [] => []
    | (key, value) :: rest =>
        if (negb (startswith_ key) && negb (is_in key excluded))%bool
        then (key, to_dict value) :: public_items excluded rest
        else public_items excluded rest
    end in
  let fix elements (l : list pyval) : list pyval :=
    match l with
    | [] => []
    | v :: rest => to_dict v :: elements rest
    end in
  match obj with
  | VDict d => VDict (items d)
  | VObject AddonSettings attrs =>
      VDict (public_items ["bl_rna"; "rna_type"; "blender_view3d"] attrs)
  | VObject EngineSettings attrs => VDict (public_items ["bl_rna"; "rna_type"] attrs)
  | VList l => VList (elements l)
  | VObject PlainObject attrs => VDict (public_items [] attrs)
  | VData _ n => VStr n
  | VBool _ | VInt _ | VFloat _ | VStr _ => obj
  | VNone | VHandle => VNone
  end.

(** Attribute and item access on a list of pairs. *)
Fixpoint lookup_key (key : string) (d : list (string * pyval)) : option pyval :=
  match d with
  | [] => None
  | (k, v) :: rest => if String.eqb k key then Some v else lookup_key key rest
  end.

Fixpoint store_key (key : string) (v : pyval) (d : list (string * pyval))
  : list (string * pyval) :=
  match d with
  | [] => [(key, v)]
  | (k, old) :: rest =>
      if String.eqb k key then (k, v) :: rest else (k, old) :: store_key key v rest
  end.

(** [getattr(object, key)] *)
Definition getattr (object : pyval) (key : string) : result pyval :=
  match object with
  | VObject _ attrs =>
      match lookup_key key attrs with
      | Some v => Ok v
      | None => Raise AttributeError
      end
  | _ => Raise AttributeError
  end.

(** [setattr(object, key, value)]: any attribute of a plain instance can be
    set; a Blender structure refuses names it does not have. *)
Definition setattr (object : pyval) (key : string) (value : pyval) : result pyval :=
  match object with
  | VObject PlainObject attrs => Ok (VObject PlainObject (store_key key value attrs))
  | VObject c attrs =>
      match lookup_key key attrs with
      | Some _ => Ok (VObject c (store_key key value attrs))
      | None => Raise AttributeError
      end
  | _ => Raise AttributeError
  end.

(** [try: setattr(object, key, value)
    except: warning("Could not set key '%s'. Instead using value '%s'"
                    % (key, str(getattr(object, key))))]:
    an assignment that is refused is passed over; but the warning reads
    the attribute, and this raises again when the object has none of that
    name. *)
Definition try_setattr (object : pyval) (key : string) (value : pyval) : result pyval :=
  match setattr object key value with
  | Ok object' => Ok object'
  | Raise _ => _ ← getattr object key; Ok object
  end.

(** The object whose attribute [key] refers to an instance that has been
    changed in place to [inner]. *)
Definition mutated (object : pyval) (key : string) (inner : pyval) : pyval :=
  match object with
  | VObject c attrs => VObject c (store_key key inner attrs)
  | _ => object
  end.

(** [bpy.data.<collection>[value]], [names] being the names of the
    collection in its order: a string is looked up as a name ([KeyError]
    when there is none); an [int], and so a [bool], is a position, counted
    from the end when it is negative ([IndexError] when out of range);
    any other value is a [TypeError]. *)
Definition data_lookup (names : list string) (k : datablock) (value : pyval)
  : result pyval :=
  let at_position (i : Z) : result pyval :=
    let p := if i <? 0 then Z.of_nat (length names) + i else i in
    if p <? 0 then Raise IndexError
    else match names !! Z.to_nat p with
         | Some n => Ok (VData k n)
         | None => Raise IndexError
         end in
  match value with
  | VStr n => if is_in n names then Ok (VData k n) else Raise KeyError
  | VInt i => at_position i
  | VBool b => at_position (if b then 1 else 0)
  | _ => Raise TypeError
  end.

Definition is_none (v : pyval) : bool :=
  match v with
  | VNone => true
  | _ => false
  end.

Definition is_dict (v : pyval) : bool :=
  match v with
  | VDict _ => true
  | _ => false
  end.

(** [from_dict(object, dictionary)]; the object after the assignments is
    returned. *)
Fixpoint from_dict (bd : BlendData) (object : pyval) (dictionary : pyval)
  {struct dictionary} : result pyval :=
  match dictionary with
  | VDict d =>
      (fix items (object : pyval) (d : list (string * pyval)) {struct d} : result pyval :=
         match d with
         | [] => Ok object
         | (key, value) :: rest =>
             object' ←
               (if (String.eqb key "scene" && negb (is_none value))%bool then
                  v ← data_lookup (scenes bd) SceneData value; setattr object key v
                else if (String.eqb key "quiltImage" && negb (is_none value))%bool then
                  v ← data_lookup (images bd) ImageData value; setattr object key v
                else if (String.eqb key "lookingglassCamera" && negb (is_none value))%bool then
                  v ← data_lookup (data_objects bd) ObjectData value; setattr object key v
                else
                  match value with
                  | VDict _ =>
                      current ← getattr object key;
                      if is_dict current then try_setattr object key value
                      else
                        inner ← from_dict bd current value;
                        Ok (mutated object key inner)
                  | VBool _ | VInt _ | VFloat _ | VStr _ | VList _ =>
                      try_setattr object key value
                  | _ => Ok object
                  end);
             items object' rest
         end) object d
  | _ => Raise AttributeError
  end.

(** What [json.dumps] accepts, and gives back unchanged through
    [json.load]: [None], booleans, numbers, strings, lists and
    dictionaries of these. *)
Fixpoint json_value (v : pyval) : bool :=
  let fix all_items (d : list (string * pyval)) : bool :=
    match d with
    | [] => true
    | (_, v) :: rest => (json_value v && all_items rest)%bool
    end in
  let fix all_elements (l : list pyval) : bool :=
    match l with
    | [] => true
    | v :: rest => (json_value v && all_elements rest)%bool
    end in
  match v with
  | VNone | VBool _ | VInt _ | VFloat _ | VStr _ => true
  | VList l => all_elements l
  | VDict d => all_items d
  | VObject _ _ | VData _ _ | VHandle => false
  end.

Definition json_dumps (v : pyval) : result pyval :=
  if json_value v then Ok v else Raise TypeError.

Definition json_load (text : pyval) : pyval := text.

(** The text [write_to_lockfile] writes for the settings object [settings]
    when the open file is [blend_file]. *)
Definition lockfile_text (settings : pyval) (blend_file : string) : result pyval :=
  match to_dict settings with
  | VDict settings_dict => json_dumps (VDict (store_key "blend_file" (VStr blend_file) settings_dict))
  | _ => Raise TypeError
  end.

(** [read_from_lockfile] on the settings object of the new session.
    ([apply_to_scene] writes to the scene and leaves the settings as they
    are.) *)
Definition read_from_lockfile (bd : BlendData) (settings : pyval) (text : pyval)
  : result pyval :=
  from_dict bd settings (json_load text).

(** The end of [RenderSettings.__init__] when the lockfile is used:
    [self.read_from_lockfile()], then [self.job.init = True]. *)
Definition resume (bd : BlendData) (settings : pyval) (text : pyval) : result pyval :=
  settings ← read_from_lockfile bd settings text;
  j ← getattr settings "job";
  j ← setattr j "init" (VBool true);
  setattr settings "job" j.

(** *** The attributes of a job as Python sees them *)

Definition of_option {A : Type} (f : A -> pyval) (o : option A) : pyval :=
  match o with
  | Some a => f a
  | None => VNone
  end.

Definition state_name (s : State) : string :=
  match s with
  | INVOKE_RENDER => "INVOKE_RENDER"
  | INIT_RENDER => "INIT_RENDER"
  | PRE_RENDER => "PRE_RENDER"
  | POST_RENDER => "POST_RENDER"
  | COMPLETE_RENDER => "COMPLETE_RENDER"
  | CANCEL_RENDER => "CANCEL_RENDER"
  | IDLE => "IDLE"
  end.

(** An attribute that exists only once it has been assigned. *)
Definition if_set (key : string) (o : option string) : list (string * pyval) :=
  match o with
  | Some s => [(key, VStr s)]
  | None => []
  end.

(** [job.__dict__], in the order of the assignments of [__init__].  The
    values tied to live handles or buffers are not looked into. *)
Definition RenderJob_dict (j : RenderJob) : list (string * pyval) :=
  [ ("init", VBool (init j));
    ("add_suffix", VBool (add_suffix j));
    ("scene", VData SceneData (scene j));
    ("animation", VBool (animation j));
    ("_use_lockfile", VBool (_use_lockfile j));
    ("use_multiview", VBool (use_multiview j));
    ("_state", VStr (state_name (_state j)));
    ("frame", VInt (frame j));
    ("subframe", VFloat (subframe j));
    ("view", VInt (view j));
    ("seed", of_option VInt (seed j));
    ("view_width", of_option VInt (view_width j));
    ("view_height", of_option VInt (view_height j));
    ("rows", of_option VInt (rows j));
    ("columns", of_option VInt (columns j));
    ("total_views", of_option VInt (total_views j));
    ("quilt_aspect", of_option VFloat (quilt_aspect j));
    ("view_cone", of_option VFloat (view_cone j));
    ("lockfile_path", of_option VStr (lockfile_path j));
    ("outputpath", of_option VStr (outputpath j));
    ("file_use_temp", VBool (file_use_temp j));
    ("file_temp_name", VStr (file_temp_name j));
    ("file_dirname", of_option VStr (file_dirname j));
    ("file_basename", of_option VStr (file_basename j));
    ("file_extension", of_option VStr (file_extension j));
    ("file_quilt_suffix", of_option VStr (file_quilt_suffix j));
    ("file_force_keep", VBool (file_force_keep j));
    ("_camera_temp_basename", VStr (_camera_temp_basename j));
    ("_camera_temp", VHandle);
    ("_camera_active", VHandle);
    ("_camera_original", VHandle);
    ("_multiview_view_basename", VStr (_multiview_view_basename j));
    ("_view_matrix", VHandle);
    ("_view_matrix_inv", VHandle);
    ("_view_image", VHandle);
    ("_view_images_pixels", VHandle);
    ("_quilt_image", VHandle) ]
  ++ if_set "cancel_sign" (cancel_sign j)
  ++ if_set "cancel_message" (cancel_message j).

(** The settings object, as far as the job is concerned: the job under
    [job], and the attributes of the settings themselves. *)
Definition settings_object (j : RenderJob) (others : list (string * pyval)) : pyval :=
  VObject PlainObject (("job", VObject PlainObject (RenderJob_dict j)) :: others).

(** The settings object with its attributes in the order of its
    [__dict__]: [scene], [animation], [use_multiview] and [addon_settings]
    are assigned [before] the job, the attributes copied from the render
    settings of the scene, [filepath] and [original] [after] it. *)
Definition settings_instance (before : list (string * pyval)) (j : RenderJob)
    (after : list (string * pyval)) : pyval :=
  VObject PlainObject (before ++ ("job", VObject PlainObject (RenderJob_dict j)) :: after).

(** *** What restoring a record does to a job

    [restore_original] reads the snapshot back with [from_dict] and
    applies it to the scene.  On the attributes of the model this is: every
    attribute of the job whose name has no leading underscore takes the
    saved value unless that value is [None]; the render settings and the
    add-on settings of the scene take the saved values. *)

Definition saved_or {A : Type} (saved current : option A) : option A :=
  match saved with
  | Some _ => saved
  | None => current
  end.

Definition restore_fields (saved j : RenderJob) : RenderJob :=
  {| init := init saved; add_suffix := add_suffix saved; scene := scene saved;
     animation := animation saved; _use_lockfile := _use_lockfile j;
     use_multiview := use_multiview saved; _state := _state j; frame := frame saved;
     subframe := subframe saved; view := view saved; seed := saved_or (seed saved) (seed j);
     view_width := saved_or (view_width saved) (view_width j);
     view_height := saved_or (view_height saved) (view_height j);
     rows := saved_or (rows saved) (rows j);
     columns := saved_or (columns saved) (columns j);
     total_views := saved_or (total_views saved) (total_views j);
     quilt_aspect := saved_or (quilt_aspect saved) (quilt_aspect j);
     view_cone := saved_or (view_cone saved) (view_cone j);
     lockfile_path := saved_or (lockfile_path saved) (lockfile_path j);
     outputpath := saved_or (outputpath saved) (outputpath j);
     file_use_temp := file_use_temp saved; file_temp_name := file_temp_name saved;
     file_dirname := saved_or (file_dirname saved) (file_dirname j);
     file_basename := saved_or (file_basename saved) (file_basename j);
     file_extension := saved_or (file_extension saved) (file_extension j);
     file_quilt_suffix := saved_or (file_quilt_suffix saved) (file_quilt_suffix j);
     file_force_keep := file_force_keep saved;
     _camera_temp_basename := _camera_temp_basename j; _camera_temp := _camera_temp j;
     _camera_active := _camera_active j; _camera_original := _camera_original j;
     _multiview_view_basename := _multiview_view_basename j;
     _view_matrix := _view_matrix j; _view_matrix_inv := _view_matrix_inv j;
     _view_image := _view_image j; _view_images_pixels := _view_images_pixels j;
     _quilt_image := _quilt_image j;
     cancel_sign := saved_or (cancel_sign saved) (cancel_sign j);
     cancel_message := saved_or (cancel_message saved) (cancel_message j) |}.


(** ** The view angle in double precision

    A Python [float] is an IEEE 754 double.  The definitions of this file
    compute with real numbers, which is the arithmetic the formulas of the
    source are written for; the definitions below compute the angle of a
    view again with the doubles of the kernel, operation by operation and
    each one rounded to the nearest double as the processor does it, to
    tell what of the exact results holds of the rounded ones.  [math.tan]
    is the C library's and is left out. *)
Section Binary64.
Import PrimFloat.

(** The double nearest to [m * 2^e], a tie going to the even one. *)
Definition round_binary64 (m e : Z) : float :=
  FloatOps.SF2Prim (SpecFloat.binary_normalize FloatOps.prec FloatOps.emax m e false).

(** [a / b] on two [int]s: the double nearest to the quotient;
    [ZeroDivisionError] for a zero divisor, [OverflowError] when the
    quotient is beyond the doubles.  The quotient is taken with 56 bits or
    more and one bit that tells whether anything was left. *)
Definition int_truediv_binary64 (a b : Z) : result float :=
  if b =? 0 then Raise ZeroDivisionError
  else if a =? 0 then Ok (if b <? 0 then (-0)%float else 0%float)
  else
    let k := Z.max 0 (Z.log2 (Z.abs b) - Z.log2 (Z.abs a) + 56) in
    let n := Z.abs a * 2 ^ k in
    let m := 2 * (n / Z.abs b) + (if n mod Z.abs b =? 0 then 0 else 1) in
    let q := round_binary64 (if xorb (a <? 0) (b <? 0) then - m else m) (- k - 1) in
    if is_infinity q then Raise OverflowError else Ok q.

(** [math.pi] and [math.radians], which multiplies by [pi / 180]. *)
Definition pi_binary64 : float := 0x1.921fb54442d18p+1%float.

Definition radians_binary64 (x : float) : float := (x * (pi_binary64 / 180))%float.

(** [offsetAngle = (0.5 - self.view / (self.total_views - 1)) * radians(self.view_cone)] *)
Definition offsetAngle_binary64 (view : Z) (total_views : option Z)
    (view_cone : option float) : result float :=
  total ← need total_views;
  q ← int_truediv_binary64 view (total - 1);
  cone ← need view_cone;
  Ok ((0.5 - q) * radians_binary64 cone)%float.

End Binary64.


Section Host.

(** [str(x)] for a float [x]; the digits Python prints are not part of
    the source. *)
Variable float_str : R -> string.

(** What the job calls from [mathutils]: [A @ B], [A @ v],
    [Matrix.Scale(factor, size, axis)], [Matrix.Translation(v)] and
    [A.inverted_safe()]. *)
Variable matmul : Matrix -> Matrix -> Matrix.
Variable matvec : Matrix -> Vector -> Vector.
Variable Matrix_Scale : R -> Z -> Vector -> Matrix.
Variable Matrix_Translation : Vector -> Matrix.
Variable inverted_safe : Matrix -> Matrix.

(** [scene.frame_set(frame, subframe=...)]: the host takes the scene to the
    frame and evaluates its animation again, which may move its objects and
    change whatever else is animated.  What it does is the host's; the
    source relies on the call and reads the scene after it. *)
Variable frame_set : Z -> R -> Blender -> Blender.

(** ** File path handling *)

Definition str_opt_float (o : option R) : string :=
  match o with
  | Some r => float_str r
  | None => "None"
  end.

Definition get_quilt_suffix (j : RenderJob) : string :=
  if add_suffix j
  then "_qs" +:+ str_opt_int (columns j) +:+ "x" +:+ str_opt_int (rows j)
       +:+ "a" +:+ str_opt_float (quilt_aspect j)
  else "".

(** ["_f" + str(frame).zfill(len(str(self.scene.frame_end)))] *)
Definition frame_segment (b : Blender) (frame : Z) : string :=
  "_f" +:+ zfill (str_int frame) (String.length (str_int (frame_end b))).

(** [str(view).zfill(len(str(self.total_views - 1)))], and the same after
    ["_v"]. *)
Definition view_digits (total : Z) (view : Z) : string :=
  zfill (str_int view) (String.length (str_int (total - 1))).

Definition view_segment (total : Z) (view : Z) : string :=
  "_v" +:+ view_digits total view.

Definition quilt_filepath (j : RenderJob) (b : Blender) (frame_arg : option Z)
  : result string :=
  let frame := default (frame j) frame_arg in
  dir ← need (file_dirname j);
  base ← need (file_basename j);
  ext ← need (file_extension j);
  if animation j
  then Ok (os_path_join dir
             (base +:+ frame_segment b frame +:+ get_quilt_suffix j +:+ ext))
  else Ok (os_path_join dir (base +:+ get_quilt_suffix j +:+ ext)).

Definition view_filepath (j : RenderJob) (b : Blender) (view_arg : option Z)
    (frame_arg : option Z) : result string :=
  let view := default (view j) view_arg in
  let frame := default (frame j) frame_arg in
  dir ← need (file_dirname j);
  base ← need (file_basename j);
  total ← need (total_views j);
  ext ← need (file_extension j);
  if animation j
  then Ok (os_path_join dir
             (base +:+ frame_segment b frame +:+ get_quilt_suffix j
              +:+ view_segment total view +:+ ext))
  else Ok (os_path_join dir
             (base +:+ get_quilt_suffix j +:+ view_segment total view +:+ ext)).

(** ** The object store ([bpy.data.objects]) *)

Definition identity_matrix : Matrix :=
  [[1; 0; 0; 0]; [0; 1; 0; 0]; [0; 0; 1; 0]; [0; 0; 0; 1]]%R.

Definition lookup_object (b : Blender) (i : nat) : result Object :=
  match objects b !! i with
  | Some (Some o) => Ok o
  | _ => Raise ReferenceError
  end.

Definition get_object (i : nat) : M Object :=
  b ← bpy; lift (lookup_object b i).

Definition update_object (i : nat) (f : Object -> Object) : M unit :=
  o ← get_object i;
  assign_host (fun b => set_objects (<[i := Some (f o)]> (objects b)) b).

(** [bpy.data.objects.new(name, data)]: a new object at the origin; its
    index is returned. *)
Definition objects_new (new_name : string) (d : CameraData) : M nat :=
  b ← bpy;
  assign_host (set_objects
    (objects b ++ [Some (mkObject new_name identity_matrix
                           (mathutils.mkVector 1 1 1) (mathutils.mkVector 0 0 0) d)]));;
  mret (length (objects b)).

Definition set_matrix_world (m : Matrix) (o : Object) : Object :=
  mkObject (name o) m (scale o) (location o) (data o).

Definition set_location (v : Vector) (o : Object) : Object :=
  mkObject (name o) (matrix_world o) (scale o) v (data o).

Definition set_shift_x (s : R) (o : Object) : Object :=
  mkObject (name o) (matrix_world o) (scale o) (location o) (mkCameraData (angle (data o)) s).

(** ** Camera set-up *)

(** One of the three statements
    [self._view_matrix = self._view_matrix @ Matrix.Scale(1/self._camera_active.scale.c, 4, axis)]. *)
Definition correct_scaling (c : Vector -> R) (axis : Vector) : M unit :=
  j ← self;
  m ← lift (need (_view_matrix j));
  act ← lift (deref (_camera_active j));
  cam ← get_object act;
  f ← lift (float_truediv 1 (c (scale cam)));
  assign (set__view_matrix (Some (matmul m (Matrix_Scale f 4 axis)))).

(** "CAMERA SETTINGS: GET VIEW & PROJECTION MATRICES" (the same statements
    in both branches of [setup_camera]). *)
Definition get_view_matrices : M unit :=
  j ← self;
  act ← lift (deref (_camera_active j));
  cam ← get_object act;
  assign (set__view_matrix (Some (matrix_world cam)));;
  correct_scaling mathutils.x (mathutils.mkVector 1 0 0);;
  correct_scaling mathutils.y (mathutils.mkVector 0 1 0);;
  correct_scaling mathutils.z (mathutils.mkVector 0 0 1);;
  j ← self;
  m ← lift (need (_view_matrix j));
  assign (set__view_matrix_inv (Some (inverted_safe m))).

(** [offsetAngle = (0.5 - view / (self.total_views - 1)) * radians(self.view_cone)],
    in exact arithmetic; [offsetAngle_binary64] is the same expression on
    doubles. *)
Definition offsetAngle (view : Z) (total_views : option Z) (view_cone : option R)
  : result R :=
  total ← need total_views;
  q ← int_truediv view (total - 1);
  cone ← need view_cone;
  Ok ((0.5 - q) * radians cone)%R.

(** [offset = cameraDistance * tan(offsetAngle)] *)
Definition view_offset (cameraDistance : R) (view : Z) (total_views : option Z)
    (view_cone : option R) : result R :=
  a ← offsetAngle view total_views view_cone;
  Ok (cameraDistance * tan a)%R.

(** "CAMERA SETTINGS: APPLY POSITION AND SHIFT" for the view [view] (the
    same statements in both branches, on [self.view] in the first and on
    the loop variable in the second). *)
Definition apply_position_and_shift (view : Z) : M unit :=
  j ← self;
  b ← bpy;
  act ← lift (deref (_camera_active j));
  cam ← get_object act;
  let fov := angle (data cam) in
  let cameraDistance := focalPlane b in
  let cameraSize := (cameraDistance * tan (fov / 2))%R in
  offset ← lift (view_offset cameraDistance view (total_views j) (view_cone j));
  m ← lift (need (_view_matrix j));
  m_inv ← lift (need (_view_matrix_inv j));
  orig ← lift (deref (_camera_original j));
  original ← get_object orig;
  update_object act
    (set_location
       (matvec m (matvec (Matrix_Translation (mathutils.mkVector (- offset) 0 0))
                    (matvec m_inv (location original)))));;
  original ← get_object orig;
  s ← lift (float_truediv (0.5 * offset) cameraSize);
  update_object act (set_shift_x (shift_x (data original) + s)%R).

(** [self._camera_temp[-1]] and [self._camera_temp[0]]. *)
Definition last_camera (l : list nat) : result nat :=
  match last l with
  | Some i => Ok i
  | None => Raise IndexError
  end.

Definition first_camera (l : list nat) : result nat :=
  match l with
  | i :: _ => Ok i
  | [] => Raise IndexError
  end.

(** The body of the loop over the views in the multiview branch. *)
Definition setup_multiview_camera (total : Z) (view : Z) : M unit :=
  j ← self;
  act ← lift (deref (_camera_active j));
  cam ← get_object act;
  i ← objects_new (_camera_temp_basename j +:+ view_segment total view) (data cam);
  assign (fun j => set__camera_temp (_camera_temp j ++ [i]) j);;
  assign_host (fun b => set_views
    (views b ++ [mkRenderView (_multiview_view_basename j +:+ view_digits total view)
                   (view_segment total view) true]) b);;
  j ← self;
  newest ← lift (last_camera (_camera_temp j));
  assign_host (fun b => set_collection_objects (collection_objects b ++ [newest]) b);;
  assign (set__camera_active (Some newest));;
  m ← lift (need (_view_matrix j));
  update_object newest (set_matrix_world m);;
  apply_position_and_shift view.

Definition setup_camera : M unit :=
  j ← self;
  if negb (use_multiview j) then
    (if init j then
       b ← bpy;
       assign (set__camera_active (lookingglassCamera b));;
       j ← self;
       assign (set__camera_original (_camera_active j));;
       get_view_matrices;;
       j ← self;
       act ← lift (deref (_camera_active j));
       cam ← get_object act;
       i ← objects_new (_camera_temp_basename j) (data cam);
       assign (fun j => set__camera_temp (_camera_temp j ++ [i]) j);;
       j ← self;
       newest ← lift (last_camera (_camera_temp j));
       assign (set__camera_active (Some newest));;
       m ← lift (need (_view_matrix j));
       update_object newest (set_matrix_world m);;
       assign_host (set_camera (Some newest))
     else skip);;
    j ← self;
    apply_position_and_shift (view j)
  else
    b ← bpy;
    assign (set__camera_active (lookingglassCamera b));;
    assign (set__camera_original (camera b));;
    get_view_matrices;;
    j ← self;
    total ← lift (need (total_views j));
    for_range total (setup_multiview_camera total);;
    j ← self;
    c ← lift (first_camera (_camera_temp j));
    assign_host (set_camera (Some c)).

(** ** Quilt assembly *)

(** *** What [assemble_quilt] uses of numpy

    A three-dimensional array is a list of rows, a row a list of pixels, a
    pixel a list of channel values. *)

(** [count] consecutive pieces of [size] elements. *)
Fixpoint chunks {A : Type} (count size : nat) (l : list A) : list (list A) :=
  match count with
  | O => []
  | S k => take size l :: chunks k size (drop size l)
  end.

(** [a.reshape((d0, d1, d2))] for a flat array: the sizes must agree.
    (Resolutions are positive in Blender; the wildcard [-1] of numpy is
    outside the model.) *)
Definition reshape3 (a : ndarray) (d0 d1 d2 : Z) : result ndarray3 :=
  if ((0 <=? d0) && (0 <=? d1) && (0 <=? d2)
      && (Z.of_nat (length a) =? d0 * d1 * d2))%bool
  then Ok (map (chunks (Z.to_nat d1) (Z.to_nat d2))
             (chunks (Z.to_nat d0) (Z.to_nat (d1 * d2)) a))
  else Raise ValueError.

(** The extents along the three axes, read off the first row and pixel. *)
Definition shape3 (a : ndarray3) : nat * nat * nat :=
  (length a, length (hd [] a), length (hd [] (hd [] a))).

(** [np.hstack(tiles)]: concatenation along axis 1; the other extents must
    agree and there must be a tile. *)
Definition hstack (tiles : list ndarray3) : result ndarray3 :=
  match tiles with
  | [] => Raise ValueError
  | t0 :: _ =>
      if forallb (fun t =>
           ((shape3 t).1.1 =? (shape3 t0).1.1)%nat
           && ((shape3 t).2 =? (shape3 t0).2)%nat) tiles
      then Ok (map (fun r => concat (map (fun t => nth r t []) tiles))
                 (seq 0 (length t0)))
      else Raise ValueError
  end.

(** [np.vstack(strips)]: concatenation along axis 0. *)
Definition vstack (strips : list ndarray3) : result ndarray3 :=
  match strips with
  | [] => Raise ValueError
  | s0 :: _ =>
      if forallb (fun s =>
           ((shape3 s).1.2 =? (shape3 s0).1.2)%nat
           && ((shape3 s).2 =? (shape3 s0).2)%nat) strips
      then Ok (concat strips)
      else Raise ValueError
  end.

(** [np.reshape(a, (n))]: the elements in row-major order. *)
Definition reshape1 (a : ndarray3) (n : Z) : result ndarray :=
  let flat := concat (concat a) in
  if Z.of_nat (length flat) =? n then Ok flat else Raise ValueError.

(** [l[i]] on a Python list. *)
Definition index {A : Type} (l : list A) (i : Z) : result A :=
  let k := if i <? 0 then Z.of_nat (length l) + i else i in
  if k <? 0 then Raise IndexError
  else match l !! Z.to_nat k with
       | Some a => Ok a
       | None => Raise IndexError
       end.

(** *** The two loops of [assemble_quilt] *)

(** [for column in range(0, self.columns, 1)], from [column] on. *)
Fixpoint stack_columns (j : RenderJob) (b : Blender) (row columns column : Z)
    (rounds : nat) (horizontalStack : list ndarray3) : result (list ndarray3) :=
  match rounds with
  | O => Ok horizontalStack
  | S k =>
      viewPixels ← index (_view_images_pixels j) (row * columns + column);
      viewPixels ← reshape3 viewPixels (resolution_y b) (resolution_x b) 4;
      stack_columns j b row columns (column + 1) k (horizontalStack ++ [viewPixels])
  end.

(** [for row in range(0, self.rows, 1)], from [row] on. *)
Fixpoint stack_rows (j : RenderJob) (b : Blender) (row : Z) (rounds : nat)
    (verticalStack : list ndarray3) : result (list ndarray3) :=
  match rounds with
  | O => Ok verticalStack
  | S k =>
      columns ← need (columns j);
      horizontalStack ← stack_columns j b row columns 0 (Z.to_nat columns) [];
      strip ← hstack horizontalStack;
      stack_rows j b (row + 1) k (verticalStack ++ [strip])
  end.

(** The pixels of the quilt ([quiltPixels]). *)
Definition assemble_quilt_pixels (j : RenderJob) (b : Blender) : result ndarray :=
  rows ← need (rows j);
  verticalStack ← stack_rows j b 0 (Z.to_nat rows) [];
  quiltPixels ← vstack verticalStack;
  columns ← need (columns j);
  reshape1 quiltPixels (columns * rows * (resolution_x b * resolution_y b * 4)).

(** Reading an image file. *)
Definition read_file (b : Blender) (path : string) : result ndarray :=
  match files b !! path with
  | Some pixels => Ok pixels
  | None => Raise FileNotFoundError
  end.

Definition set_image_size (s : Z * Z) (i : Image) : Image :=
  mkImage (image_name i) (image_filepath i) (Some s) (image_pixels i).

(** [assemble_quilt]: the quilt pixels, then the quilt file, made as a copy
    of the view file, loaded, scaled to the quilt size, given the
    assembled pixels and saved.  (The names in [bpy.data.images] and the
    display flag of the image are not part of the model.) *)
Definition assemble_quilt : M unit :=
  j ← self;
  b ← bpy;
  quiltPixels ← lift (assemble_quilt_pixels j b);
  view_file ← lift (view_filepath j b None None);
  quilt_file ← lift (quilt_filepath j b None);
  copied ← lift (read_file b view_file);
  assign_host (fun b => set_files (<[quilt_file := copied]> (files b)) b);;
  b ← bpy;
  loaded ← lift (read_file b quilt_file);
  columns ← lift (need (columns j));
  rows ← lift (need (rows j));
  assign (set__quilt_image
    (Some (mkImage (file_temp_name j) quilt_file
             (Some (resolution_x b * columns, resolution_y b * rows)) quiltPixels)));;
  assign_host (fun b => set_files (<[quilt_file := quiltPixels]> (files b)) b).

(** ** Deleting the files of a frame *)

Definition remove_if_file (path : string) : M unit :=
  b ← bpy;
  if decide (is_Some (files b !! path))
  then assign_host (set_files (delete path (files b)))
  else skip.

Definition delete_files (frame_arg : option Z) : M unit :=
  j ← self;
  total ← lift (need (total_views j));
  for_range total (fun view =>
    j ← self;
    b ← bpy;
    path ← lift (view_filepath j b (Some view) frame_arg);
    remove_if_file path);;
  j ← self;
  out ← lift (need (outputpath j));
  (if (String.eqb (os_path_basename out) "" && negb (animation j))%bool
   then b ← bpy;
        path ← lift (quilt_filepath j b frame_arg);
        remove_if_file path
   else skip);;
  assign (set__view_images_pixels []).

(** ** Cleaning up the cameras *)

(** [bpy.data.objects.find(name)]: the index of the object of that name. *)
Fixpoint find_from (n : string) (l : list (option Object)) (i : nat) : option nat :=
  match l with
  | [] => None
  | Some o :: rest => if String.eqb (name o) n then Some i else find_from n rest (S i)
  | None :: rest => find_from n rest (S i)
  end.

Definition objects_find (b : Blender) (n : string) : option nat :=
  find_from n (objects b) 0.

(** Removing the camera data of an object takes the object with it. *)
Definition remove_object (i : nat) : M unit :=
  assign_host (fun b => set_objects (<[i := None]> (objects b)) b).

(** [scene.render.views[name].use = v] *)
Definition set_view_use (n : string) (v : bool) : M unit :=
  b ← bpy;
  if existsb (fun rv => String.eqb (view_name rv) n) (views b)
  then assign_host (set_views
         (map (fun rv => if String.eqb (view_name rv) n
                         then mkRenderView (view_name rv) (camera_suffix rv) v
                         else rv) (views b)))
  else lift (Raise KeyError).

(** The body of the loop over [enumerate(self._camera_temp)]. *)
Definition clean_up_view (total : option Z) (view : Z) (cam : nat) : M unit :=
  c ← get_object cam;
  b ← bpy;
  (match objects_find b (name c) with
   | Some _ => remove_object cam
   | None => skip
   end);;
  j ← self;
  total ← lift (need total);
  let n := _multiview_view_basename j +:+ view_digits total view in
  assign_host (fun b => set_views
    (filter (fun rv => view_name rv ≠ n) (views b)) b).

Fixpoint clean_up_views (total : option Z) (view : Z) (cams : list nat) : M unit :=
  match cams with
  | [] => skip
  | cam :: rest => clean_up_view total view cam ;; clean_up_views total (view + 1) rest
  end.

Definition clean_up : M unit :=
  j ← self;
  if negb (use_multiview j) then
    b ← bpy;
    (match objects_find b (_camera_temp_basename j) with
     | Some i => assign (set__camera_temp []) ;; remove_object i
     | None => skip
     end);;
    j ← self;
    assign_host (set_camera (_camera_original j))
  else
    assign_host (set_views_format "MULTIVIEW");;
    set_view_use "left" true;;
    set_view_use "right" true;;
    j ← self;
    clean_up_views (total_views j) 0 (_camera_temp j);;
    j ← self;
    assign_host (set_camera (_camera_original j)).

(** ** The render handlers of the job *)

(** [scene.cycles.seed = value].  The seed is an integer property of the
    range 0 .. 2147483647: a value that is not in the range of a C [int] is
    refused with [ValueError], a value in it is stored, clamped to the range
    of the property. *)
Definition INT_MAX : Z := 2147483647.
Definition INT_MIN : Z := -2147483648.

Definition assign_cycles_seed (value : Z) : M unit :=
  if ((INT_MIN <=? value) && (value <=? INT_MAX))%bool
  then assign_host (set_cycles_seed (Z.max 0 value))
  else lift (Raise ValueError).

(** [RenderJob.invoke]: the frame is set on the scene and, under Cycles,
    the seed is moved on with the view. *)
Definition invoke : M unit :=
  j ← self;
  assign_host (frame_set (frame j) (subframe j));;
  b ← bpy;
  assign (set_subframe (frame_subframe b));;
  if String.eqb (engine b) "CYCLES" then
    (if view j =? 0 then assign (set_seed (Some (cycles_seed b))) else skip);;
    j ← self;
    s ← lift (need (seed j));
    if use_animated_seed b
    then assign_cycles_seed (s + frame j + view j)
    else assign_cycles_seed (s + view j)
  else skip.

Definition missing_view_message : string :=
  "Render job can not be continued. Missing view file(s) of the previously failed render job.".

(** The loop [for view in range(0, self.view)] of [init_render], from
    the view [i] on.  The result tells whether the loop ran to its end ([true])
    or the handler returned from inside it ([false]). *)
Fixpoint load_view_files (i : Z) (rounds : nat) : M bool :=
  match rounds with
  | O => mret true
  | S k =>
      j ← self;
      b ← bpy;
      path ← lift (view_filepath j b (Some i) None);
      match files b !! path with
      | Some tmp_pixels =>
          let img := mkImage (os_path_basename path) path None tmp_pixels in
          assign (set__view_image (Some img));;
          assign (fun j => set__view_images_pixels (_view_images_pixels j ++ [tmp_pixels]) j);;
          j ← self;
          total ← lift (need (total_views j));
          (if view j =? total - 1
           then columns ← lift (need (columns j));
                rows ← lift (need (rows j));
                assign (set__view_image
                  (Some (set_image_size
                           (resolution_x b * columns, resolution_y b * rows) img)))
           else skip);;
          load_view_files (i + 1) k
      | None =>
          assign (set__state CANCEL_RENDER);;
          assign (set_file_force_keep true);;
          assign (set_cancel_sign (Some "ERROR"));;
          assign (set_cancel_message (Some missing_view_message));;
          mret false
      end
  end.

(** The guard of every handler but [cancel_render]. *)
Definition handler_enabled (w : World) : bool :=
  (bool_decide (_state (job w) ≠ CANCEL_RENDER) && negb (render_cancel (host w)))%bool.

Definition init_render : M unit :=
  w ← world;
  if handler_enabled w then
    assign (set__state INIT_RENDER);;
    j ← self;
    if (_use_lockfile j && init j)%bool then
      finished ← load_view_files 0 (Z.to_nat (view j));
      if (finished : bool) then assign (set__use_lockfile false) else skip
    else skip
  else skip.

Definition pre_render : M unit :=
  w ← world;
  if handler_enabled w then
    assign (set__state PRE_RENDER);;
    j ← self;
    b ← bpy;
    _ ← lift (quilt_filepath j b None);
    _ ← lift (view_filepath j b None None);
    skip
  else skip.

Definition post_render : M unit :=
  w ← world;
  if handler_enabled w then
    assign (set__state POST_RENDER);;
    j ← self;
    b ← bpy;
    path ← lift (view_filepath j b None None);
    assign_host (set_files (<[path := render_result b]> (files b)));;
    b ← bpy;
    tmp_pixels ← lift (read_file b path);
    assign (set__view_image (Some (mkImage (os_path_basename path) path None tmp_pixels)));;
    assign (fun j => set__view_images_pixels (_view_images_pixels j ++ [tmp_pixels]) j)
  else skip.

Definition completed_render : M unit :=
  w ← world;
  if handler_enabled w then
    assign (set__state COMPLETE_RENDER);;
    assign (set_init false)
  else skip.

Definition cancel_render : M unit :=
  assign (set__state CANCEL_RENDER);;
  assign_host (set_render_cancel true).

(** ** The lockfile, as the state machine sees it

    [write_to_lockfile] stores a record of the job (which attributes the
    record holds is the matter of the persistence section below). *)
Definition write_to_lockfile : M unit :=
  b ← bpy;
  if negb (String.eqb (blend_filepath b) "") then
    j ← self;
    _ ← lift (need (lockfile_path j));
    assign_host (set_lockfile (Some j))
  else skip.

(** ** Restoring the original settings *)

Definition restore_host (saved b : Blender) : Blender :=
  set_engine (engine saved) (set_cycles_seed (cycles_seed saved)
  (set_use_animated_seed (use_animated_seed saved)
  (set_resolution_x (resolution_x saved) (set_resolution_y (resolution_y saved)
  (set_views_format (views_format saved)
  (set_frame_start (frame_start saved) (set_frame_end (frame_end saved)
  (set_focalPlane (focalPlane saved) (set_render_cancel (render_cancel saved)
  (set_render_output (render_output saved)
  (set_render_progress (render_progress saved) b))))))))))).

Definition restore_original : M unit :=
  w ← world;
  let o := original (render_settings w) in
  assign (restore_fields (saved_job o));;
  assign_settings (fun s =>
    mkRenderSettings (saved_frame_step o) (saved_engine o) (saved_use_lock_interface o)
      (original s));;
  (match lookingglassCamera (saved_host o) with
   | Some i =>
       b ← bpy;
       match lookup_object b i with
       | Ok _ => assign_host (set_lookingglassCamera (Some i))
       | Raise _ => lift (Raise KeyError)
       end
   | None => skip
   end);;
  assign_host (restore_host (saved_host o)).

(** ** The modal operator *)

Inductive event_type : Type := ESC | TIMER | OTHER_EVENT.

Inductive operator_return : Type := PASS_THROUGH | CANCELLED | FINISHED | RUNNING_MODAL.

Definition report (sign message : string) : M unit :=
  assign_operator (add_report sign message).

(** [int(x)] for a float: truncation towards zero. *)
Definition float_to_int (x : R) : Z :=
  if Rle_dec 0 x then Int_part x else - Int_part (- x).

(** "CLEAN-UP FILES": whether [cancel] deletes the view files. *)
Definition cancel_deletes_files (w : World) : bool :=
  ((String.eqb (render_output (host w)) "1"
    || negb ((negb (animation (job w)) && negb (file_use_temp (job w)))
             || op_animation (operator w)))
   && negb (file_force_keep (job w))
   || discard_lockfile (operator w))%bool.

(** [LOOKINGGLASS_OT_render_quilt.cancel].  (The registration of the
    handlers and of the timer is the host's and is not modelled.) *)
Definition cancel : M unit :=
  assign (set__view_image None);;
  assign (set__quilt_image None);;
  assign (set__view_images_pixels []);;
  w ← world;
  (if cancel_deletes_files w then
     if animation (job w) then
       for_range_from (frame_start (host w))
         (Z.to_nat (frame_end (host w) + frame_step (render_settings w)
                    - frame_start (host w)))
         (fun frame => delete_files (Some frame))
     else delete_files None
   else skip);;
  w ← world;
  (if negb (discard_lockfile (operator w))
   then clean_up;; restore_original
   else skip);;
  j ← self;
  _ ← lift (need (lockfile_path j));
  assign_host (set_lockfile None);;
  assign_operator (set_op_use_lockfile false);;
  assign_host (set_render_progress 0);;
  assign_host (set_render_cancel false).

(** "INVOKE NEW RENDER JOB"; [render_cancelled] tells whether
    [bpy.ops.render.render] returned [{'CANCELLED'}]. *)
Definition modal_invoke_render (render_cancelled : bool) : M operator_return :=
  assign_settings (set_use_lock_interface false);;
  invoke;;
  setup_camera;;
  (if negb render_cancelled then
     j ← self;
     (if bool_decide (_state j ≠ CANCEL_RENDER) then assign (set__state IDLE) else skip);;
     j ← self;
     if negb (animation j)
     then report "INFO" ("Rendering view " +:+ str_int (view j + 1) +:+ "/"
                         +:+ str_opt_int (total_views j) +:+ " ..")
     else report "INFO" ("Rendering view " +:+ str_int (view j + 1) +:+ "/"
                         +:+ str_opt_int (total_views j) +:+ " of frame "
                         +:+ str_int (frame j) +:+ " ..")
   else skip);;
  mret PASS_THROUGH.

(** "UPDATE PROGRESS BAR".  The quotient and the product are those of the
    real numbers.  The doubles of the code are rounded, and [int] cuts
    the fraction off: where the exact percentage is a whole number the
    code can write one less (view 29 of 101 views: [int(29 / 100 * 100)]
    is 28). *)
Definition update_progress : M unit :=
  j ← self;
  b ← bpy;
  total ← lift (need (total_views j));
  if negb (animation j) then
    q ← lift (int_truediv (view j) (total - 1));
    assign_host (set_render_progress (float_to_int (q * 100)))
  else
    q ← lift (int_truediv ((frame j - frame_start b) * (total - 1) + view j)
                ((total - 1) * (frame_end b - frame_start b + 1)));
    assign_host (set_render_progress (float_to_int (q * 100))).

(** "VIEW & FRAME RENDERING": the next view, the next frame, or the end. *)
Definition advance : M unit :=
  j ← self;
  total ← lift (need (total_views j));
  if negb (animation j) then
    if view j <? total - 1 then
      assign (set_view (view j + 1));;
      assign (set__state INVOKE_RENDER)
    else
      assign (set__state CANCEL_RENDER);;
      assign_operator (set_op_cancel_sign "INFO");;
      assign_operator (set_op_cancel_message "Complete quilt rendered.")
  else
    if view j <? total - 1 then
      assign (set_view (view j + 1));;
      assign (set__state INVOKE_RENDER)
    else if view j =? total - 1 then
      b ← bpy;
      if frame j <? frame_end b then
        w ← world;
        (if String.eqb (settings_engine (render_settings w)) "CYCLES"
         then s ← lift (need (seed j)); assign_cycles_seed s
         else skip);;
        (if (String.eqb (render_output b) "1" && negb (file_force_keep j))%bool
         then delete_files (Some (frame j))
         else skip);;
        clean_up;;
        assign (set_init true);;
        assign (set_view 0);;
        w ← world;
        assign (set_frame (frame (job w) + frame_step (render_settings w)));;
        assign (set__state INVOKE_RENDER)
      else
        assign (set__state CANCEL_RENDER);;
        assign_operator (set_op_cancel_sign "INFO");;
        assign_operator (set_op_cancel_message "Complete animation quilt rendered.")
    else skip.

(** "COMPLETE-RENDER STEP" *)
Definition modal_complete_render : M operator_return :=
  j ← self;
  total ← lift (need (total_views j));
  (if view j =? total - 1 then assemble_quilt else skip);;
  update_progress;;
  j ← self;
  b ← bpy;
  (if (bool_decide (is_Some (lockfile_path j)) && bool_decide (is_Some (lockfile b)))%bool
   then write_to_lockfile
   else skip);;
  advance;;
  mret PASS_THROUGH.

(** "CANCEl-RENDER STEP" and the final [return]. *)
Definition modal_cancel_render : M operator_return :=
  w ← world;
  if (bool_decide (_state (job w) = CANCEL_RENDER) || render_cancel (host w))%bool then
    cancel;;
    w ← world;
    report (op_cancel_sign (operator w)) (op_cancel_message (operator w));;
    mret CANCELLED
  else mret PASS_THROUGH.

Definition modal (event : event_type) (render_cancelled : bool) : M operator_return :=
  w ← world;
  match event with
  | ESC =>
      assign (set__state CANCEL_RENDER);;
      assign_host (set_render_cancel true);;
      mret PASS_THROUGH
  | TIMER =>
      if negb (render_cancel (host w)) then
        match _state (job w) with
        | INVOKE_RENDER => modal_invoke_render render_cancelled
        | COMPLETE_RENDER => modal_complete_render
        | _ => modal_cancel_render
        end
      else modal_cancel_render
  | OTHER_EVENT => modal_cancel_render
  end.

(** ** Sample states *)

(** A still-image job of 3 x 5 views that writes to [/tmp/out/quilt.png],
    as it is on the first view. *)
Definition sample_job : RenderJob :=
  {| init := true; add_suffix := false; scene := "Scene"; animation := false;
     _use_lockfile := false; use_multiview := false; _state := INVOKE_RENDER;
     frame := 1; subframe := 0; view := 0; seed := None;
     view_width := Some 256; view_height := Some 256; rows := Some 3; columns := Some 5;
     total_views := Some 15; quilt_aspect := Some 0.75%R; view_cone := Some 40%R;
     lockfile_path := Some "/tmp/alice.blend.lock"; outputpath := Some "/tmp/out/quilt.png";
     file_use_temp := false; file_temp_name := "Quilt Render Result";
     file_dirname := Some "/tmp/out"; file_basename := Some "quilt";
     file_extension := Some ".png"; file_quilt_suffix := None; file_force_keep := false;
     _camera_temp_basename := "_quilt_render_cam"; _camera_temp := [];
     _camera_active := None; _camera_original := None;
     _multiview_view_basename := "quilt_v"; _view_matrix := None; _view_matrix_inv := None;
     _view_image := None; _view_images_pixels := []; _quilt_image := None;
     cancel_sign := None; cancel_message := None |}.

(** A scene with frames 1 to 10, rendered with Eevee at 256 x 256, one
    camera at the origin that is both the active camera and the camera of
    the add-on, and an empty output directory. *)
Definition sample_camera : Object :=
  {| name := "Camera"; matrix_world := identity_matrix;
     scale := mathutils.mkVector 1 1 1; location := mathutils.mkVector 0 0 0;
     data := {| angle := (PI / 2)%R; shift_x := 0%R |} |}.

Definition sample_host : Blender :=
  {| frame_start := 1; frame_end := 10; frame_current := 1; frame_subframe := 0%R;
     engine := "BLENDER_EEVEE"; cycles_seed := 0; use_animated_seed := false;
     resolution_x := 256; resolution_y := 256; camera := Some 0%nat;
     views_format := "STEREO_3D";
     views := [mkRenderView "left" "_L" false; mkRenderView "right" "_R" false];
     collection_objects := [0%nat]; focalPlane := 5%R; lookingglassCamera := Some 0%nat;
     render_cancel := false; render_output := "0"; render_progress := 0;
     objects := [Some sample_camera]; files := ∅; render_result := [];
     blend_filepath := "/tmp/alice.blend"; lockfile := None |}.

Definition sample_operator : Operator :=
  {| op_animation := false; op_use_lockfile := false; discard_lockfile := false;
     op_use_multiview := false; op_cancel_sign := "INFO";
     op_cancel_message := "Quilt rendering was cancelled."; reports := [] |}.

Definition sample_settings : RenderSettings :=
  {| frame_step := 1; settings_engine := "BLENDER_EEVEE"; use_lock_interface := false;
     original := {| saved_job := sample_job; saved_host := sample_host;
                    saved_frame_step := 1; saved_engine := "BLENDER_EEVEE";
                    saved_use_lock_interface := false |} |}.

Definition sample_world : World :=
  {| operator := sample_operator; render_settings := sample_settings;
     job := sample_job; host := sample_host |}.

(** The sample job with another tiling and the buffers [pixels]. *)
Definition tiled_job (nrows ncolumns : Z) (pixels : list ndarray) : RenderJob :=
  {| init := false; add_suffix := false; scene := "Scene"; animation := false;
     _use_lockfile := false; use_multiview := false; _state := COMPLETE_RENDER;
     frame := 1; subframe := 0; view := nrows * ncolumns - 1; seed := None;
     view_width := Some 256; view_height := Some 256;
     rows := Some nrows; columns := Some ncolumns;
     total_views := Some (nrows * ncolumns); quilt_aspect := Some 0.75%R;
     view_cone := Some 40%R;
     lockfile_path := Some "/tmp/alice.blend.lock"; outputpath := Some "/tmp/out/quilt.png";
     file_use_temp := false; file_temp_name := "Quilt Render Result";
     file_dirname := Some "/tmp/out"; file_basename := Some "quilt";
     file_extension := Some ".png"; file_quilt_suffix := None; file_force_keep := false;
     _camera_temp_basename := "_quilt_render_cam"; _camera_temp := [];
     _camera_active := None; _camera_original := None;
     _multiview_view_basename := "quilt_v"; _view_matrix := None; _view_matrix_inv := None;
     _view_image := None; _view_images_pixels := pixels; _quilt_image := None;
     cancel_sign := None; cancel_message := None |}.

(** Views of one pixel. *)
Definition one_pixel_host : Blender :=
  set_resolution_x 1 (set_resolution_y 1 sample_host).

(** A job whose second buffer has three values where four are needed. *)
Definition short_buffer_world : World :=
  {| operator := sample_operator; render_settings := sample_settings;
     job := tiled_job 1 2 [[1; 2; 3; 4]; [5; 6; 7]]%R; host := one_pixel_host |}.


(** The temporary camera of the single-camera mode, as [setup_camera]
    leaves it in the store next to the camera of the scene. *)
Definition sample_temp_camera : Object :=
  {| name := "_quilt_render_cam"; matrix_world := identity_matrix;
     scale := mathutils.mkVector 1 1 1; location := mathutils.mkVector 0 0 0;
     data := {| angle := (PI / 2)%R; shift_x := 0%R |} |}.

(** A job in the middle of a run: the camera is set up, [pixels] are the
    buffers collected so far. *)
Definition running_job (is_animation use_lockfile is_init : bool) (state : State)
    (at_frame at_view nrows ncolumns : Z) (pixels : list ndarray) : RenderJob :=
  {| init := is_init; add_suffix := false; scene := "Scene"; animation := is_animation;
     _use_lockfile := use_lockfile; use_multiview := false; _state := state;
     frame := at_frame; subframe := 0; view := at_view; seed := None;
     view_width := Some 1; view_height := Some 1;
     rows := Some nrows; columns := Some ncolumns;
     total_views := Some (nrows * ncolumns); quilt_aspect := Some 0.75%R;
     view_cone := Some 40%R;
     lockfile_path := Some "/tmp/alice.blend.lock"; outputpath := Some "/tmp/out/quilt.png";
     file_use_temp := false; file_temp_name := "Quilt Render Result";
     file_dirname := Some "/tmp/out"; file_basename := Some "quilt";
     file_extension := Some ".png"; file_quilt_suffix := None; file_force_keep := false;
     _camera_temp_basename := "_quilt_render_cam"; _camera_temp := [1%nat];
     _camera_active := Some 1%nat; _camera_original := Some 0%nat;
     _multiview_view_basename := "quilt_v"; _view_matrix := Some identity_matrix;
     _view_matrix_inv := Some identity_matrix;
     _view_image := None; _view_images_pixels := pixels; _quilt_image := None;
     cancel_sign := None; cancel_message := None |}.

(** The host of such a job: views of one pixel, frames 1 to [last_frame],
    the view files [on_disk], and the policy [output] for the view files
    (["1"]: they are deleted once the quilt is made). *)
Definition running_host (last_frame : Z) (output : string)
    (on_disk : gmap string ndarray) : Blender :=
  {| frame_start := 1; frame_end := last_frame; frame_current := 1; frame_subframe := 0%R;
     engine := "BLENDER_EEVEE"; cycles_seed := 0; use_animated_seed := false;
     resolution_x := 1; resolution_y := 1; camera := Some 1%nat;
     views_format := "STEREO_3D";
     views := [mkRenderView "left" "_L" false; mkRenderView "right" "_R" false];
     collection_objects := [0%nat]; focalPlane := 5%R; lookingglassCamera := Some 0%nat;
     render_cancel := false; render_output := output; render_progress := 0;
     objects := [Some sample_camera; Some sample_temp_camera]; files := on_disk;
     render_result := [9; 9; 9; 9]%R;
     blend_filepath := "/tmp/alice.blend"; lockfile := None |}.

(** A still image of 3 x 5 views is resumed at view 2; the file of view 0
    is on disk, the file of view 1 is not; view files are not to be kept. *)
Definition resumed_world : World :=
  {| operator :=
       {| op_animation := false; op_use_lockfile := true; discard_lockfile := false;
          op_use_multiview := false; op_cancel_sign := "INFO";
          op_cancel_message := "Quilt rendering was cancelled."; reports := [] |};
     render_settings := sample_settings;
     job := running_job false true true IDLE 1 2 3 5 [];
     host := running_host 10 "1" {[ "/tmp/out/quilt_v00.png" := [1; 2; 3; 4]%R ]} |}.

(** An animation of two frames with 1 x 2 views, view files kept, when the
    second view of frame 1 has just been rendered. *)
Definition first_frame_done : World :=
  {| operator :=
       {| op_animation := true; op_use_lockfile := false; discard_lockfile := false;
          op_use_multiview := false; op_cancel_sign := "INFO";
          op_cancel_message := "Quilt rendering was cancelled."; reports := [] |};
     render_settings := sample_settings;
     job := running_job true false false COMPLETE_RENDER 1 1 1 2
              [[1; 2; 3; 4]; [5; 6; 7; 8]]%R;
     host := running_host 2 "0"
               {[ "/tmp/out/quilt_f1_v0.png" := [1; 2; 3; 4]%R;
                  "/tmp/out/quilt_f1_v1.png" := [5; 6; 7; 8]%R ]} |}.

(** The same moment when the view files are not to be kept. *)
Definition first_frame_done_deleting : World :=
  {| operator := operator first_frame_done;
     render_settings := render_settings first_frame_done;
     job := job first_frame_done;
     host := set_render_output "1" (host first_frame_done) |}.


(** * Properties *)

(** ** Auxiliary facts about the Python fragments *)

(** Running the statements of a method: the binds and the primitive
    statements are unfolded, the rest is left as it is. *)
Ltac run :=
  cbv beta iota delta
    [mbind M_bind mret M_ret result_bind result_ret self bpy world assign assign_host
     assign_operator assign_settings skip lift need deref];
  cbn [job host operator render_settings].

Lemma int_truediv_nonzero (a b : Z) :
  b ≠ 0 → int_truediv a b = Ok (IZR a / IZR b)%R.
Proof.
  intros Hb. unfold int_truediv.
  destruct (Z.eqb_spec b 0) as [->|_]; [contradiction|reflexivity].
Qed.

Lemma int_truediv_zero (a : Z) : int_truediv a 0 = Raise ZeroDivisionError.
Proof. reflexivity. Qed.

Lemma float_truediv_nonzero (a b : R) :
  b ≠ 0%R → float_truediv a b = Ok (a / b)%R.
Proof.
  intros Hb. unfold float_truediv.
  destruct (Req_dec_T b 0) as [E|_]; [contradiction|reflexivity].
Qed.

Lemma float_truediv_zero (a : R) : float_truediv a 0 = Raise ZeroDivisionError.
Proof.
  unfold float_truediv. destruct (Req_dec_T 0 0) as [_|N]; [reflexivity|].
  exfalso. apply N. reflexivity.
Qed.

Lemma half_literal : 0.5%R = (1 / 2)%R.
Proof. lra. Qed.

Lemma lookup_map {A B : Type} (f : A → B) (l : list A) (i : nat) :
  map f l !! i = f <$> l !! i.
Proof. exact (list_lookup_fmap f l i). Qed.

(** ** The camera rig *)

(** The angle and the offset of a view, as real-valued formulas. *)
Definition angle_of (cone : R) (total view : Z) : R :=
  ((0.5 - IZR view / IZR (total - 1)) * radians cone)%R.

Definition offset_of (distance cone : R) (total view : Z) : R :=
  (distance * tan (angle_of cone total view))%R.

(** The angle and the offset the code computes, with the division as
    Python does it. *)
Lemma offset_values (view total : Z) (cone distance : R) :
  offsetAngle view (Some total) (Some cone)
  = (if total =? 1 then Raise ZeroDivisionError else Ok (angle_of cone total view))
  ∧ view_offset distance view (Some total) (Some cone)
    = (if total =? 1 then Raise ZeroDivisionError
       else Ok (offset_of distance cone total view)).
Proof.
  unfold view_offset, offsetAngle, offset_of, angle_of. cbn.
  destruct (Z.eqb_spec total 1) as [->|Hne].
  - split; reflexivity.
  - rewrite int_truediv_nonzero by lia. split; reflexivity.
Qed.

(** C1 (as amended).  The offset angle of a view is
    [(0.5 - view/(total_views-1)) * radians(view_cone)] whenever
    [total_views] is not 1; the division is not guarded, and with
    [total_views = 1] the computation ends in [ZeroDivisionError], for the
    angle as for the offset. *)
Theorem offset_angle_formula_unguarded (view total : Z) (cone distance : R) :
  offsetAngle view (Some total) (Some cone)
  = (if total =? 1 then Raise ZeroDivisionError
     else Ok ((0.5 - IZR view / IZR (total - 1)) * radians cone)%R)
  ∧ view_offset distance view (Some total) (Some cone)
    = (if total =? 1 then Raise ZeroDivisionError
       else Ok (distance * tan ((0.5 - IZR view / IZR (total - 1)) * radians cone))%R).
Proof.
  unfold view_offset, offsetAngle. cbn.
  destruct (Z.eqb_spec total 1) as [->|Hne].
  - split; reflexivity.
  - rewrite int_truediv_nonzero by lia. split; reflexivity.
Qed.

(** Within a cone of less than 180 degrees every view angle stays strictly
    between -90 and +90 degrees. *)
Lemma angle_of_bounds (cone : R) (total view : Z) :
  2 ≤ total → (0 < cone < 180)%R → 0 ≤ view < total →
  (- PI / 2 < angle_of cone total view < PI / 2)%R.
Proof.
  intros Ht [Hc0 Hc1] [Hv0 Hv1]. unfold angle_of, radians.
  assert (Hn : (0 < IZR (total - 1))%R) by (apply IZR_lt; lia).
  assert (Hq0 : (0 <= IZR view / IZR (total - 1))%R).
  { apply Rmult_le_pos; [apply IZR_le; lia|].
    left. apply Rinv_0_lt_compat. exact Hn. }
  assert (Hq1 : (IZR view / IZR (total - 1) <= 1)%R).
  { apply Rmult_le_reg_r with (IZR (total - 1)); [exact Hn|].
    unfold Rdiv. rewrite Rmult_assoc, Rinv_l by lra.
    rewrite Rmult_1_r, Rmult_1_l. apply IZR_le. lia. }
  pose proof PI_RGT_0 as Hpi.
  set (q := (IZR view / IZR (total - 1))%R) in *.
  assert (Hk : (0 < cone * (PI / 180) < PI)%R).
  { split; [apply Rmult_lt_0_compat; lra|].
    replace PI with (180 * (PI / 180))%R at 2 by field.
    apply Rmult_lt_compat_r; lra. }
  set (k := (cone * (PI / 180))%R) in *.
  split; nra.
Qed.

Lemma angle_of_decreasing (cone : R) (total v1 v2 : Z) :
  2 ≤ total → (0 < cone)%R → v1 < v2 →
  (angle_of cone total v2 < angle_of cone total v1)%R.
Proof.
  intros Ht Hc Hv. unfold angle_of, radians.
  assert (Hn : (0 < IZR (total - 1))%R) by (apply IZR_lt; lia).
  pose proof PI_RGT_0 as Hpi.
  assert (Hk : (0 < cone * (PI / 180))%R) by (apply Rmult_lt_0_compat; lra).
  apply Rmult_lt_compat_r; [exact Hk|].
  apply Rplus_lt_compat_l, Ropp_lt_contravar.
  apply Rmult_lt_compat_r; [apply Rinv_0_lt_compat; exact Hn|].
  apply IZR_lt. exact Hv.
Qed.

Lemma angle_of_antisymmetric (cone : R) (total view : Z) :
  total ≠ 1 →
  angle_of cone total (total - 1 - view) = (- angle_of cone total view)%R.
Proof.
  intros Ht. unfold angle_of.
  assert (Hn : IZR (total - 1) ≠ 0%R) by (apply not_0_IZR; lia).
  rewrite (minus_IZR (total - 1) view), half_literal. field. exact Hn.
Qed.

Lemma angle_of_middle (cone : R) (total : Z) :
  Z.odd total = true → total ≠ 1 → angle_of cone total ((total - 1) / 2) = 0%R.
Proof.
  intros Hodd Ht. unfold angle_of.
  assert (Hn : IZR (total - 1) ≠ 0%R) by (apply not_0_IZR; lia).
  assert (E : total - 1 = 2 * ((total - 1) / 2)).
  { rewrite (Zodd_div2 total) at 1; [|apply Zodd_bool_iff; exact Hodd].
    replace (2 * Z.div2 total + 1 - 1) with (Z.div2 total * 2) by lia.
    rewrite (Zodd_div2 total) at 2; [|apply Zodd_bool_iff; exact Hodd].
    replace (2 * Z.div2 total + 1 - 1) with (Z.div2 total * 2) by lia.
    rewrite Z.div_mul by lia. lia. }
  rewrite E at 2. rewrite mult_IZR.
  assert (Hm : IZR ((total - 1) / 2) ≠ 0%R).
  { intros H0. apply Hn. rewrite E, mult_IZR, H0. ring. }
  replace (IZR ((total - 1) / 2) / (2 * IZR ((total - 1) / 2)))%R with (1 / 2)%R
    by (field; exact Hm).
  rewrite half_literal. ring.
Qed.

(** In exact arithmetic the offsets of the views [v] and
    [total_views - 1 - v] are opposite.  The doubles of the code are
    rounded, and of them this holds at the two ends and not in general. *)
Lemma offset_of_opposite_exact (distance cone : R) (total v : Z) :
  total ≠ 1 →
  offset_of distance cone total v
  = (- offset_of distance cone total (total - 1 - v))%R.
Proof.
  intros Ht. unfold offset_of.
  rewrite angle_of_antisymmetric by exact Ht. rewrite tan_neg. ring.
Qed.

(** C4 (as amended).  With at least two views, a view cone between 0 and
    180 degrees and a focal plane in front of the camera, the offsets
    [offset_of] computed by the code strictly decrease with the view
    index; view 0 has the largest offset,
    [distance * tan(radians(view_cone / 2))], which is positive; the last
    view has its opposite, the smallest; and the middle view of an odd
    number of views has offset 0.  That the offsets of the views [v] and
    [total_views - 1 - v] are opposite for every [v] is not part of the
    statement: it holds of the formula and not of the doubles. *)
Theorem offsets_decrease_between_opposite_ends (distance cone : R) (total : Z) :
  2 ≤ total → (0 < cone < 180)%R → (0 < distance)%R →
  (∀ v, view_offset distance v (Some total) (Some cone)
        = Ok (offset_of distance cone total v))
  ∧ (∀ v1 v2, 0 ≤ v1 → v1 < v2 → v2 < total →
       (offset_of distance cone total v2 < offset_of distance cone total v1)%R)
  ∧ offset_of distance cone total 0 = (distance * tan (radians (cone / 2)))%R
  ∧ (0 < offset_of distance cone total 0)%R
  ∧ offset_of distance cone total (total - 1) = (- offset_of distance cone total 0)%R
  ∧ (∀ v, 0 ≤ v < total →
       (offset_of distance cone total (total - 1) <= offset_of distance cone total v
        <= offset_of distance cone total 0)%R)
  ∧ (Z.odd total = true → offset_of distance cone total ((total - 1) / 2) = 0%R).
Proof.
  intros Ht Hc Hd.
  assert (Hdec : ∀ v1 v2, 0 ≤ v1 → v1 < v2 → v2 < total →
            (offset_of distance cone total v2 < offset_of distance cone total v1)%R).
  { intros v1 v2 H1 H12 H2. unfold offset_of.
    apply Rmult_lt_compat_l; [exact Hd|].
    apply tan_increasing.
    - apply (angle_of_bounds cone total v2); [exact Ht|exact Hc|lia].
    - apply angle_of_decreasing; [exact Ht|apply Hc|exact H12].
    - apply (angle_of_bounds cone total v1); [exact Ht|exact Hc|lia]. }
  assert (H0 : offset_of distance cone total 0
               = (distance * tan (radians (cone / 2)))%R).
  { unfold offset_of, angle_of, radians. f_equal. f_equal.
    assert (Hn : IZR (total - 1) ≠ 0%R) by (apply not_0_IZR; lia).
    rewrite half_literal. field. exact Hn. }
  assert (Hpos : (0 < offset_of distance cone total 0)%R).
  { rewrite H0. apply Rmult_lt_0_compat; [exact Hd|].
    apply tan_gt_0; unfold radians; pose proof PI_RGT_0; [nra|].
    destruct Hc as [Hc0 Hc1].
    replace (PI / 2)%R with (90 * (PI / 180))%R by field.
    apply Rmult_lt_compat_r; lra. }
  assert (Hlast : offset_of distance cone total (total - 1)
                  = (- offset_of distance cone total 0)%R).
  { rewrite (offset_of_opposite_exact distance cone total 0) by lia.
    rewrite Z.sub_0_r. ring. }
  split; [|split; [exact Hdec|split; [exact H0|split; [exact Hpos|split;
    [exact Hlast|split]]]]].
  - intros v.
    destruct (offset_values v total cone distance) as [_ E].
    rewrite E. destruct (Z.eqb_spec total 1); [lia|reflexivity].
  - intros v [Hv0 Hv1]. split.
    + destruct (Z.eq_dec v (total - 1)) as [->|Hne]; [lra|].
      left. apply Hdec; lia.
    + destruct (Z.eq_dec v 0) as [->|Hne]; [lra|].
      left. apply Hdec; lia.
  - intros Hodd. unfold offset_of.
    rewrite angle_of_middle by (exact Hodd || lia). rewrite tan_0. ring.
Qed.



(** ** Setting up the cameras *)

(** The view matrix of a camera: its world matrix, corrected for its
    scaling along the three axes. *)
Definition scaled_matrix (cam : Object) : Matrix :=
  matmul (matmul (matmul (matrix_world cam)
    (Matrix_Scale (1 / mathutils.x (scale cam)) 4 (mathutils.mkVector 1 0 0)))
    (Matrix_Scale (1 / mathutils.y (scale cam)) 4 (mathutils.mkVector 0 1 0)))
    (Matrix_Scale (1 / mathutils.z (scale cam)) 4 (mathutils.mkVector 0 0 1)).

(** [cameraSize], the location and the shift of a view, as functions of
    the location and the shift they start from. *)
Definition camera_size (distance fov : R) : R := (distance * tan (fov / 2))%R.

Definition view_location (m m_inv : Matrix) (offset : R) (base : Vector) : Vector :=
  matvec m (matvec (Matrix_Translation (mathutils.mkVector (- offset) 0 0))
              (matvec m_inv base)).

Definition view_shift (base offset cameraSize : R) : R :=
  (base + 0.5 * offset / cameraSize)%R.

(** The camera [cam] once it is placed for the view [view], starting from
    the location and the shift of the camera [original]. *)
Definition posed (m m_inv : Matrix) (distance cone : R) (total view : Z)
    (original cam : Object) : Object :=
  set_shift_x
    (view_shift (shift_x (data original)) (offset_of distance cone total view)
       (camera_size distance (angle (data cam))))
    (set_location
       (view_location m m_inv (offset_of distance cone total view) (location original))
       cam).

(** A new object, as [bpy.data.objects.new] makes it. *)
Definition new_object (new_name : string) (d : CameraData) : Object :=
  mkObject new_name identity_matrix (mathutils.mkVector 1 1 1)
    (mathutils.mkVector 0 0 0) d.

(** *** The object store *)

(** Reading the attributes of the job and of the host that the camera
    set-up uses, through the assignments before them. *)
Ltac camera_fields :=
  cbn [job host operator render_settings
       _camera_active _camera_original _camera_temp _camera_temp_basename
       _multiview_view_basename _view_matrix _view_matrix_inv total_views view_cone
       view init use_multiview
       set__camera_active set__camera_original set__camera_temp set__view_matrix
       set__view_matrix_inv
       objects focalPlane camera views collection_objects lookingglassCamera
       set_objects set_camera set_views set_collection_objects].

Lemma get_object_ok (op : Operator) (rs : RenderSettings) (j : RenderJob) (b : Blender)
    (i : nat) (o : Object) :
  objects b !! i = Some (Some o) →
  get_object i (mkWorld op rs j b) = Done o (mkWorld op rs j b).
Proof.
  intros H. unfold get_object, lookup_object. run. rewrite H. reflexivity.
Qed.

Lemma update_object_ok (op : Operator) (rs : RenderSettings) (j : RenderJob) (b : Blender)
    (i : nat) (f : Object → Object) (o : Object) :
  objects b !! i = Some (Some o) →
  update_object i f (mkWorld op rs j b)
  = Done tt (mkWorld op rs j (set_objects (<[i := Some (f o)]> (objects b)) b)).
Proof.
  intros H. unfold update_object. run.
  rewrite (get_object_ok op rs j b i o H). reflexivity.
Qed.

Lemma objects_new_ok (op : Operator) (rs : RenderSettings) (j : RenderJob) (b : Blender)
    (new_name : string) (d : CameraData) :
  objects_new new_name d (mkWorld op rs j b)
  = Done (length (objects b))
      (mkWorld op rs j (set_objects (objects b ++ [Some (new_object new_name d)]) b)).
Proof. reflexivity. Qed.

(** *** The view matrices *)

Lemma correct_scaling_ok (op : Operator) (rs : RenderSettings) (j : RenderJob) (b : Blender)
    (c : Vector → R) (axis : Vector) (act : nat) (cam : Object) (m : Matrix) :
  _camera_active j = Some act → objects b !! act = Some (Some cam) →
  _view_matrix j = Some m → c (scale cam) ≠ 0%R →
  correct_scaling c axis (mkWorld op rs j b)
  = Done tt (mkWorld op rs
               (set__view_matrix
                  (Some (matmul m (Matrix_Scale (1 / c (scale cam)) 4 axis))) j) b).
Proof.
  intros Hact Hcam Hm Hc. unfold correct_scaling. run. rewrite Hm, Hact.
  rewrite (get_object_ok op rs j b act cam Hcam).
  rewrite (float_truediv_nonzero 1 _ Hc). reflexivity.
Qed.

(** "GET VIEW & PROJECTION MATRICES": the view matrix is the scaled matrix
    of the active camera, and its inverse is stored next to it. *)
Lemma get_view_matrices_ok (op : Operator) (rs : RenderSettings) (j : RenderJob)
    (b : Blender) (act : nat) (cam : Object) :
  _camera_active j = Some act → objects b !! act = Some (Some cam) →
  mathutils.x (scale cam) ≠ 0%R → mathutils.y (scale cam) ≠ 0%R →
  mathutils.z (scale cam) ≠ 0%R →
  get_view_matrices (mkWorld op rs j b)
  = Done tt (mkWorld op rs
               (set__view_matrix_inv (Some (inverted_safe (scaled_matrix cam)))
                  (set__view_matrix (Some (scaled_matrix cam)) j)) b).
Proof.
  intros Hact Hcam Hx Hy Hz. unfold get_view_matrices. run. rewrite Hact.
  rewrite (get_object_ok op rs j b act cam Hcam).
  rewrite (correct_scaling_ok op rs _ b mathutils.x _ act cam (matrix_world cam))
    by (reflexivity || assumption).
  rewrite (correct_scaling_ok op rs _ b mathutils.y _ act cam _)
    by (reflexivity || assumption).
  rewrite (correct_scaling_ok op rs _ b mathutils.z _ act cam _)
    by (reflexivity || assumption).
  reflexivity.
Qed.

(** *** Position and shift *)

(** "APPLY POSITION AND SHIFT": the active camera is placed for the view,
    from the location and the shift of [self._camera_original]. *)
Lemma apply_position_and_shift_ok (op : Operator) (rs : RenderSettings) (j : RenderJob)
    (b : Blender) (v : Z) (act orig : nat) (cam original : Object) (total : Z)
    (cone : R) (m m_inv : Matrix) :
  _camera_active j = Some act → _camera_original j = Some orig →
  objects b !! act = Some (Some cam) → objects b !! orig = Some (Some original) →
  total_views j = Some total → total ≠ 1 → view_cone j = Some cone →
  _view_matrix j = Some m → _view_matrix_inv j = Some m_inv →
  camera_size (focalPlane b) (angle (data cam)) ≠ 0%R →
  apply_position_and_shift v (mkWorld op rs j b)
  = Done tt (mkWorld op rs j
               (set_objects
                  (<[act := Some (posed m m_inv (focalPlane b) cone total v original cam)]>
                     (objects b)) b)).
Proof.
  intros Hact Horig Hcam Horiginal Ht Hne Hcone Hm Hinv Hsize.
  unfold apply_position_and_shift. run. rewrite Hact.
  rewrite (get_object_ok op rs j b act cam Hcam).
  rewrite Ht, Hcone.
  destruct (offset_values v total cone (focalPlane b)) as [_ ->].
  destruct (Z.eqb_spec total 1) as [E|_]; [contradiction|].
  rewrite Hm, Hinv, Horig.
  rewrite (get_object_ok op rs j b orig original Horiginal).
  rewrite (update_object_ok op rs j b act _ cam Hcam).
  set (placed := set_location _ cam).
  assert (Hlt : (act < length (objects b))%nat) by (apply (lookup_lt_Some _ _ _ Hcam)).
  assert (Hplaced : <[act := Some placed]> (objects b) !! act = Some (Some placed))
    by (apply list_lookup_insert_eq; exact Hlt).
  assert (Hagain : ∃ original',
            <[act := Some placed]> (objects b) !! orig = Some (Some original')
            ∧ shift_x (data original') = shift_x (data original)).
  { destruct (decide (act = orig)) as [<-|Hd].
    - exists placed. split; [exact Hplaced|].
      rewrite Hcam in Horiginal. injection Horiginal as <-. reflexivity.
    - exists original. split; [|reflexivity].
      rewrite list_lookup_insert_ne by exact Hd. exact Horiginal. }
  destruct Hagain as (original' & Hlook & Hshift).
  rewrite (get_object_ok op rs j _ orig original') by exact Hlook.
  fold (camera_size (focalPlane b) (angle (data cam))).
  rewrite (float_truediv_nonzero _ _ Hsize).
  rewrite (update_object_ok op rs j _ act _ placed) by exact Hplaced.
  cbn [objects set_objects]. rewrite list_insert_insert_eq, Hshift.
  reflexivity.
Qed.

(** *** The single-camera mode *)

Lemma lookup_snoc_length {A : Type} (l : list A) (a : A) :
  (l ++ [a]) !! length l = Some a.
Proof. apply list_lookup_middle. reflexivity. Qed.

Lemma insert_snoc_length {A : Type} (l : list A) (a a' : A) :
  <[length l := a']> (l ++ [a]) = l ++ [a'].
Proof.
  rewrite insert_app_r_alt by lia. rewrite Nat.sub_diag. reflexivity.
Qed.

Lemma last_camera_snoc (l : list nat) (i : nat) : last_camera (l ++ [i]) = Ok i.
Proof. unfold last_camera. rewrite last_snoc. reflexivity. Qed.

(** The first call of a job in single-camera mode: one temporary camera
    is made from the camera of the add-on, becomes the camera of the
    scene, and is placed for the view [self.view] from the location and
    the shift of the camera of the add-on. *)
Lemma setup_camera_single_ok (op : Operator) (rs : RenderSettings) (j : RenderJob)
    (b : Blender) (lg : nat) (cam_lg : Object) (total : Z) (cone : R) :
  use_multiview j = false → init j = true →
  lookingglassCamera b = Some lg → objects b !! lg = Some (Some cam_lg) →
  mathutils.x (scale cam_lg) ≠ 0%R → mathutils.y (scale cam_lg) ≠ 0%R →
  mathutils.z (scale cam_lg) ≠ 0%R →
  total_views j = Some total → total ≠ 1 → view_cone j = Some cone →
  camera_size (focalPlane b) (angle (data cam_lg)) ≠ 0%R →
  ∃ w', setup_camera (mkWorld op rs j b) = Done tt w'
    ∧ camera (host w') = Some (length (objects b))
    ∧ objects (host w') !! length (objects b)
      = Some (Some (posed (scaled_matrix cam_lg) (inverted_safe (scaled_matrix cam_lg))
                      (focalPlane b) cone total (view j) cam_lg
                      (set_matrix_world (scaled_matrix cam_lg)
                         (new_object (_camera_temp_basename j) (data cam_lg))))).
Proof.
  intros Hmode Hinit Hlg Hcam Hx Hy Hz Ht Hne Hcone Hsize.
  assert (Hlt : (lg < length (objects b))%nat) by (apply (lookup_lt_Some _ _ _ Hcam)).
  unfold setup_camera. run. rewrite Hmode, Hinit. cbn [negb]. run. rewrite Hlg.
  rewrite (get_view_matrices_ok op rs _ b lg cam_lg) by (reflexivity || assumption).
  cbn [_camera_active set__view_matrix_inv set__view_matrix set__camera_original
       set__camera_active].
  camera_fields.
  rewrite (get_object_ok op rs _ b lg cam_lg Hcam).
  rewrite objects_new_ok. camera_fields.
  rewrite last_camera_snoc. camera_fields.
  set (m := scaled_matrix cam_lg).
  set (new := new_object (_camera_temp_basename j) (data cam_lg)).
  rewrite (update_object_ok op rs _ _ _ _ new) by apply lookup_snoc_length.
  camera_fields. rewrite insert_snoc_length.
  rewrite (apply_position_and_shift_ok op rs _ _ (view j) (length (objects b)) lg
             (set_matrix_world m new) cam_lg total cone m (inverted_safe m)).
  - eexists. split; [reflexivity|]. camera_fields.
    split; [reflexivity|]. rewrite insert_snoc_length. apply lookup_snoc_length.
  - reflexivity.
  - reflexivity.
  - apply lookup_snoc_length.
  - camera_fields. rewrite lookup_app_l by exact Hlt. exact Hcam.
  - exact Ht.
  - exact Hne.
  - exact Hcone.
  - reflexivity.
  - reflexivity.
  - exact Hsize.
Qed.

(** *** The multiview mode *)

(** A loop that keeps an invariant runs to its end and establishes it for
    the number of rounds made. *)
Lemma for_range_from_invariant (P : nat → World → Prop) (body : Z → M unit)
    (rounds : nat) :
  ∀ (start : nat) (w : World),
    (∀ k w0, (start ≤ k < start + rounds)%nat → P k w0 →
             ∃ w', body (Z.of_nat k) w0 = Done tt w' ∧ P (S k) w') →
    P start w →
    ∃ w', for_range_from (Z.of_nat start) rounds body w = Done tt w'
          ∧ P (start + rounds)%nat w'.
Proof.
  induction rounds as [|n IH]; intros start w Hstep Hstart.
  - exists w. split; [reflexivity|]. rewrite Nat.add_0_r. exact Hstart.
  - cbn [for_range_from]. run.
    destruct (Hstep start w ltac:(lia) Hstart) as (w1 & E1 & H1). rewrite E1.
    replace (Z.of_nat start + 1) with (Z.of_nat (S start)) by lia.
    destruct (IH (S start) w1) as (w2 & E2 & H2).
    + intros k w0 Hk. apply Hstep. lia.
    + exact H1.
    + exists w2. split; [exact E2|].
      replace (start + S n)%nat with (S start + n)%nat by lia. exact H2.
Qed.

(** The data a new camera starts from only matter through the angle. *)
Lemma posed_new_object (m m_inv : Matrix) (distance cone : R) (total v : Z)
    (original : Object) (new_name : string) (d d' : CameraData) :
  angle d = angle d' →
  posed m m_inv distance cone total v original
    (set_matrix_world m (new_object new_name d))
  = posed m m_inv distance cone total v original
      (set_matrix_world m (new_object new_name d')).
Proof.
  intros H. unfold posed, set_shift_x, set_location, set_matrix_world, new_object.
  cbn. rewrite H. reflexivity.
Qed.

Section Multiview.

Variables (op : Operator) (rs : RenderSettings) (j : RenderJob) (b : Blender).
Variables (lg sc : nat) (cam_lg cam_sc : Object) (total : Z) (cone : R).

Hypothesis Hcam_lg : objects b !! lg = Some (Some cam_lg).
Hypothesis Hcam_sc : objects b !! sc = Some (Some cam_sc).
Hypothesis Htotal : 2 ≤ total.
Hypothesis Hsize : camera_size (focalPlane b) (angle (data cam_lg)) ≠ 0%R.

(** The camera of the view [v] in multiview mode: a new object named
    after the view, with the view matrix of the camera of the add-on, and
    placed from the location and the shift of the camera of the scene. *)
Definition multiview_camera (v : Z) : Object :=
  posed (scaled_matrix cam_lg) (inverted_safe (scaled_matrix cam_lg))
    (focalPlane b) cone total v cam_sc
    (set_matrix_world (scaled_matrix cam_lg)
       (new_object (_camera_temp_basename j +:+ view_segment total v) (data cam_lg))).

Definition multiview_cameras (k : nat) : list (option Object) :=
  map (fun v => Some (multiview_camera (Z.of_nat v))) (seq 0 k).

(** The state between two rounds of the loop over the views, [k] rounds
    made. *)
Record multiview_state (k : nat) (w : World) : Prop := {
  ms_total : total_views (job w) = Some total;
  ms_cone : view_cone (job w) = Some cone;
  ms_matrix : _view_matrix (job w) = Some (scaled_matrix cam_lg);
  ms_inverse : _view_matrix_inv (job w) = Some (inverted_safe (scaled_matrix cam_lg));
  ms_original : _camera_original (job w) = Some sc;
  ms_basename : _camera_temp_basename (job w) = _camera_temp_basename j;
  ms_temp : _camera_temp (job w) = _camera_temp j ++ seq (length (objects b)) k;
  ms_active : ∃ act cam,
      _camera_active (job w) = Some act
      ∧ objects (host w) !! act = Some (Some cam)
      ∧ angle (data cam) = angle (data cam_lg);
  ms_focal : focalPlane (host w) = focalPlane b;
  ms_objects : objects (host w) = objects b ++ multiview_cameras k
}.

Lemma multiview_cameras_length (k : nat) : length (multiview_cameras k) = k.
Proof. unfold multiview_cameras. rewrite length_map, length_seq. reflexivity. Qed.

Lemma multiview_cameras_S (k : nat) :
  multiview_cameras (S k) = multiview_cameras k ++ [Some (multiview_camera (Z.of_nat k))].
Proof. unfold multiview_cameras. rewrite seq_S, map_app. reflexivity. Qed.

Lemma multiview_cameras_lookup (k v : nat) :
  (v < k)%nat → multiview_cameras k !! v = Some (Some (multiview_camera (Z.of_nat v))).
Proof.
  intros Hv. unfold multiview_cameras.
  rewrite (lookup_map (fun v => Some (multiview_camera (Z.of_nat v)))).
  rewrite lookup_seq_lt by exact Hv. reflexivity.
Qed.

(** One round of the loop. *)
Lemma setup_multiview_camera_ok (k : nat) (w : World) :
  multiview_state k w →
  ∃ w', setup_multiview_camera total (Z.of_nat k) w = Done tt w'
        ∧ multiview_state (S k) w'.
Proof.
  destruct w as [op' rs' jk bk].
  intros [Ht Hc Hm Hinv Horig Hbase Htemp (act & cam & Hact & Hcam & Hangle) Hfocal Hobjs].
  cbn [job host] in *.
  assert (Hlen : length (objects bk) = (length (objects b) + k)%nat).
  { rewrite Hobjs, length_app, multiview_cameras_length. reflexivity. }
  assert (Hlt : (sc < length (objects b))%nat) by (apply (lookup_lt_Some _ _ _ Hcam_sc)).
  unfold setup_multiview_camera. run. rewrite Hact.
  rewrite (get_object_ok op' rs' jk bk act cam Hcam).
  rewrite objects_new_ok. camera_fields.
  rewrite last_camera_snoc. camera_fields. rewrite Hm.
  set (new := new_object _ (data cam)).
  rewrite (update_object_ok op' rs' _ _ _ _ new) by apply lookup_snoc_length.
  camera_fields. rewrite insert_snoc_length.
  rewrite (apply_position_and_shift_ok op' rs' _ _ (Z.of_nat k) (length (objects bk)) sc
             (set_matrix_world (scaled_matrix cam_lg) new) cam_sc total cone
             (scaled_matrix cam_lg) (inverted_safe (scaled_matrix cam_lg))).
  - eexists. split; [reflexivity|].
    assert (Hnew : posed (scaled_matrix cam_lg) (inverted_safe (scaled_matrix cam_lg))
                     (focalPlane bk) cone total (Z.of_nat k) cam_sc
                     (set_matrix_world (scaled_matrix cam_lg) new)
                   = multiview_camera (Z.of_nat k)).
    { unfold multiview_camera, new. rewrite Hfocal, Hbase.
      apply posed_new_object. exact Hangle. }
    constructor; camera_fields; try assumption.
    + rewrite Htemp, Hlen, seq_S, app_assoc. reflexivity.
    + exists (length (objects bk)), (multiview_camera (Z.of_nat k)).
      split; [reflexivity|]. rewrite insert_snoc_length, Hnew.
      split; [apply lookup_snoc_length|reflexivity].
    + rewrite insert_snoc_length, Hnew, Hobjs, multiview_cameras_S, app_assoc.
      reflexivity.
  - reflexivity.
  - exact Horig.
  - apply lookup_snoc_length.
  - camera_fields. rewrite lookup_app_l by lia. rewrite Hobjs.
    rewrite lookup_app_l by exact Hlt. exact Hcam_sc.
  - exact Ht.
  - lia.
  - exact Hc.
  - exact Hm.
  - exact Hinv.
  - camera_fields. unfold new, new_object, set_matrix_world. cbn [data angle].
    rewrite Hfocal, Hangle. exact Hsize.
Qed.

(** The multiview mode: one camera per view; the camera of the view [v]
    is [self._camera_temp[v]], and the first of them becomes the camera
    of the scene. *)
Lemma setup_camera_multiview_ok :
  use_multiview j = true →
  lookingglassCamera b = Some lg → camera b = Some sc →
  mathutils.x (scale cam_lg) ≠ 0%R → mathutils.y (scale cam_lg) ≠ 0%R →
  mathutils.z (scale cam_lg) ≠ 0%R →
  total_views j = Some total → view_cone j = Some cone → _camera_temp j = [] →
  ∃ w', setup_camera (mkWorld op rs j b) = Done tt w'
    ∧ camera (host w') = Some (length (objects b))
    ∧ ∀ v, (v < Z.to_nat total)%nat →
        _camera_temp (job w') !! v = Some (length (objects b) + v)%nat
        ∧ objects (host w') !! (length (objects b) + v)%nat
          = Some (Some (multiview_camera (Z.of_nat v))).
Proof.
  intros Hmode Hlg Hsc Hx Hy Hz Ht Hcone Htemp.
  unfold setup_camera. run. rewrite Hmode. cbn [negb]. run. rewrite Hlg, Hsc.
  rewrite (get_view_matrices_ok op rs _ b lg cam_lg) by (reflexivity || assumption).
  camera_fields. rewrite Ht. unfold for_range.
  destruct (for_range_from_invariant multiview_state (setup_multiview_camera total)
              (Z.to_nat total) 0
              (mkWorld op rs
                 (set__view_matrix_inv (Some (inverted_safe (scaled_matrix cam_lg)))
                    (set__view_matrix (Some (scaled_matrix cam_lg))
                       (set__camera_original (Some sc)
                          (set__camera_active (Some lg) j)))) b))
    as (w' & E & S).
  - intros k w0 _. apply setup_multiview_camera_ok.
  - constructor; camera_fields; try (reflexivity || assumption).
    + rewrite app_nil_r. reflexivity.
    + exists lg, cam_lg. split; [reflexivity|]. split; [exact Hcam_lg|reflexivity].
    + unfold multiview_cameras. cbn [seq map]. rewrite app_nil_r. reflexivity.
  - change (Z.of_nat 0) with 0 in E. rewrite E. clear E.
    destruct w' as [op' rs' jk bk]. destruct S as [_ _ _ _ _ _ Hjk _ _ Hbk].
    cbn [job host Nat.add] in *. rewrite Htemp in Hjk. cbn [app] in Hjk.
    rewrite Hjk.
    destruct (Z.to_nat total) as [|n] eqn:En; [lia|].
    cbn [seq first_camera]. eexists. split; [reflexivity|]. camera_fields.
    split; [reflexivity|]. intros v Hv. split.
    + rewrite Hjk. apply lookup_seq_lt. exact Hv.
    + rewrite Hbk. rewrite lookup_app_r by lia.
      replace (length (objects b) + v - length (objects b))%nat with v by lia.
      apply multiview_cameras_lookup. exact Hv.
Qed.

End Multiview.

(** *** The two modes side by side *)

(** Later calls in single-camera mode place the same temporary camera
    again, from the camera remembered at the first call. *)
Lemma setup_camera_single_next_ok (op : Operator) (rs : RenderSettings) (j : RenderJob)
    (b : Blender) (act orig : nat) (cam original : Object) (total : Z) (cone : R)
    (m m_inv : Matrix) :
  use_multiview j = false → init j = false →
  _camera_active j = Some act → _camera_original j = Some orig →
  objects b !! act = Some (Some cam) → objects b !! orig = Some (Some original) →
  total_views j = Some total → total ≠ 1 → view_cone j = Some cone →
  _view_matrix j = Some m → _view_matrix_inv j = Some m_inv →
  camera_size (focalPlane b) (angle (data cam)) ≠ 0%R →
  setup_camera (mkWorld op rs j b)
  = Done tt (mkWorld op rs j
               (set_objects
                  (<[act := Some (posed m m_inv (focalPlane b) cone total (view j)
                                    original cam)]> (objects b)) b)).
Proof.
  intros Hmode Hinit Hact Horig Hcam Horiginal Ht Hne Hcone Hm Hinv Hsize.
  unfold setup_camera. run. rewrite Hmode, Hinit. cbn [negb]. run.
  apply (apply_position_and_shift_ok op rs j b (view j) act orig cam original total cone
           m m_inv); assumption.
Qed.

(** A camera with a field of view between 0 and 180 degrees in front of
    the focal plane has a size. *)
Lemma camera_size_nonzero (distance fov : R) :
  (0 < distance)%R → (0 < fov < PI)%R → camera_size distance fov ≠ 0%R.
Proof.
  intros Hd [H0 H1]. unfold camera_size.
  assert (Ht : (0 < tan (fov / 2))%R) by (apply tan_gt_0; lra).
  apply Rgt_not_eq. apply Rmult_lt_0_compat; assumption.
Qed.

(** C2.  The two modes of [setup_camera] do not give the same pose when
    the active camera of the scene is not the camera selected for the
    Looking Glass.  On one scene, for a job in single-camera mode at the
    view [v] and a job in multiview mode with the same number of views and
    the same view cone, both modes use the view matrix and the field of
    view of the Looking Glass camera and the same offset; but the camera
    of the single-camera mode is placed from the location and the shift of
    the Looking Glass camera (line 244), the camera of the view [v] of the
    multiview mode from those of [scene.camera] (line 317).  The shifts of
    the two are equal exactly when the shifts of these two cameras are;
    the poses are the same when [scene.camera] is the Looking Glass
    camera. *)
Theorem camera_modes_differ_in_original
    (op : Operator) (rs : RenderSettings) (j1 j2 : RenderJob) (b : Blender)
    (lg sc : nat) (cam_lg cam_sc : Object) (total : Z) (cone : R) (v : Z) :
  use_multiview j1 = false → init j1 = true → view j1 = v →
  use_multiview j2 = true → _camera_temp j2 = [] →
  total_views j1 = Some total → total_views j2 = Some total →
  view_cone j1 = Some cone → view_cone j2 = Some cone →
  lookingglassCamera b = Some lg → camera b = Some sc →
  objects b !! lg = Some (Some cam_lg) → objects b !! sc = Some (Some cam_sc) →
  mathutils.x (scale cam_lg) ≠ 0%R → mathutils.y (scale cam_lg) ≠ 0%R →
  mathutils.z (scale cam_lg) ≠ 0%R →
  (0 < focalPlane b)%R → (0 < angle (data cam_lg) < PI)%R →
  2 ≤ total → 0 ≤ v < total →
  let m := scaled_matrix cam_lg in
  let m_inv := inverted_safe m in
  let offset := offset_of (focalPlane b) cone total v in
  let cameraSize := camera_size (focalPlane b) (angle (data cam_lg)) in
  ∃ (w1 w2 : World) (i1 i2 : nat) (c1 c2 : Object),
    setup_camera (mkWorld op rs j1 b) = Done tt w1
    ∧ setup_camera (mkWorld op rs j2 b) = Done tt w2
    ∧ camera (host w1) = Some i1 ∧ objects (host w1) !! i1 = Some (Some c1)
    ∧ _camera_temp (job w2) !! Z.to_nat v = Some i2
    ∧ objects (host w2) !! i2 = Some (Some c2)
    ∧ location c1 = view_location m m_inv offset (location cam_lg)
    ∧ location c2 = view_location m m_inv offset (location cam_sc)
    ∧ shift_x (data c1) = view_shift (shift_x (data cam_lg)) offset cameraSize
    ∧ shift_x (data c2) = view_shift (shift_x (data cam_sc)) offset cameraSize
    ∧ (shift_x (data c1) = shift_x (data c2)
       ↔ shift_x (data cam_lg) = shift_x (data cam_sc))
    ∧ (sc = lg → location c1 = location c2 ∧ shift_x (data c1) = shift_x (data c2)).
Proof.
  intros Hmode1 Hinit Hview Hmode2 Htemp Ht1 Ht2 Hc1 Hc2 Hlg Hsc Hcam_lg Hcam_sc
    Hx Hy Hz Hd Hfov Htotal Hv m m_inv offset cameraSize.
  assert (Hsize : cameraSize ≠ 0%R) by (apply camera_size_nonzero; assumption).
  destruct (setup_camera_single_ok op rs j1 b lg cam_lg total cone)
    as (w1 & E1 & Hi1 & Hl1); try assumption; [lia|].
  destruct (setup_camera_multiview_ok op rs j2 b lg sc cam_lg cam_sc total cone)
    as (w2 & E2 & _ & Hviews); try assumption.
  destruct (Hviews (Z.to_nat v) ltac:(lia)) as [Hi2 Hl2].
  rewrite Z2Nat.id in Hl2 by lia. rewrite Hview in Hl1.
  eexists w1, w2, _, _, _, _.
  split; [exact E1|]. split; [exact E2|]. split; [exact Hi1|]. split; [exact Hl1|].
  split; [exact Hi2|]. split; [exact Hl2|].
  unfold multiview_camera, posed, set_shift_x, set_location, set_matrix_world, new_object.
  cbn [location data shift_x angle].
  fold m m_inv offset cameraSize.
  split; [reflexivity|]. split; [reflexivity|]. split; [reflexivity|].
  split; [reflexivity|]. split.
  - unfold view_shift. split; intros E; lra.
  - intros ->. rewrite Hcam_lg in Hcam_sc. injection Hcam_sc as <-.
    split; reflexivity.
Qed.

(** ** Strings and paths *)

Lemma string_app_cons (ch : ascii) (a b : string) :
  String ch a +:+ b = String ch (a +:+ b).
Proof. reflexivity. Qed.

Lemma string_app_nil_l (a : string) : "" +:+ a = a.
Proof. reflexivity. Qed.

Lemma string_app_assoc (a b c : string) : (a +:+ b) +:+ c = a +:+ (b +:+ c).
Proof.
  induction a as [|ch a IH]; [reflexivity|].
  rewrite !string_app_cons, IH. reflexivity.
Qed.

Lemma string_app_nil_r (a : string) : a +:+ "" = a.
Proof.
  induction a as [|ch a IH]; [reflexivity|].
  rewrite string_app_cons, IH. reflexivity.
Qed.

Lemma string_app_length (a b : string) :
  String.length (a +:+ b) = (String.length a + String.length b)%nat.
Proof.
  induction a as [|ch a IH]; [reflexivity|].
  rewrite string_app_cons. cbn [String.length]. rewrite IH. reflexivity.
Qed.

Lemma starts_with_sep_app (a b : string) :
  starts_with_sep (a +:+ b)
  = match a with
    | EmptyString => starts_with_sep b
    | String _ _ => starts_with_sep a
    end.
Proof. destruct a; reflexivity. Qed.

(** What follows a non-empty name, or does not begin with a separator,
    passes through [os.path.join]. *)
Lemma os_path_join_app (dir a rest : string) :
  a ≠ "" ∨ starts_with_sep rest = false →
  os_path_join dir (a +:+ rest) = os_path_join dir a +:+ rest.
Proof.
  intros H. unfold os_path_join. rewrite starts_with_sep_app.
  destruct a as [|ch a].
  - destruct H as [H|H]; [congruence|]. rewrite H. cbn [starts_with_sep String.append].
    destruct (String.eqb dir "" || ends_with_sep dir)%bool.
    + rewrite string_app_nil_r. reflexivity.
    + rewrite !string_app_assoc. reflexivity.
  - destruct (starts_with_sep (String ch a)); [reflexivity|].
    destruct (String.eqb dir "" || ends_with_sep dir)%bool;
      rewrite !string_app_assoc; reflexivity.
Qed.

Lemma os_path_join_length (dir n : string) :
  String.length (os_path_join dir n)
  = if starts_with_sep n then String.length n
    else if (String.eqb dir "" || ends_with_sep dir)%bool
         then (String.length dir + String.length n)%nat
         else (String.length dir + 1 + String.length n)%nat.
Proof.
  unfold os_path_join. destruct (starts_with_sep n); [reflexivity|].
  destruct (String.eqb dir "" || ends_with_sep dir)%bool;
    rewrite !string_app_length; cbn; lia.
Qed.

(** A name and the same name with a non-empty part inserted after a common
    beginning are joined to different paths. *)
Lemma os_path_join_insert_ne (dir stem extra ext : string) :
  extra ≠ "" → starts_with_sep extra = false →
  os_path_join dir (stem +:+ ext) ≠ os_path_join dir (stem +:+ extra +:+ ext).
Proof.
  intros Hne Hsep E.
  apply (f_equal String.length) in E. rewrite !os_path_join_length in E.
  rewrite !starts_with_sep_app in E. rewrite !string_app_length in E.
  assert (0 < String.length extra)%nat by (destruct extra; [congruence|cbn; lia]).
  destruct stem as [|ch stem].
  - rewrite Hsep in E. destruct extra as [|c e]; [congruence|].
    cbn [String.length] in *.
    destruct (starts_with_sep ext);
      destruct (String.eqb dir "" || ends_with_sep dir)%bool; lia.
  - destruct (starts_with_sep (String ch stem));
      [|destruct (String.eqb dir "" || ends_with_sep dir)%bool]; lia.
Qed.

(** The name of a file of the job before the view segment and the
    extension, and the path it is joined to. *)
Definition name_stem (j : RenderJob) (b : Blender) (frame_arg : option Z) : string :=
  default "" (file_basename j)
  +:+ (if animation j then frame_segment b (default (frame j) frame_arg) else "")
  +:+ get_quilt_suffix j.

Definition path_stem (j : RenderJob) (b : Blender) (frame_arg : option Z) : string :=
  os_path_join (default "" (file_dirname j)) (name_stem j b frame_arg).

(** The attributes a path is made of are set. *)
Definition naming_set (j : RenderJob) (dir base ext : string) (total : Z) : Prop :=
  file_dirname j = Some dir ∧ file_basename j = Some base
  ∧ file_extension j = Some ext ∧ total_views j = Some total.

Lemma view_segment_no_sep (total view : Z) :
  view_segment total view ≠ "" ∧ starts_with_sep (view_segment total view) = false.
Proof. split; [discriminate|reflexivity]. Qed.

Lemma view_filepath_stem (j : RenderJob) (b : Blender) (view_arg frame_arg : option Z)
    (dir base ext : string) (total : Z) :
  naming_set j dir base ext total →
  view_filepath j b view_arg frame_arg
  = Ok (path_stem j b frame_arg +:+ view_segment total (default (view j) view_arg) +:+ ext).
Proof.
  intros (Hd & Hb & He & Ht).
  unfold view_filepath, path_stem, name_stem. rewrite Hd, Hb, He, Ht. cbn.
  destruct (animation j); cbn.
  - f_equal.
    rewrite <- (os_path_join_app dir _ (view_segment total _ +:+ ext))
      by (right; reflexivity).
    rewrite !string_app_assoc. reflexivity.
  - f_equal.
    rewrite <- (os_path_join_app dir _ (view_segment total _ +:+ ext))
      by (right; reflexivity).
    rewrite !string_app_assoc. reflexivity.
Qed.

Lemma quilt_filepath_name (j : RenderJob) (b : Blender) (frame_arg : option Z)
    (dir base ext : string) (total : Z) :
  naming_set j dir base ext total →
  quilt_filepath j b frame_arg = Ok (os_path_join dir (name_stem j b frame_arg +:+ ext)).
Proof.
  intros (Hd & Hb & He & Ht).
  unfold quilt_filepath, name_stem. rewrite Hd, Hb, He. cbn.
  destruct (animation j); cbn; rewrite !string_app_assoc; reflexivity.
Qed.

Lemma view_filepath_name (j : RenderJob) (b : Blender) (view_arg frame_arg : option Z)
    (dir base ext : string) (total : Z) :
  naming_set j dir base ext total →
  view_filepath j b view_arg frame_arg
  = Ok (os_path_join dir
          (name_stem j b frame_arg
           +:+ view_segment total (default (view j) view_arg) +:+ ext)).
Proof.
  intros (Hd & Hb & He & Ht).
  unfold view_filepath, name_stem. rewrite Hd, Hb, He, Ht. cbn.
  destruct (animation j); cbn; rewrite !string_app_assoc; reflexivity.
Qed.

(** The attributes the two path functions read. *)
Definition same_naming (j1 j2 : RenderJob) : Prop :=
  file_dirname j1 = file_dirname j2 ∧ file_basename j1 = file_basename j2
  ∧ file_extension j1 = file_extension j2 ∧ animation j1 = animation j2
  ∧ add_suffix j1 = add_suffix j2 ∧ columns j1 = columns j2 ∧ rows j1 = rows j2
  ∧ quilt_aspect j1 = quilt_aspect j2 ∧ total_views j1 = total_views j2
  ∧ frame j1 = frame j2 ∧ view j1 = view j2.

(** *** The digits of a view in a file name *)

(** The number a string of decimal digits stands for. *)
Definition digits_value (s : string) : option Z :=
  Z.of_uint <$> NilEmpty.uint_of_string s.

Lemma digits_value_zeros (k : nat) (s : string) :
  digits_value (zeros k +:+ s) = digits_value s.
Proof.
  unfold digits_value. induction k as [|k IH]; [reflexivity|].
  cbn [zeros]. rewrite string_app_cons. cbn [NilEmpty.uint_of_string].
  destruct (NilEmpty.uint_of_string (zeros k +:+ s)) as [d|];
    destruct (NilEmpty.uint_of_string s) as [d'|]; cbn in IH |- *;
    try discriminate; [|reflexivity].
  injection IH as IH. rewrite <- IH. reflexivity.
Qed.

Lemma zfill_unsigned (d : Decimal.uint) (width : nat) :
  ∃ k, zfill (NilZero.string_of_uint d) width = zeros k +:+ NilZero.string_of_uint d.
Proof.
  destruct d; cbn [NilZero.string_of_uint NilEmpty.string_of_uint]; unfold zfill;
    match goal with
    | |- context [(width <=? ?n)%nat] =>
        destruct (width <=? n)%nat; [exists 0%nat|exists (width - n)%nat]; reflexivity
    end.
Qed.

Lemma digits_value_unsigned (d : Decimal.uint) :
  digits_value (NilZero.string_of_uint d) = Some (Z.of_uint d).
Proof.
  destruct d; [reflexivity|..];
    cbv beta iota delta [NilZero.string_of_uint]; unfold digits_value;
    rewrite NilEmpty.usu; reflexivity.
Qed.

Lemma view_digits_value (total v : Z) :
  0 ≤ v → digits_value (view_digits total v) = Some v.
Proof.
  intros Hv. unfold view_digits, str_int.
  assert (Hd : ∃ d, Z.to_int v = Decimal.Pos d ∧ Z.of_uint d = v).
  { destruct v as [|p|p]; [exists Decimal.zero; split; reflexivity| |lia].
    exists (Pos.to_uint p). split; [reflexivity|].
    unfold Z.of_uint. rewrite DecimalPos.Unsigned.of_to. reflexivity. }
  destruct Hd as (d & -> & Hd). cbn [NilZero.string_of_int].
  destruct (zfill_unsigned d (String.length (str_int (total - 1)))) as [k Hk].
  unfold str_int in Hk. rewrite Hk, digits_value_zeros, digits_value_unsigned, Hd.
  reflexivity.
Qed.

Lemma string_app_inv_head (a b c : string) : a +:+ b = a +:+ c → b = c.
Proof.
  induction a as [|ch a IH]; [exact (fun H => H)|].
  rewrite !string_app_cons. intros H. injection H as H. exact (IH H).
Qed.

Lemma string_app_inv_tail (c a b : string) : a +:+ c = b +:+ c → a = b.
Proof.
  revert b. induction a as [|ch a IH]; intros [|ch' b] H.
  - reflexivity.
  - apply (f_equal String.length) in H. rewrite string_app_nil_l, string_app_cons in H.
    cbn [String.length] in H. rewrite string_app_length in H. lia.
  - apply (f_equal String.length) in H. rewrite string_app_nil_l, string_app_cons in H.
    cbn [String.length] in H. rewrite string_app_length in H. lia.
  - rewrite !string_app_cons in H. injection H as -> H. rewrite (IH b H). reflexivity.
Qed.

(** [zfill] on the digits of a number that is not negative: zeros in front,
    up to the width. *)
Lemma zfill_unsigned_padded (d : Decimal.uint) (width : nat) :
  zfill (NilZero.string_of_uint d) width
  = zeros (width - String.length (NilZero.string_of_uint d))
    +:+ NilZero.string_of_uint d.
Proof.
  destruct d; cbn [NilZero.string_of_uint NilEmpty.string_of_uint]; unfold zfill;
    match goal with
    | |- context [(width <=? ?n)%nat] =>
        destruct (Nat.leb_spec width n) as [Hle|Hlt];
          [replace (width - n)%nat with 0%nat by lia|]; reflexivity
    end.
Qed.

Lemma view_digits_padded (total v : Z) :
  0 ≤ v →
  view_digits total v
  = zeros (String.length (str_int (total - 1)) - String.length (str_int v))
    +:+ str_int v.
Proof.
  intros Hv. unfold view_digits, str_int.
  destruct v as [|p|p]; [| |lia]; cbn [Z.to_int NilZero.string_of_int];
    apply zfill_unsigned_padded.
Qed.

Lemma str_int_value (v : Z) : 0 ≤ v → digits_value (str_int v) = Some v.
Proof.
  intros Hv. unfold str_int.
  destruct v as [|p|p]; [reflexivity| |lia].
  cbn [Z.to_int NilZero.string_of_int]. rewrite digits_value_unsigned.
  unfold Z.of_uint. rewrite DecimalPos.Unsigned.of_to. reflexivity.
Qed.

Lemma view_filepath_injective (j : RenderJob) (b : Blender) (frame_arg : option Z)
    (dir base ext : string) (total v1 v2 : Z) :
  naming_set j dir base ext total → 0 ≤ v1 → 0 ≤ v2 →
  view_filepath j b (Some v1) frame_arg = view_filepath j b (Some v2) frame_arg →
  v1 = v2.
Proof.
  intros Hn H1 H2.
  rewrite !(view_filepath_stem j b _ frame_arg dir base ext total Hn).
  cbn [default from_option]. unfold Datatypes.id, view_segment. intros H.
  injection H as H. apply string_app_inv_head, string_app_inv_tail in H.
  apply (string_app_inv_head "_v") in H.
  apply (f_equal digits_value) in H.
  rewrite !view_digits_value in H by assumption. congruence.
Qed.

(** C9.  The two path functions return a value without touching any state,
    and the value depends on nothing but the naming attributes of the job,
    the last frame of the scene, and the frame and the view asked for: two
    calls that agree on these return the same path, whatever else
    differs.  The path of a view is a stem that does not depend on the
    view, then ["_v"] and the zero-padded view, then the extension; the
    quilt path is the same stem followed by the extension.  The zero-padded
    view is the decimal digits of the view behind as many zeros as they
    are shorter than the digits of [total_views - 1]; the view reads back
    from it, so the paths of two different views differ. *)
Theorem paths_deterministic_view_segment :
  (∀ j1 j2 b1 b2 view_arg frame_arg,
     same_naming j1 j2 → frame_end b1 = frame_end b2 →
     quilt_filepath j1 b1 frame_arg = quilt_filepath j2 b2 frame_arg
     ∧ view_filepath j1 b1 view_arg frame_arg = view_filepath j2 b2 view_arg frame_arg)
  ∧ (∀ j b frame_arg dir base ext total,
       naming_set j dir base ext total →
       ∃ stem,
         (∀ v, view_filepath j b (Some v) frame_arg
               = Ok (stem +:+ "_v" +:+ view_digits total v +:+ ext))
         ∧ (base ≠ "" → quilt_filepath j b frame_arg = Ok (stem +:+ ext))
         ∧ (∀ v1 v2, 0 ≤ v1 → 0 ≤ v2 → v1 ≠ v2 →
              view_filepath j b (Some v1) frame_arg
              ≠ view_filepath j b (Some v2) frame_arg))
  ∧ (∀ total v, 0 ≤ v →
       view_digits total v
       = zeros (String.length (str_int (total - 1)) - String.length (str_int v))
         +:+ str_int v
       ∧ digits_value (str_int v) = Some v
       ∧ digits_value (view_digits total v) = Some v).
Proof using Type.
  split; [|split].
  - intros j1 j2 b1 b2 va fa (Hd & Hb & He & Ha & Hs & Hc & Hr & Hq & Ht & Hf & Hv) Hfe.
    unfold quilt_filepath, view_filepath, get_quilt_suffix, frame_segment.
    rewrite Hd, Hb, He, Ha, Hs, Hc, Hr, Hq, Ht, Hf, Hv, Hfe. split; reflexivity.
  - intros j b fa dir base ext total Hn.
    exists (path_stem j b fa). split; [|split].
    + intros v. rewrite (view_filepath_stem j b (Some v) fa dir base ext total Hn).
      cbn [default from_option]. unfold view_segment.
      rewrite !string_app_assoc. reflexivity.
    + intros Hbase. rewrite (quilt_filepath_name j b fa dir base ext total Hn).
      unfold path_stem. destruct Hn as (Hd & Hb & _). rewrite Hd. cbn [default from_option].
      rewrite os_path_join_app; [reflexivity|].
      left. unfold name_stem. rewrite Hb. cbn [default from_option].
      destruct base; [congruence|discriminate].
    + intros v1 v2 H1 H2 Hne E. apply Hne.
      exact (view_filepath_injective j b fa dir base ext total v1 v2 Hn H1 H2 E).
  - intros total v Hv. split; [apply view_digits_padded; exact Hv|].
    split; [apply str_int_value; exact Hv|apply view_digits_value; exact Hv].
Qed.

(** ** Deleting the files of a frame *)

(** The files left when the views [start], [start + 1], ... ([rounds] of
    them) have been removed. *)
Fixpoint removed_views (path_of : Z → string) (start : Z) (rounds : nat)
    (m : gmap string ndarray) : gmap string ndarray :=
  match rounds with
  | O => m
  | S k => removed_views path_of (start + 1) k (delete (path_of start) m)
  end.

Lemma removed_views_lookup (path_of : Z → string) (rounds : nat) :
  ∀ (start : Z) (m : gmap string ndarray) (p : string),
    removed_views path_of start rounds m !! p = None
    ∨ removed_views path_of start rounds m !! p = m !! p.
Proof.
  induction rounds as [|k IH]; intros start m p; cbn; [right; reflexivity|].
  destruct (IH (start + 1) (delete (path_of start) m) p) as [E|E]; [left; exact E|].
  rewrite E. destruct (decide (path_of start = p)) as [->|Hne].
  - left. apply lookup_delete_eq.
  - right. apply lookup_delete_ne. exact Hne.
Qed.

Lemma removed_views_gone (path_of : Z → string) (rounds : nat) :
  ∀ (start : Z) (m : gmap string ndarray) (v : Z),
    start ≤ v < start + Z.of_nat rounds →
    removed_views path_of start rounds m !! path_of v = None.
Proof.
  induction rounds as [|k IH]; intros start m v Hv; [lia|]. cbn.
  destruct (Z.eq_dec v start) as [->|Hne].
  - destruct (removed_views_lookup path_of k (start + 1)
                (delete (path_of start) m) (path_of start)) as [E|E]; [exact E|].
    rewrite E. apply lookup_delete_eq.
  - apply IH. lia.
Qed.

Lemma removed_views_kept (path_of : Z → string) (rounds : nat) :
  ∀ (start : Z) (m : gmap string ndarray) (p : string),
    (∀ v, start ≤ v < start + Z.of_nat rounds → path_of v ≠ p) →
    removed_views path_of start rounds m !! p = m !! p.
Proof.
  induction rounds as [|k IH]; intros start m p Hp; [reflexivity|]. cbn.
  rewrite IH by (intros v Hv; apply Hp; lia).
  apply lookup_delete_ne, Hp. lia.
Qed.

Lemma removed_views_changed (path_of : Z → string) (rounds : nat) :
  ∀ (start : Z) (m : gmap string ndarray) (p : string),
    removed_views path_of start rounds m !! p ≠ m !! p →
    ∃ v, start ≤ v < start + Z.of_nat rounds ∧ path_of v = p.
Proof.
  induction rounds as [|k IH]; intros start m p Hp; [contradiction|]. cbn in Hp.
  destruct (decide (path_of start = p)) as [E|Hne].
  - exists start. split; [lia|exact E].
  - destruct (IH (start + 1) (delete (path_of start) m) p) as (v & Hv & E).
    + rewrite (lookup_delete_ne m _ _ Hne). exact Hp.
    + exists v. split; [lia|exact E].
Qed.

Lemma remove_if_file_spec (op : Operator) (rs : RenderSettings) (j : RenderJob)
    (b : Blender) (m : gmap string ndarray) (path : string) :
  remove_if_file path (mkWorld op rs j (set_files m b))
  = Done tt (mkWorld op rs j (set_files (delete path m) b)).
Proof.
  unfold remove_if_file. run. cbn [files set_files].
  destruct (decide (is_Some (m !! path))) as [Hs|Hn]; [reflexivity|].
  rewrite delete_id; [reflexivity|].
  destruct (m !! path) eqn:E; [|reflexivity]. exfalso. apply Hn. eauto.
Qed.

(** The path of the view [v] when the naming attributes are set. *)
Definition view_path (j : RenderJob) (b : Blender) (frame_arg : option Z)
    (total : Z) (ext : string) (v : Z) : string :=
  path_stem j b frame_arg +:+ view_segment total v +:+ ext.

Lemma delete_views_loop (op : Operator) (rs : RenderSettings) (j : RenderJob)
    (b : Blender) (frame_arg : option Z) (dir base ext : string) (total : Z) :
  naming_set j dir base ext total →
  ∀ (rounds : nat) (start : Z) (m : gmap string ndarray),
    for_range_from start rounds
      (fun view =>
         j ← self;
         b ← bpy;
         path ← lift (view_filepath j b (Some view) frame_arg);
         remove_if_file path)
      (mkWorld op rs j (set_files m b))
    = Done tt (mkWorld op rs j
                 (set_files
                    (removed_views (view_path j b frame_arg total ext) start rounds m) b)).
Proof using Type.
  intros Hn. induction rounds as [|k IH]; intros start m; [reflexivity|].
  cbn [for_range_from removed_views]. run.
  rewrite (view_filepath_stem j (set_files m b) (Some start) frame_arg dir base ext total Hn).
  cbn [default from_option].
  change (path_stem j (set_files m b) frame_arg) with (path_stem j b frame_arg).
  rewrite remove_if_file_spec. apply IH.
Qed.

Lemma quilt_path_not_view_path (j : RenderJob) (b : Blender) (frame_arg : option Z)
    (dir base ext : string) (total v : Z) (q : string) :
  naming_set j dir base ext total →
  quilt_filepath j b frame_arg = Ok q →
  view_path j b frame_arg total ext v ≠ q.
Proof using Type.
  intros Hn Hq E.
  rewrite (quilt_filepath_name j b frame_arg dir base ext total Hn) in Hq.
  injection Hq as <-.
  pose proof (view_filepath_stem j b (Some v) frame_arg dir base ext total Hn) as H1.
  pose proof (view_filepath_name j b (Some v) frame_arg dir base ext total Hn) as H2.
  rewrite H1 in H2. injection H2 as H2. cbn [default from_option] in H2.
  unfold view_path in E. rewrite H2 in E. symmetry in E. revert E.
  apply os_path_join_insert_ne; apply view_segment_no_sep.
Qed.

(** C10.  [delete_files] ends normally when the naming attributes are set;
    it creates and changes no file; every file it removes is the file of
    one of the views [0 .. total_views - 1] of the frame, or is the quilt
    file of the frame when the output path has an empty base name and the
    job is not an animation; all these files are gone afterwards; with a
    base name given by the user, or for an animation, the quilt file is
    left as it is; and the list of pixel buffers is emptied, while nothing
    else of the job changes. *)
Theorem delete_files_removes_views_only (w : World) (frame_arg : option Z)
    (dir base ext out : string) (total : Z) :
  naming_set (job w) dir base ext total →
  outputpath (job w) = Some out →
  ∃ files' : gmap string ndarray,
    delete_files frame_arg w
    = Done tt (mkWorld (operator w) (render_settings w)
                 (set__view_images_pixels [] (job w)) (set_files files' (host w)))
    ∧ (∀ p, files' !! p = None ∨ files' !! p = files (host w) !! p)
    ∧ (∀ p, files' !! p ≠ files (host w) !! p →
         (∃ v, 0 ≤ v < total
               ∧ view_filepath (job w) (host w) (Some v) frame_arg = Ok p)
         ∨ (os_path_basename out = "" ∧ animation (job w) = false
            ∧ quilt_filepath (job w) (host w) frame_arg = Ok p))
    ∧ (∀ v p, 0 ≤ v < total →
         view_filepath (job w) (host w) (Some v) frame_arg = Ok p → files' !! p = None)
    ∧ (∀ q, quilt_filepath (job w) (host w) frame_arg = Ok q →
         if (String.eqb (os_path_basename out) "" && negb (animation (job w)))%bool
         then files' !! q = None
         else files' !! q = files (host w) !! q).
Proof using Type.
  intros Hn Hout. destruct w as [op rs j b]. cbn [job host operator render_settings] in *.
  pose proof Hn as (Hd & Hb & He & Ht).
  set (vp := view_path j b frame_arg total ext).
  set (m1 := removed_views vp 0 (Z.to_nat total) (files b)).
  assert (Hb0 : b = set_files (files b) b) by (destruct b; reflexivity).
  assert (Hq : quilt_filepath j b frame_arg
               = Ok (os_path_join dir (name_stem j b frame_arg +:+ ext)))
    by (apply (quilt_filepath_name j b frame_arg dir base ext total Hn)).
  set (q := os_path_join dir (name_stem j b frame_arg +:+ ext)) in *.
  assert (Hvp : ∀ v, view_filepath j b (Some v) frame_arg = Ok (vp v)).
  { intros v. apply (view_filepath_stem j b (Some v) frame_arg dir base ext total Hn). }
  assert (Hne : ∀ v, vp v ≠ q).
  { intros v. apply (quilt_path_not_view_path j b frame_arg dir base ext total v q Hn Hq). }
  set (del := (String.eqb (os_path_basename out) "" && negb (animation j))%bool).
  exists (if del then delete q m1 else m1).
  split; [|split; [|split; [|split]]].
  - unfold delete_files, for_range. run. rewrite Ht.
    pose proof (delete_views_loop op rs j b frame_arg dir base ext total Hn
                  (Z.to_nat total) 0 (files b)) as Hloop.
    rewrite <- Hb0 in Hloop. revert Hloop. run. intros ->.
    fold vp. fold m1. run. rewrite Hout. fold del.
    destruct del; run.
    + change (quilt_filepath j (set_files m1 b) frame_arg)
        with (quilt_filepath j b frame_arg).
      rewrite Hq. rewrite remove_if_file_spec. reflexivity.
    + reflexivity.
  - intros p. destruct (removed_views_lookup vp (Z.to_nat total) 0 (files b) p) as [E|E];
      fold m1 in E; destruct del.
    + destruct (decide (q = p)) as [->|Hqp];
        [left; apply lookup_delete_eq|left; rewrite lookup_delete_ne by exact Hqp; exact E].
    + left; exact E.
    + destruct (decide (q = p)) as [->|Hqp];
        [left; apply lookup_delete_eq|right; rewrite lookup_delete_ne by exact Hqp; exact E].
    + right; exact E.
  - intros p Hp.
    assert (Hviews : m1 !! p ≠ files b !! p →
              ∃ v, 0 ≤ v < total ∧ view_filepath j b (Some v) frame_arg = Ok p).
    { intros Hc. destruct (removed_views_changed vp _ _ _ _ Hc) as (v & Hv & <-).
      exists v. split; [lia|apply Hvp]. }
    subst del.
    destruct (String.eqb_spec (os_path_basename out) "") as [Eb|Nb]; cbn in Hp;
      [|left; apply Hviews; exact Hp].
    destruct (animation j); cbn in Hp; [left; apply Hviews; exact Hp|].
    destruct (decide (q = p)) as [<-|Hqp].
    + right. split; [exact Eb|split; [reflexivity|exact Hq]].
    + rewrite lookup_delete_ne in Hp by exact Hqp. left. apply Hviews. exact Hp.
  - intros v p Hv Hp. rewrite Hvp in Hp. injection Hp as <-.
    assert (E : m1 !! vp v = None) by (apply removed_views_gone; lia).
    destruct del; [|exact E].
    rewrite lookup_delete_ne by (intros Eq; exact (Hne v (eq_sym Eq))). exact E.
  - intros q' Hq'. rewrite Hq in Hq'. injection Hq' as <-.
    destruct del; [apply lookup_delete_eq|].
    apply removed_views_kept. intros v _. apply Hne.
Qed.

(** ** Arrays *)

(** A three-dimensional array with [n0] rows of [n1] pixels of [n2]
    values. *)
Definition regular3 (n0 n1 n2 : nat) (a : ndarray3) : Prop :=
  length a = n0
  ∧ Forall (fun row => length row = n1 ∧ Forall (fun px => length px = n2) row) a.

Lemma concat_length_regular {A : Type} (n : nat) (ls : list (list A)) :
  Forall (fun l => length l = n) ls → length (concat ls) = (length ls * n)%nat.
Proof.
  induction 1 as [|l ls Hl _ IH]; [reflexivity|].
  cbn. rewrite length_app, IH, Hl. reflexivity.
Qed.

(** Element [i * n + k] of the concatenation of lists of length [n] is
    element [k] of the list [i]. *)
Lemma concat_lookup_regular {A : Type} (n : nat) (ls : list (list A)) :
  Forall (fun l => length l = n) ls →
  ∀ i k, (k < n)%nat → concat ls !! (i * n + k)%nat = ls !! i ≫= (.!! k).
Proof.
  induction 1 as [|l ls Hl _ IH]; intros i k Hk.
  - cbn. rewrite !lookup_nil. reflexivity.
  - cbn [concat]. destruct i as [|i].
    + cbn. rewrite lookup_app_l by lia. reflexivity.
    + rewrite lookup_app_r by (cbn; lia).
      replace (S i * n + k - length l)%nat with (i * n + k)%nat by (cbn; lia).
      rewrite IH by exact Hk. reflexivity.
Qed.

Lemma chunks_length {A : Type} (count size : nat) (l : list A) :
  length (chunks count size l) = count.
Proof.
  revert l. induction count as [|k IH]; intros l; [reflexivity|].
  cbn. rewrite IH. reflexivity.
Qed.

Lemma chunks_regular {A : Type} (count size : nat) (l : list A) :
  length l = (count * size)%nat →
  Forall (fun c => length c = size) (chunks count size l)
  ∧ concat (chunks count size l) = l.
Proof.
  revert l. induction count as [|k IH]; intros l Hl.
  - cbn in *. destruct l; [split; [constructor|reflexivity]|discriminate].
  - cbn [chunks concat].
    destruct (IH (drop size l)) as [HF HC].
    { rewrite length_drop, Hl. cbn. lia. }
    split.
    + constructor; [|exact HF]. rewrite length_take, Hl. cbn. lia.
    + rewrite HC. apply take_drop.
Qed.

(** The array [reshape3] builds. *)
Definition tile (h w : nat) (a : ndarray) : ndarray3 :=
  map (chunks w 4) (chunks h (w * 4) a).

Lemma tile_regular (h w : nat) (a : ndarray) :
  length a = (h * (w * 4))%nat →
  regular3 h w 4 (tile h w a) ∧ concat (concat (tile h w a)) = a.
Proof.
  intros Ha. unfold tile, regular3.
  destruct (chunks_regular h (w * 4) a Ha) as [HF HC].
  rewrite length_map, chunks_length.
  split; [split; [reflexivity|]|].
  - apply Forall_map. eapply Forall_impl; [exact HF|].
    intros c Hc. cbn beta. rewrite chunks_length.
    destruct (chunks_regular w 4 c Hc) as [HF' _]. auto.
  - rewrite <- HC at 2.
    clear HC Ha. induction HF as [|c cs Hc _ IH]; [reflexivity|].
    cbn [map concat]. rewrite concat_app, IH. f_equal.
    apply (chunks_regular w 4 c Hc).
Qed.

Lemma reshape3_tile (a : ndarray) (h w : Z) :
  0 ≤ h → 0 ≤ w → Z.of_nat (length a) = h * w * 4 →
  reshape3 a h w 4 = Ok (tile (Z.to_nat h) (Z.to_nat w) a).
Proof.
  intros Hh Hw Hl. unfold reshape3, tile.
  destruct (Z.leb_spec 0 h); [|lia]. destruct (Z.leb_spec 0 w); [|lia].
  destruct (Z.eqb_spec (Z.of_nat (length a)) (h * w * 4)); [|lia]. cbn.
  replace (Z.to_nat (w * 4)) with (Z.to_nat w * 4)%nat by lia. reflexivity.
Qed.

Lemma reshape3_wrong_length (a : ndarray) (h w : Z) :
  Z.of_nat (length a) ≠ h * w * 4 → reshape3 a h w 4 = Raise ValueError.
Proof.
  intros Hl. unfold reshape3.
  destruct (Z.eqb_spec (Z.of_nat (length a)) (h * w * 4)); [contradiction|].
  rewrite !andb_false_r. reflexivity.
Qed.

(** Element [(y, x, ch)] of a regular array, through its flattening. *)
Lemma flatten_lookup_regular (n0 n1 n2 : nat) (a : ndarray3) (y x ch : nat) :
  regular3 n0 n1 n2 a → (x < n1)%nat → (ch < n2)%nat →
  concat (concat a) !! ((y * n1 + x) * n2 + ch)%nat
  = (a !! y ≫= (.!! x)) ≫= (.!! ch).
Proof.
  intros [_ HF] Hx Hch.
  rewrite (concat_lookup_regular n2).
  - rewrite (concat_lookup_regular n1); [reflexivity| |exact Hx].
    eapply Forall_impl; [exact HF|]. intros row [H _]. exact H.
  - apply Forall_concat. eapply Forall_impl; [exact HF|]. intros row [_ H]. exact H.
  - exact Hch.
Qed.

Lemma flatten_length_regular (n0 n1 n2 : nat) (a : ndarray3) :
  regular3 n0 n1 n2 a → length (concat (concat a)) = (n0 * n1 * n2)%nat.
Proof.
  intros [Hl HF].
  rewrite (concat_length_regular n2).
  - rewrite (concat_length_regular n1), Hl; [reflexivity|].
    eapply Forall_impl; [exact HF|]. intros row [H _]. exact H.
  - apply Forall_concat. eapply Forall_impl; [exact HF|]. intros row [_ H]. exact H.
Qed.

(** The extents read off a regular array. *)
Definition regular_shape (n0 n1 n2 : nat) : nat * nat * nat :=
  (n0, match n0 with O => O | S _ => n1 end,
   match n0, n1 with S _, S _ => n2 | _, _ => O end).

Lemma shape3_regular (n0 n1 n2 : nat) (a : ndarray3) :
  regular3 n0 n1 n2 a → shape3 a = regular_shape n0 n1 n2.
Proof.
  unfold regular_shape.
  intros [Hl HF]. unfold shape3. rewrite Hl.
  destruct a as [|row a]; cbn in Hl; subst n0; [reflexivity|].
  apply Forall_cons in HF as [[Hrow Hpx] _]. cbn [hd]. rewrite Hrow.
  destruct row as [|px row]; cbn in Hrow; subst n1; [reflexivity|].
  apply Forall_cons in Hpx as [Hpx _]. cbn [hd]. rewrite Hpx. reflexivity.
Qed.

(** The strip [np.hstack] makes of tiles of [h] rows. *)
Definition strip_of (h : nat) (tiles : list ndarray3) : ndarray3 :=
  map (fun r => concat (map (fun t => nth r t []) tiles)) (seq 0 h).

Lemma regular3_row (n0 n1 n2 : nat) (a : ndarray3) (y : nat) :
  regular3 n0 n1 n2 a → (y < n0)%nat →
  a !! y = Some (nth y a [])
  ∧ length (nth y a []) = n1 ∧ Forall (fun px => length px = n2) (nth y a []).
Proof.
  intros [Hl HF] Hy.
  destruct (lookup_lt_is_Some_2 a y) as [row Hrow]; [lia|].
  rewrite (nth_lookup_Some _ _ _ _ Hrow).
  split; [exact Hrow|]. exact (proj1 (Forall_lookup _ a) HF y row Hrow).
Qed.

Lemma strip_of_regular (h w : nat) (tiles : list ndarray3) :
  Forall (regular3 h w 4) tiles →
  regular3 h (length tiles * w) 4 (strip_of h tiles)
  ∧ ∀ y c x, (y < h)%nat → (x < w)%nat →
      strip_of h tiles !! y ≫= (.!! (c * w + x)%nat)
      = (tiles !! c ≫= (.!! y)) ≫= (.!! x).
Proof.
  intros HF.
  assert (Hrow : ∀ y, (y < h)%nat →
            Forall (fun l => length l = w) (map (fun t => nth y t []) tiles)
            ∧ Forall (Forall (fun px => length px = 4%nat)) (map (fun t => nth y t []) tiles)).
  { intros y Hy. split; apply Forall_map; (eapply Forall_impl; [exact HF|]);
      intros t Ht; apply (regular3_row h w 4 t y Ht Hy). }
  split; [split|].
  - unfold strip_of. rewrite length_map, length_seq. reflexivity.
  - unfold strip_of. apply Forall_map. apply Forall_forall. intros y Hy.
    apply elem_of_seq in Hy. destruct (Hrow y ltac:(lia)) as [H1 H2]. split.
    + rewrite (concat_length_regular w) by exact H1. rewrite length_map. reflexivity.
    + apply Forall_concat. exact H2.
  - intros y c x Hy Hx. unfold strip_of.
    rewrite lookup_map, lookup_seq_lt by exact Hy.
    cbn [fmap option_fmap option_map mbind option_bind].
    rewrite Nat.add_0_l.
    rewrite (concat_lookup_regular w) by (apply (Hrow y Hy) || exact Hx).
    rewrite lookup_map.
    destruct (tiles !! c) as [t|] eqn:Ht; [|reflexivity].
    cbn [fmap option_fmap option_map mbind option_bind].
    assert (Hreg : regular3 h w 4 t) by exact (proj1 (Forall_lookup _ tiles) HF c t Ht).
    destruct (regular3_row h w 4 t y Hreg Hy) as [-> _]. reflexivity.
Qed.

Lemma forallb_same_shape (s : nat * nat * nat) (arrays : list ndarray3)
    (check : nat * nat * nat → nat * nat * nat → bool) :
  (∀ s, check s s = true) → Forall (fun a => shape3 a = s) arrays →
  ∀ a0, shape3 a0 = s → forallb (fun a => check (shape3 a) (shape3 a0)) arrays = true.
Proof.
  intros Hrefl HF a0 H0. apply forallb_forall. intros a Ha.
  rewrite (proj1 (List.Forall_forall _ _) HF a Ha), H0. apply Hrefl.
Qed.

Lemma hstack_regular (h w : nat) (tiles : list ndarray3) :
  tiles ≠ [] → Forall (regular3 h w 4) tiles →
  hstack tiles = Ok (strip_of h tiles).
Proof.
  intros Hne HF. destruct tiles as [|t0 rest]; [congruence|].
  unfold hstack.
  assert (H0 : regular3 h w 4 t0) by (apply Forall_cons in HF; tauto).
  rewrite (forallb_same_shape (regular_shape h w 4) (t0 :: rest)
             (fun s s0 => (s.1.1 =? s0.1.1)%nat && (s.2 =? s0.2)%nat)).
  - destruct H0 as [-> _]. reflexivity.
  - intros s. rewrite !Nat.eqb_refl. reflexivity.
  - eapply Forall_impl; [exact HF|]. intros t Ht. apply (shape3_regular h w 4 t Ht).
  - apply (shape3_regular h w 4 t0 H0).
Qed.

Lemma vstack_regular (h n1 : nat) (strips : list ndarray3) :
  strips ≠ [] → Forall (regular3 h n1 4) strips →
  vstack strips = Ok (concat strips)
  ∧ regular3 (length strips * h) n1 4 (concat strips).
Proof.
  intros Hne HF. split.
  - destruct strips as [|s0 rest]; [congruence|]. unfold vstack.
    assert (H0 : regular3 h n1 4 s0) by (apply Forall_cons in HF; tauto).
    rewrite (forallb_same_shape (regular_shape h n1 4) (s0 :: rest)
               (fun s s0 => (s.1.2 =? s0.1.2)%nat && (s.2 =? s0.2)%nat)).
    + reflexivity.
    + intros s. rewrite !Nat.eqb_refl. reflexivity.
    + eapply Forall_impl; [exact HF|]. intros t Ht. apply (shape3_regular h n1 4 t Ht).
    + apply (shape3_regular h n1 4 s0 H0).
  - split.
    + apply concat_length_regular. eapply Forall_impl; [exact HF|]. intros s [H _]. exact H.
    + apply Forall_concat. eapply Forall_impl; [exact HF|]. intros s [_ H]. exact H.
Qed.

Lemma index_nat {A : Type} (l : list A) (i : nat) :
  index l (Z.of_nat i)
  = match l !! i with
    | Some a => Ok a
    | None => Raise IndexError
    end.
Proof.
  unfold index. cbv zeta. destruct (Z.ltb_spec (Z.of_nat i) 0); [lia|].
  destruct (Z.ltb_spec (Z.of_nat i) 0); [lia|].
  rewrite Nat2Z.id. reflexivity.
Qed.

(** ** The loops of the quilt assembly *)

(** The buffer [i] is there and has the size of a view. *)
Definition view_buffer (j : RenderJob) (h w : nat) (i : nat) : Prop :=
  ∃ buf, _view_images_pixels j !! i = Some buf ∧ length buf = (h * (w * 4))%nat.

(** The tile made of the buffer [i]. *)
Definition tile_at (j : RenderJob) (h w : nat) (i : nat) : ndarray3 :=
  tile h w (nth i (_view_images_pixels j) []).

Lemma view_buffer_reshape (j : RenderJob) (b : Blender) (h w i : nat) :
  resolution_y b = Z.of_nat h → resolution_x b = Z.of_nat w →
  view_buffer j h w i →
  (viewPixels ← index (_view_images_pixels j) (Z.of_nat i);
   reshape3 viewPixels (resolution_y b) (resolution_x b) 4)
  = Ok (tile_at j h w i).
Proof.
  intros Hy Hx (buf & Hb & Hl). rewrite index_nat, Hb. run. rewrite Hy, Hx.
  rewrite reshape3_tile by lia. rewrite !Nat2Z.id. unfold tile_at.
  rewrite (nth_lookup_Some _ _ _ _ Hb). reflexivity.
Qed.

Lemma stack_columns_ok (j : RenderJob) (b : Blender) (h w r C : nat) :
  resolution_y b = Z.of_nat h → resolution_x b = Z.of_nat w →
  ∀ (rounds col : nat) (acc : list ndarray3),
    (∀ c, (col ≤ c < col + rounds)%nat → view_buffer j h w (r * C + c)) →
    stack_columns j b (Z.of_nat r) (Z.of_nat C) (Z.of_nat col) rounds acc
    = Ok (acc ++ map (fun c => tile_at j h w (r * C + c)) (seq col rounds)).
Proof.
  intros Hy Hx. induction rounds as [|k IH]; intros col acc Hgood.
  - cbn. rewrite app_nil_r. reflexivity.
  - cbn [stack_columns seq map].
    replace (Z.of_nat r * Z.of_nat C + Z.of_nat col) with (Z.of_nat (r * C + col)) by lia.
    pose proof (view_buffer_reshape j b h w (r * C + col) Hy Hx (Hgood col ltac:(lia))) as E.
    revert E. run. intros E.
    destruct (index (_view_images_pixels j) (Z.of_nat (r * C + col))) as [px|e];
      [|discriminate].
    rewrite E.
    replace (Z.of_nat col + 1) with (Z.of_nat (S col)) by lia.
    rewrite IH by (intros c Hc; apply Hgood; lia).
    rewrite <- app_assoc. reflexivity.
Qed.

(** The tiles of the row [r], and the strip they make. *)
Definition row_tiles (j : RenderJob) (h w C r : nat) : list ndarray3 :=
  map (fun c => tile_at j h w (r * C + c)) (seq 0 C).

Definition row_strip (j : RenderJob) (h w C r : nat) : ndarray3 :=
  strip_of h (row_tiles j h w C r).

Lemma tile_at_regular (j : RenderJob) (h w i : nat) :
  view_buffer j h w i →
  regular3 h w 4 (tile_at j h w i)
  ∧ concat (concat (tile_at j h w i)) = nth i (_view_images_pixels j) [].
Proof.
  intros (buf & Hb & Hl). unfold tile_at. rewrite (nth_lookup_Some _ _ _ _ Hb).
  apply tile_regular. exact Hl.
Qed.

Lemma row_tiles_regular (j : RenderJob) (h w C r : nat) :
  (∀ c, (c < C)%nat → view_buffer j h w (r * C + c)) →
  Forall (regular3 h w 4) (row_tiles j h w C r) ∧ length (row_tiles j h w C r) = C.
Proof.
  intros Hgood. unfold row_tiles. split.
  - apply Forall_map, Forall_forall. intros c Hc. apply elem_of_seq in Hc.
    apply tile_at_regular, Hgood. lia.
  - rewrite length_map, length_seq. reflexivity.
Qed.

Lemma stack_rows_ok (j : RenderJob) (b : Blender) (h w C : nat) :
  resolution_y b = Z.of_nat h → resolution_x b = Z.of_nat w →
  columns j = Some (Z.of_nat C) → (0 < C)%nat →
  ∀ (rounds row : nat) (acc : list ndarray3),
    (∀ r c, (row ≤ r < row + rounds)%nat → (c < C)%nat → view_buffer j h w (r * C + c)) →
    stack_rows j b (Z.of_nat row) rounds acc
    = Ok (acc ++ map (row_strip j h w C) (seq row rounds)).
Proof.
  intros Hy Hx Hc HC. induction rounds as [|k IH]; intros row acc Hgood.
  - cbn. rewrite app_nil_r. reflexivity.
  - cbn [stack_rows seq map]. rewrite Hc. run. rewrite Nat2Z.id.
    pose proof (stack_columns_ok j b h w row C Hy Hx C 0 []) as E.
    change (Z.of_nat 0) with 0 in E. rewrite E by (intros c Hcc; apply Hgood; lia). clear E.
    cbn [app]. fold (row_tiles j h w C row).
    destruct (row_tiles_regular j h w C row) as [HF HL];
      [intros c Hcc; apply Hgood; lia|].
    rewrite (hstack_regular h w _); [|intros E; rewrite E in HL; cbn in HL; lia|exact HF].
    fold (row_strip j h w C row).
    replace (Z.of_nat row + 1) with (Z.of_nat (S row)) by lia.
    rewrite IH by (intros r c Hr Hcc; apply Hgood; lia).
    rewrite <- app_assoc. reflexivity.
Qed.

(** The quilt as an array, and its elements. *)
Definition quilt_array (j : RenderJob) (h w C R : nat) : ndarray3 :=
  concat (map (row_strip j h w C) (seq 0 R)).

Lemma quilt_array_regular (j : RenderJob) (h w C R : nat) :
  (∀ r c, (r < R)%nat → (c < C)%nat → view_buffer j h w (r * C + c)) →
  Forall (regular3 h (C * w) 4) (map (row_strip j h w C) (seq 0 R))
  ∧ regular3 (R * h) (C * w) 4 (quilt_array j h w C R).
Proof.
  intros Hgood.
  assert (HF : Forall (regular3 h (C * w) 4) (map (row_strip j h w C) (seq 0 R))).
  { apply Forall_map, Forall_forall. intros r Hr. apply elem_of_seq in Hr.
    destruct (row_tiles_regular j h w C r) as [HT HL];
      [intros c Hc; apply Hgood; lia|].
    unfold row_strip. rewrite <- HL at 1. apply strip_of_regular. exact HT. }
  split; [exact HF|]. unfold quilt_array. split.
  - rewrite (concat_length_regular h), length_map, length_seq; [reflexivity|].
    eapply Forall_impl; [exact HF|]. intros s [H _]. exact H.
  - apply Forall_concat. eapply Forall_impl; [exact HF|]. intros s [_ H]. exact H.
Qed.

Lemma quilt_array_lookup (j : RenderJob) (h w C R : nat) (r c y x ch : nat) :
  (∀ r c, (r < R)%nat → (c < C)%nat → view_buffer j h w (r * C + c)) →
  (r < R)%nat → (c < C)%nat → (y < h)%nat → (x < w)%nat → (ch < 4)%nat →
  concat (concat (quilt_array j h w C R))
    !! (((r * h + y) * (C * w) + (c * w + x)) * 4 + ch)%nat
  = _view_images_pixels j !! (r * C + c)%nat ≫= (.!! ((y * w + x) * 4 + ch)%nat).
Proof.
  intros Hgood Hr Hc Hy Hx Hch.
  destruct (quilt_array_regular j h w C R Hgood) as [HF Hreg].
  rewrite (flatten_lookup_regular (R * h) (C * w) 4 _ _ _ _ Hreg) by (nia || exact Hch).
  unfold quilt_array.
  rewrite (concat_lookup_regular h) by
    ((eapply Forall_impl; [exact HF|]; intros s [H _]; exact H) || exact Hy).
  rewrite lookup_map, lookup_seq_lt by exact Hr. rewrite Nat.add_0_l.
  cbn [fmap option_fmap option_map mbind option_bind].
  destruct (row_tiles_regular j h w C r) as [HT HL]; [intros c' Hc'; apply Hgood; lia|].
  unfold row_strip.
  rewrite (proj2 (strip_of_regular h w _ HT) y c x Hy Hx).
  unfold row_tiles. rewrite lookup_map, lookup_seq_lt by exact Hc. rewrite Nat.add_0_l.
  cbn [fmap option_fmap option_map mbind option_bind].
  destruct (tile_at_regular j h w (r * C + c) (Hgood r c Hr Hc)) as [Htile Hflat].
  rewrite <- (flatten_lookup_regular h w 4 _ y x ch Htile Hx Hch), Hflat.
  destruct (Hgood r c Hr Hc) as (buf & Hb & _).
  rewrite (nth_lookup_Some _ _ _ _ Hb), Hb. reflexivity.
Qed.

(** Buffers of the size of a view, as many as there are tiles. *)
Lemma view_buffers_complete (j : RenderJob) (R C h w : nat) :
  length (_view_images_pixels j) = (R * C)%nat →
  Forall (fun buf => length buf = (w * h * 4)%nat) (_view_images_pixels j) →
  ∀ r c, (r < R)%nat → (c < C)%nat → view_buffer j h w (r * C + c).
Proof.
  intros Hlen Hsizes r c Hr Hc.
  destruct (lookup_lt_is_Some_2 (_view_images_pixels j) (r * C + c)) as [buf Hb]; [nia|].
  exists buf. split; [exact Hb|].
  rewrite (proj1 (Forall_lookup _ _) Hsizes _ _ Hb). lia.
Qed.

(** The assembly returns the flattened quilt array. *)
Lemma assemble_quilt_pixels_ok (j : RenderJob) (b : Blender) (R C h w : nat) :
  rows j = Some (Z.of_nat R) → columns j = Some (Z.of_nat C) →
  resolution_y b = Z.of_nat h → resolution_x b = Z.of_nat w →
  (0 < R)%nat → (0 < C)%nat →
  (∀ r c, (r < R)%nat → (c < C)%nat → view_buffer j h w (r * C + c)) →
  assemble_quilt_pixels j b = Ok (concat (concat (quilt_array j h w C R))).
Proof.
  intros Hrows Hcols Hy Hx HR HC Hgood.
  destruct (quilt_array_regular j h w C R Hgood) as [HF Hreg].
  unfold assemble_quilt_pixels. rewrite Hrows. run. rewrite Nat2Z.id.
  pose proof (stack_rows_ok j b h w C Hy Hx Hcols HC R 0 []) as E.
  change (Z.of_nat 0) with 0 in E. rewrite E by (intros r c Hr Hc; apply Hgood; lia).
  clear E. cbn [app].
  destruct (vstack_regular h (C * w) (map (row_strip j h w C) (seq 0 R))) as [-> _];
    [destruct R; [lia|discriminate]|exact HF|].
  rewrite Hcols. unfold reshape1. fold (quilt_array j h w C R).
  rewrite (flatten_length_regular _ _ _ _ Hreg), Hx, Hy.
  destruct (Z.eqb_spec (Z.of_nat (R * h * (C * w) * 4))
              (Z.of_nat C * Z.of_nat R * (Z.of_nat w * Z.of_nat h * 4))); [reflexivity|lia].
Qed.

(** C5.  For [rows] x [columns] buffers of [w * h * 4] values each, the
    assembly returns one flat buffer of [(columns * w) * (rows * h) * 4]
    values, the row-major layout of an array of [rows * h] rows of
    [columns * w] pixels of 4 channels, in which the pixel [(x, y)] of the
    buffer at position [r * columns + c] is the pixel
    [(c * w + x, r * h + y)]: the tiles of a row side by side from the
    left, the rows one after the other with row 0 first. *)
Theorem quilt_assembled_row_major (j : RenderJob) (b : Blender) (R C h w : nat) :
  rows j = Some (Z.of_nat R) → columns j = Some (Z.of_nat C) →
  resolution_y b = Z.of_nat h → resolution_x b = Z.of_nat w →
  (0 < R)%nat → (0 < C)%nat →
  length (_view_images_pixels j) = (R * C)%nat →
  Forall (fun buf => length buf = (w * h * 4)%nat) (_view_images_pixels j) →
  ∃ quiltPixels : ndarray,
    assemble_quilt_pixels j b = Ok quiltPixels
    ∧ length quiltPixels = ((C * w) * (R * h) * 4)%nat
    ∧ ∀ r c y x ch,
        (r < R)%nat → (c < C)%nat → (y < h)%nat → (x < w)%nat → (ch < 4)%nat →
        quiltPixels !! (((r * h + y) * (C * w) + (c * w + x)) * 4 + ch)%nat
        = _view_images_pixels j !! (r * C + c)%nat ≫= (.!! ((y * w + x) * 4 + ch)%nat).
Proof.
  intros Hrows Hcols Hy Hx HR HC Hlen Hsizes.
  pose proof (view_buffers_complete j R C h w Hlen Hsizes) as Hgood.
  destruct (quilt_array_regular j h w C R Hgood) as [HF Hreg].
  exists (concat (concat (quilt_array j h w C R))).
  split; [|split].
  - apply (assemble_quilt_pixels_ok j b R C h w); assumption.
  - rewrite (flatten_length_regular _ _ _ _ Hreg). lia.
  - intros r c y x ch Hr Hc Hyy Hxx Hch.
    apply quilt_array_lookup; assumption.
Qed.

(** *** When a buffer is missing or has another size *)

Lemma reshape3_raises (a : ndarray) (d0 d1 d2 : Z) (e : exn) :
  reshape3 a d0 d1 d2 = Raise e → e = ValueError.
Proof. unfold reshape3. destruct (_ && _)%bool; congruence. Qed.

Lemma hstack_raises (tiles : list ndarray3) (e : exn) :
  hstack tiles = Raise e → e = ValueError.
Proof.
  unfold hstack. destruct tiles; [congruence|]. destruct (forallb _ _); congruence.
Qed.

Lemma index_raises {A : Type} (l : list A) (i : Z) (e : exn) :
  index l i = Raise e → e = IndexError.
Proof.
  unfold index. cbv zeta. destruct (_ <? 0); [congruence|].
  destruct (l !! _); congruence.
Qed.

(** The buffer [i] is missing, or its size is not that of a view. *)
Definition wrong_buffer (j : RenderJob) (b : Blender) (i : nat) : Prop :=
  ∀ buf, _view_images_pixels j !! i = Some buf →
         Z.of_nat (length buf) ≠ resolution_y b * resolution_x b * 4.

Definition assembly_error (e : exn) : Prop := e = ValueError ∨ e = IndexError.

Lemma stack_columns_result (j : RenderJob) (b : Blender) (r C : nat) :
  ∀ (rounds col : nat) (acc : list ndarray3),
    match stack_columns j b (Z.of_nat r) (Z.of_nat C) (Z.of_nat col) rounds acc with
    | Ok _ => ∀ c, (col ≤ c < col + rounds)%nat → ¬ wrong_buffer j b (r * C + c)
    | Raise e => assembly_error e
    end.
Proof.
  induction rounds as [|k IH]; intros col acc; [intros c Hc; lia|].
  cbn [stack_columns].
  replace (Z.of_nat r * Z.of_nat C + Z.of_nat col) with (Z.of_nat (r * C + col)) by lia.
  run.
  destruct (index (_view_images_pixels j) (Z.of_nat (r * C + col))) as [px|e] eqn:Ei;
    [|right; apply (index_raises _ _ _ Ei)].
  destruct (reshape3 px (resolution_y b) (resolution_x b) 4) as [t|e] eqn:Er;
    [|left; apply (reshape3_raises _ _ _ _ _ Er)].
  replace (Z.of_nat col + 1) with (Z.of_nat (S col)) by lia.
  specialize (IH (S col) (acc ++ [t])).
  destruct (stack_columns j b (Z.of_nat r) (Z.of_nat C) (Z.of_nat (S col)) k (acc ++ [t]));
    [|exact IH].
  intros c Hc Hwrong.
  destruct (Nat.eq_dec c col) as [->|Hne]; [|apply (IH c); [lia|exact Hwrong]].
  rewrite index_nat in Ei.
  destruct (_view_images_pixels j !! (r * C + col)%nat) as [buf|] eqn:Eb; [|discriminate].
  injection Ei as <-.
  rewrite reshape3_wrong_length in Er by (apply Hwrong; exact Eb). discriminate.
Qed.

Lemma stack_rows_result (j : RenderJob) (b : Blender) (C : nat) :
  columns j = Some (Z.of_nat C) →
  ∀ (rounds row : nat) (acc : list ndarray3),
    match stack_rows j b (Z.of_nat row) rounds acc with
    | Ok _ => ∀ r c, (row ≤ r < row + rounds)%nat → (c < C)%nat →
                     ¬ wrong_buffer j b (r * C + c)
    | Raise e => assembly_error e
    end.
Proof.
  intros Hc. induction rounds as [|k IH]; intros row acc; [intros r c Hr; lia|].
  cbn [stack_rows]. rewrite Hc. run. rewrite Nat2Z.id.
  pose proof (stack_columns_result j b row C C 0 []) as Hcols.
  change (Z.of_nat 0) with 0 in Hcols.
  destruct (stack_columns j b (Z.of_nat row) (Z.of_nat C) 0 C []) as [tiles|e];
    [|exact Hcols].
  destruct (hstack tiles) as [strip|e] eqn:Eh; [|left; apply (hstack_raises _ _ Eh)].
  replace (Z.of_nat row + 1) with (Z.of_nat (S row)) by lia.
  specialize (IH (S row) (acc ++ [strip])).
  destruct (stack_rows j b (Z.of_nat (S row)) k (acc ++ [strip])); [|exact IH].
  intros r c Hr Hcc.
  destruct (Nat.eq_dec r row) as [->|Hne]; [apply Hcols; lia|apply IH; lia].
Qed.

Lemma assemble_quilt_pixels_fails (j : RenderJob) (b : Blender) (nrows ncolumns : Z)
    (i : nat) :
  rows j = Some nrows → columns j = Some ncolumns →
  Z.of_nat i < nrows * ncolumns → wrong_buffer j b i →
  ∃ e, assemble_quilt_pixels j b = Raise e ∧ assembly_error e.
Proof.
  intros Hr Hc Hi Hwrong. unfold assemble_quilt_pixels. rewrite Hr. run.
  destruct (Z.le_gt_cases nrows 0) as [Hneg|Hpos].
  - replace (Z.to_nat nrows) with 0%nat by lia. cbn [stack_rows vstack].
    exists ValueError. split; [reflexivity|left; reflexivity].
  - assert (Hcpos : 0 < ncolumns) by nia.
    pose proof (stack_rows_result j b (Z.to_nat ncolumns)
                  ltac:(rewrite Z2Nat.id by lia; exact Hc) (Z.to_nat nrows) 0 []) as Hres.
    change (Z.of_nat 0) with 0 in Hres.
    destruct (stack_rows j b 0 (Z.to_nat nrows) []) as [v|e]; [|exists e; split; [reflexivity|exact Hres]].
    exfalso.
    apply (Hres (i / Z.to_nat ncolumns)%nat (i mod Z.to_nat ncolumns)%nat).
    + split; [lia|]. cbn. apply Nat.Div0.div_lt_upper_bound. nia.
    + apply Nat.mod_upper_bound. lia.
    + replace (i / Z.to_nat ncolumns * Z.to_nat ncolumns + i mod Z.to_nat ncolumns)%nat
        with i; [exact Hwrong|].
      rewrite (Nat.div_mod_eq i (Z.to_nat ncolumns)) at 1. lia.
Qed.

(** C6.  When one of the [rows * columns] buffers the assembly reads is
    missing or does not have [resolution_y * resolution_x * 4] values, the
    pixel assembly raises ([ValueError] from the reshape, or [IndexError]);
    [assemble_quilt] raises with it before it has written anything; and
    the step of the modal operator that completes the frame raises too,
    leaving the job where it was: the same view, the same frame, the same
    state, no quilt file. *)
Theorem wrong_buffer_aborts_frame (w : World) (total nrows ncolumns : Z) (i : nat) :
  _state (job w) = COMPLETE_RENDER → render_cancel (host w) = false →
  total_views (job w) = Some total → view (job w) = total - 1 →
  rows (job w) = Some nrows → columns (job w) = Some ncolumns →
  Z.of_nat i < nrows * ncolumns → wrong_buffer (job w) (host w) i →
  ∃ e, assembly_error e
       ∧ assemble_quilt_pixels (job w) (host w) = Raise e
       ∧ assemble_quilt w = Raised e w
       ∧ ∀ render_cancelled, modal TIMER render_cancelled w = Raised e w.
Proof using Type.
  intros Hst Hcancel Htotal Hview Hr Hc Hi Hwrong.
  destruct (assemble_quilt_pixels_fails (job w) (host w) nrows ncolumns i Hr Hc Hi Hwrong)
    as (e & He & Herr).
  exists e.
  assert (Ha : assemble_quilt w = Raised e w).
  { unfold assemble_quilt. run. rewrite He. reflexivity. }
  split; [exact Herr|split; [exact He|split; [exact Ha|]]].
  intros rc. unfold modal. run. rewrite Hcancel, Hst. cbn [negb].
  unfold modal_complete_render. run. rewrite Htotal, Hview, Z.eqb_refl.
  rewrite Ha. reflexivity.
Qed.

(** ** The state machine on two runs *)

(** C7, on a resumed job whose second view file is missing.  [init_render]
    loads the first view, then puts the job in [CANCEL_RENDER], sets
    [file_force_keep] and stores the sign ["ERROR"] and the message on
    the job; the next tick of the operator unwinds without deleting the
    view file that exists; but what it reports is the sign and message of
    the operator, ["INFO"] and "Quilt rendering was cancelled.", not the
    error stored on the job. *)
Theorem resume_error_stays_on_the_job :
  ∃ w1 w2 : World,
    init_render resumed_world = Done tt w1
    ∧ _state (job w1) = CANCEL_RENDER
    ∧ file_force_keep (job w1) = true
    ∧ cancel_sign (job w1) = Some "ERROR"
    ∧ cancel_message (job w1) = Some missing_view_message
    ∧ _view_images_pixels (job w1) = [[1; 2; 3; 4]%R]
    ∧ _use_lockfile (job w1) = true
    ∧ modal TIMER false w1 = Done CANCELLED w2
    ∧ files (host w2) = files (host resumed_world)
    ∧ reports (operator w2) = [("INFO", "Quilt rendering was cancelled.")].
Proof using Type.
  eexists. eexists.
  split; [vm_compute; reflexivity|].
  repeat (split; [vm_compute; reflexivity|]). vm_compute. reflexivity.
Qed.

(** C8, on an animation whose view files are kept.  The tick that
    completes frame 1 assembles the quilt, sets the view back to 0 and
    moves on to frame 2, in state [INVOKE_RENDER]; but the list of pixel
    buffers still holds the two buffers of frame 1: the frame has
    advanced without the list being emptied, and the length of the list
    (2) is not the view index (0). *)
Theorem frame_advances_with_full_buffers :
  ∃ w' : World,
    modal TIMER false first_frame_done = Done PASS_THROUGH w'
    ∧ frame (job first_frame_done) = 1 ∧ frame (job w') = 2
    ∧ view (job w') = 0
    ∧ _state (job w') = INVOKE_RENDER
    ∧ total_views (job w') = Some 2
    ∧ _view_images_pixels (job w') = [[1; 2; 3; 4]; [5; 6; 7; 8]]%R
    ∧ files (host w') !! "/tmp/out/quilt_f1.png" = Some [1; 2; 3; 4; 5; 6; 7; 8]%R.
Proof using Type.
  eexists.
  split; [vm_compute; reflexivity|].
  repeat (split; [vm_compute; reflexivity|]). vm_compute. reflexivity.
Qed.

(** The sibling path: when the view files are deleted at the end of the
    frame, [delete_files] empties the list before the frame advances. *)
Lemma frame_advances_with_empty_buffers_when_deleting :
  ∃ w' : World,
    modal TIMER false first_frame_done_deleting = Done PASS_THROUGH w'
    ∧ frame (job w') = 2
    ∧ view (job w') = 0
    ∧ _state (job w') = INVOKE_RENDER
    ∧ _view_images_pixels (job w') = []
    ∧ files (host w') !! "/tmp/out/quilt_f1_v0.png" = None
    ∧ files (host w') !! "/tmp/out/quilt_f1.png" = Some [1; 2; 3; 4; 5; 6; 7; 8]%R.
Proof using Type.
  eexists.
  split; [vm_compute; reflexivity|].
  repeat (split; [vm_compute; reflexivity|]). vm_compute. reflexivity.
Qed.

(** ** The lockfile record *)

(** What [from_dict] does with one item of the dictionary. *)
Definition from_dict_item (bd : BlendData) (object : pyval) (key : string)
    (value : pyval) : result pyval :=
  if (String.eqb key "scene" && negb (is_none value))%bool then
    v ← data_lookup (scenes bd) SceneData value; setattr object key v
  else if (String.eqb key "quiltImage" && negb (is_none value))%bool then
    v ← data_lookup (images bd) ImageData value; setattr object key v
  else if (String.eqb key "lookingglassCamera" && negb (is_none value))%bool then
    v ← data_lookup (data_objects bd) ObjectData value; setattr object key v
  else
    match value with
    | VDict _ =>
        current ← getattr object key;
        if is_dict current then try_setattr object key value
        else
          inner ← from_dict bd current value;
          Ok (mutated object key inner)
    | VBool _ | VInt _ | VFloat _ | VStr _ | VList _ =>
        try_setattr object key value
    | _ => Ok object
    end.

Lemma from_dict_nil (bd : BlendData) (object : pyval) :
  from_dict bd object (VDict []) = Ok object.
Proof. reflexivity. Qed.

Lemma from_dict_cons (bd : BlendData) (object : pyval) (key : string) (value : pyval)
    (rest : list (string * pyval)) :
  from_dict bd object (VDict ((key, value) :: rest))
  = (object' ← from_dict_item bd object key value; from_dict bd object' (VDict rest)).
Proof. reflexivity. Qed.

(** The value an item leaves in an attribute of a plain instance: the
    scene of that name for [scene], the value itself for a boolean, a
    number, a string or a list, nothing for [None]. *)
Definition restored_value (key : string) (value : pyval) : option pyval :=
  if String.eqb key "scene" then
    match value with
    | VStr n => Some (VData SceneData n)
    | _ => None
    end
  else
    match value with
    | VBool _ | VInt _ | VFloat _ | VStr _ | VList _ => Some value
    | _ => None
    end.

Definition restore_item (key : string) (value : pyval) (attrs : list (string * pyval))
  : list (string * pyval) :=
  match restored_value key value with
  | Some v => store_key key v attrs
  | None => attrs
  end.

(** The items [to_dict] makes of the attributes of a job: a scene that
    exists, or a plain value under a name that [from_dict] does not treat
    apart. *)
Definition simple_item (bd : BlendData) (item : string * pyval) : Prop :=
  (item.1 = "scene" ∧ ∃ n, item.2 = VStr n ∧ is_in n (scenes bd) = true)
  ∨ (is_in item.1 ["scene"; "quiltImage"; "lookingglassCamera"] = false
     ∧ match item.2 with
       | VNone | VBool _ | VInt _ | VFloat _ | VStr _ | VList _ => True
       | _ => False
       end).

Lemma from_dict_simple_item (bd : BlendData) (attrs : list (string * pyval))
    (key : string) (value : pyval) :
  simple_item bd (key, value) →
  from_dict_item bd (VObject PlainObject attrs) key value
  = Ok (VObject PlainObject (restore_item key value attrs)).
Proof.
  intros H. unfold simple_item in H. cbn [fst snd] in H.
  destruct H as [[-> (n & -> & Hn)]|[Hk Hv]].
  - unfold from_dict_item, restore_item, restored_value. cbn. rewrite Hn. reflexivity.
  - unfold from_dict_item, restore_item, restored_value.
    destruct (String.eqb_spec key "scene") as [->|_]; [discriminate|].
    destruct (String.eqb_spec key "quiltImage") as [->|_]; [discriminate|].
    destruct (String.eqb_spec key "lookingglassCamera") as [->|_]; [discriminate|].
    destruct value; try contradiction; reflexivity.
Qed.

Lemma from_dict_simple (bd : BlendData) (d : list (string * pyval)) :
  Forall (simple_item bd) d →
  ∀ attrs,
    from_dict bd (VObject PlainObject attrs) (VDict d)
    = Ok (VObject PlainObject
            (foldl (fun a item => restore_item item.1 item.2 a) attrs d)).
Proof.
  induction 1 as [|[key value] d Hitem _ IH]; intros attrs; [reflexivity|].
  rewrite from_dict_cons, (from_dict_simple_item bd attrs key value Hitem).
  cbn [foldl fst snd]. rewrite <- IH. reflexivity.
Qed.

Lemma lookup_store_key (key k : string) (v : pyval) (attrs : list (string * pyval)) :
  lookup_key key (store_key k v attrs)
  = if String.eqb k key then Some v else lookup_key key attrs.
Proof.
  induction attrs as [|[k0 v0] attrs IH]; cbn.
  - destruct (String.eqb k key); reflexivity.
  - destruct (String.eqb_spec k0 k) as [->|Hne]; cbn.
    + destruct (String.eqb k key); reflexivity.
    + rewrite IH. destruct (String.eqb_spec k0 key) as [->|Hne']; [|reflexivity].
      destruct (String.eqb_spec k key) as [->|_]; [contradiction|reflexivity].
Qed.

(** Induction on Python values, through the lists and the dictionaries. *)
Lemma pyval_nested_ind (P : pyval → Prop) :
  P VNone → (∀ b, P (VBool b)) → (∀ i, P (VInt i)) → (∀ f, P (VFloat f)) →
  (∀ s, P (VStr s)) →
  (∀ l, Forall P l → P (VList l)) →
  (∀ d, Forall (fun item => P item.2) d → P (VDict d)) →
  (∀ c attrs, Forall (fun item => P item.2) attrs → P (VObject c attrs)) →
  (∀ k n, P (VData k n)) → P VHandle →
  ∀ v, P v.
Proof.
  intros HNone HBool HInt HFloat HStr HList HDict HObject HData HHandle.
  fix IH 1. intros v. destruct v as [|b|i|f|s|l|d|c attrs|k n|].
  - exact HNone.
  - apply HBool.
  - apply HInt.
  - apply HFloat.
  - apply HStr.
  - apply HList. revert l. fix IHl 1. intros l. destruct l as [|v l].
    + constructor.
    + constructor; [apply IH|apply IHl].
  - apply HDict. revert d. fix IHd 1. intros d. destruct d as [|[k v] d].
    + constructor.
    + constructor; [apply IH|apply IHd].
  - apply HObject. revert attrs. fix IHd 1. intros d. destruct d as [|[k v] d].
    + constructor.
    + constructor; [apply IH|apply IHd].
  - apply HData.
  - exact HHandle.
Qed.

(** The items [to_dict] keeps of an instance. *)
Fixpoint public_items (excluded : list string) (d : list (string * pyval))
  : list (string * pyval) :=
  match d with
  | [] => []
  | (key, value) :: rest =>
      if (negb (startswith_ key) && negb (is_in key excluded))%bool
      then (key, to_dict value) :: public_items excluded rest
      else public_items excluded rest
  end.

Definition excluded_keys (c : pyclass) : list string :=
  match c with
  | PlainObject => []
  | AddonSettings => ["bl_rna"; "rna_type"; "blender_view3d"]
  | EngineSettings => ["bl_rna"; "rna_type"]
  end.

Lemma to_dict_object (c : pyclass) (attrs : list (string * pyval)) :
  to_dict (VObject c attrs) = VDict (public_items (excluded_keys c) attrs).
Proof.
  destruct c; cbn [to_dict excluded_keys]; f_equal;
    induction attrs as [|[k v] attrs IH]; cbn; try reflexivity;
    rewrite IH; reflexivity.
Qed.

Lemma to_dict_dict (d : list (string * pyval)) :
  to_dict (VDict d) = VDict (map (fun item => (item.1, to_dict item.2)) d).
Proof.
  cbn [to_dict]. f_equal. induction d as [|[k v] d IH]; cbn; [reflexivity|].
  rewrite IH. reflexivity.
Qed.

Lemma to_dict_list (l : list pyval) : to_dict (VList l) = VList (map to_dict l).
Proof. reflexivity. Qed.

Lemma json_value_dict (d : list (string * pyval)) :
  json_value (VDict d) = forallb (fun item => json_value item.2) d.
Proof.
  cbn [json_value]. induction d as [|[k v] d IH]; cbn; [reflexivity|].
  rewrite IH. reflexivity.
Qed.

Lemma json_value_list (l : list pyval) : json_value (VList l) = forallb json_value l.
Proof.
  cbn [json_value]. induction l as [|v l IH]; cbn; [reflexivity|].
  rewrite IH. reflexivity.
Qed.

Lemma json_value_store_key (key : string) (v : pyval) (d : list (string * pyval)) :
  json_value v = true → json_value (VDict d) = true →
  json_value (VDict (store_key key v d)) = true.
Proof.
  rewrite !json_value_dict. intros Hv. induction d as [|[k old] d IH]; cbn.
  - intros _. rewrite Hv. reflexivity.
  - intros [Hold Hd]%andb_prop. destruct (String.eqb k key); cbn.
    + rewrite Hv, Hd. reflexivity.
    + rewrite Hold, (IH Hd). reflexivity.
Qed.

Lemma to_dict_serializable (v : pyval) : json_value (to_dict v) = true.
Proof.
  induction v as [|b|i|f|s|l IH|d IH|c attrs IH|k n|] using pyval_nested_ind;
    try reflexivity.
  - rewrite to_dict_list, json_value_list.
    induction IH as [|v l Hv _ IHl]; cbn; [reflexivity|]. rewrite Hv, IHl. reflexivity.
  - rewrite to_dict_dict, json_value_dict.
    induction IH as [|[k v] d Hv _ IHd]; cbn; [reflexivity|].
    cbn in Hv. rewrite Hv, IHd. reflexivity.
  - rewrite to_dict_object, json_value_dict.
    induction IH as [|[k v] d Hv _ IHd]; cbn; [reflexivity|].
    destruct (negb (startswith_ k) && negb (is_in k (excluded_keys c)))%bool; cbn;
      [|exact IHd].
    cbn in Hv. rewrite Hv, IHd. reflexivity.
Qed.

Lemma lookup_restore_item (key k : string) (v : pyval) (attrs : list (string * pyval)) :
  lookup_key key (restore_item k v attrs)
  = if String.eqb k key
    then match restored_value k v with
         | Some v' => Some v'
         | None => lookup_key key attrs
         end
    else lookup_key key attrs.
Proof.
  unfold restore_item. destruct (restored_value k v) as [v'|].
  - apply lookup_store_key.
  - destruct (String.eqb k key); reflexivity.
Qed.

(** The dictionary [to_dict] makes of a job: the attributes without a
    leading underscore. *)
Definition job_record (j : RenderJob) : list (string * pyval) :=
  [ ("init", VBool (init j));
    ("add_suffix", VBool (add_suffix j));
    ("scene", VStr (scene j));
    ("animation", VBool (animation j));
    ("use_multiview", VBool (use_multiview j));
    ("frame", VInt (frame j));
    ("subframe", VFloat (subframe j));
    ("view", VInt (view j));
    ("seed", of_option VInt (seed j));
    ("view_width", of_option VInt (view_width j));
    ("view_height", of_option VInt (view_height j));
    ("rows", of_option VInt (rows j));
    ("columns", of_option VInt (columns j));
    ("total_views", of_option VInt (total_views j));
    ("quilt_aspect", of_option VFloat (quilt_aspect j));
    ("view_cone", of_option VFloat (view_cone j));
    ("lockfile_path", of_option VStr (lockfile_path j));
    ("outputpath", of_option VStr (outputpath j));
    ("file_use_temp", VBool (file_use_temp j));
    ("file_temp_name", VStr (file_temp_name j));
    ("file_dirname", of_option VStr (file_dirname j));
    ("file_basename", of_option VStr (file_basename j));
    ("file_extension", of_option VStr (file_extension j));
    ("file_quilt_suffix", of_option VStr (file_quilt_suffix j));
    ("file_force_keep", VBool (file_force_keep j)) ]
  ++ if_set "cancel_sign" (cancel_sign j)
  ++ if_set "cancel_message" (cancel_message j).

Lemma to_dict_of_option_int (o : option Z) : to_dict (of_option VInt o) = of_option VInt o.
Proof. destruct o; reflexivity. Qed.

Lemma to_dict_of_option_float (o : option R) :
  to_dict (of_option VFloat o) = of_option VFloat o.
Proof. destruct o; reflexivity. Qed.

Lemma to_dict_of_option_str (o : option string) :
  to_dict (of_option VStr o) = of_option VStr o.
Proof. destruct o; reflexivity. Qed.

Lemma to_dict_job (j : RenderJob) :
  to_dict (VObject PlainObject (RenderJob_dict j)) = VDict (job_record j).
Proof.
  unfold RenderJob_dict, job_record.
  destruct (cancel_sign j); destruct (cancel_message j); cbn;
    rewrite !to_dict_of_option_int, !to_dict_of_option_float, !to_dict_of_option_str;
    reflexivity.
Qed.

Lemma simple_of_option (bd : BlendData) (key : string) {A : Type} (f : A → pyval)
    (o : option A) :
  is_in key ["scene"; "quiltImage"; "lookingglassCamera"] = false →
  (∀ a, match f a with
        | VNone | VBool _ | VInt _ | VFloat _ | VStr _ | VList _ => True
        | _ => False
        end) →
  simple_item bd (key, of_option f o).
Proof.
  intros Hk Hf. right. split; [exact Hk|]. destruct o; cbn; [apply Hf|exact I].
Qed.

Lemma job_record_simple (bd : BlendData) (j : RenderJob) :
  is_in (scene j) (scenes bd) = true → Forall (simple_item bd) (job_record j).
Proof.
  intros Hscene. unfold job_record.
  apply Forall_app. split; [|apply Forall_app; split].
  - repeat (apply Forall_cons; split;
            [lazymatch goal with
             | |- simple_item _ (_, of_option _ _) =>
                 apply simple_of_option; [reflexivity|intros a; exact I]
             | |- simple_item _ ("scene", _) =>
                 left; split; [reflexivity|exists (scene j); split; [reflexivity|exact Hscene]]
             | |- _ => right; split; [reflexivity|exact I]
             end|]).
    constructor.
  - destruct (cancel_sign j); cbn; [|constructor].
    apply Forall_cons; split; [right; split; [reflexivity|exact I]|constructor].
  - destruct (cancel_message j); cbn; [|constructor].
    apply Forall_cons; split; [right; split; [reflexivity|exact I]|constructor].
Qed.

(** What the items of a record leave under one name: the value of the
    last item of that name that carries one, or what was there. *)
Fixpoint restored_lookup (key : string) (d : list (string * pyval)) (current : option pyval)
  : option pyval :=
  match d with
  | [] => current
  | (k, v) :: rest =>
      restored_lookup key rest
        (if String.eqb k key
         then match restored_value k v with
              | Some v' => Some v'
              | None => current
              end
         else current)
  end.

Lemma lookup_foldl_restore (key : string) (d : list (string * pyval)) :
  ∀ attrs,
    lookup_key key (foldl (fun a item => restore_item item.1 item.2 a) attrs d)
    = restored_lookup key d (lookup_key key attrs).
Proof.
  induction d as [|[k v] d IH]; intros attrs; [reflexivity|].
  cbn [foldl restored_lookup fst snd]. rewrite IH, lookup_restore_item. reflexivity.
Qed.

(** The names of the attributes of a job. *)
Definition job_keys : list string :=
  [ "init"; "add_suffix"; "scene"; "animation"; "_use_lockfile"; "use_multiview";
    "_state"; "frame"; "subframe"; "view"; "seed"; "view_width"; "view_height"; "rows";
    "columns"; "total_views"; "quilt_aspect"; "view_cone"; "lockfile_path"; "outputpath";
    "file_use_temp"; "file_temp_name"; "file_dirname"; "file_basename"; "file_extension";
    "file_quilt_suffix"; "file_force_keep"; "_camera_temp_basename"; "_camera_temp";
    "_camera_active"; "_camera_original"; "_multiview_view_basename"; "_view_matrix";
    "_view_matrix_inv"; "_view_image"; "_view_images_pixels"; "_quilt_image";
    "cancel_sign"; "cancel_message" ].

Lemma is_in_eqb (key k : string) (l : list string) :
  is_in key l = false → is_in k l = true → String.eqb k key = false.
Proof.
  intros Hkey Hk. destruct (String.eqb_spec k key) as [->|_]; [|reflexivity].
  rewrite Hkey in Hk. discriminate.
Qed.

Lemma lookup_key_other (key : string) (keys : list string) (d : list (string * pyval)) :
  is_in key keys = false → forallb (fun item => is_in item.1 keys) d = true →
  lookup_key key d = None.
Proof.
  intros Hkey. induction d as [|[k v] d IH]; [reflexivity|].
  cbn [forallb lookup_key fst]. intros [Hk Hd]%andb_prop.
  rewrite (is_in_eqb key k keys Hkey Hk). apply IH. exact Hd.
Qed.

Lemma restored_lookup_other (key : string) (keys : list string) (d : list (string * pyval)) :
  is_in key keys = false → forallb (fun item => is_in item.1 keys) d = true →
  ∀ current, restored_lookup key d current = current.
Proof.
  intros Hkey. induction d as [|[k v] d IH]; [reflexivity|].
  cbn [forallb restored_lookup fst]. intros [Hk Hd]%andb_prop current.
  rewrite (is_in_eqb key k keys Hkey Hk). apply IH. exact Hd.
Qed.

Lemma RenderJob_dict_keys (j : RenderJob) :
  forallb (fun item => is_in item.1 job_keys) (RenderJob_dict j) = true.
Proof.
  unfold RenderJob_dict. destruct (cancel_sign j); destruct (cancel_message j);
    vm_compute; reflexivity.
Qed.

Lemma job_record_keys (j : RenderJob) :
  forallb (fun item => is_in item.1 job_keys) (job_record j) = true.
Proof.
  unfold job_record. destruct (cancel_sign j); destruct (cancel_message j);
    vm_compute; reflexivity.
Qed.

(** Under each of its names, the job read back holds what
    [restore_fields] says. *)
Lemma restored_job_keys (j j0 : RenderJob) :
  Forall (fun key =>
            restored_lookup key (job_record j) (lookup_key key (RenderJob_dict j0))
            = lookup_key key (RenderJob_dict (restore_fields j j0))) job_keys.
Proof.
  unfold job_keys. destruct j, j0.
  repeat (apply Forall_cons; split;
    [vm_compute;
     repeat match goal with
       | |- context [match ?o with Some _ => _ | None => _ end] =>
           is_var o; destruct o; vm_compute
       end;
     reflexivity|]).
  constructor.
Qed.

(** The attributes of the job of the new session once the record has been
    read are those of [restore_fields]. *)
Lemma restored_job_lookup (j j0 : RenderJob) (key : string) :
  lookup_key key
    (foldl (fun a item => restore_item item.1 item.2 a) (RenderJob_dict j0) (job_record j))
  = lookup_key key (RenderJob_dict (restore_fields j j0)).
Proof.
  rewrite lookup_foldl_restore.
  destruct (is_in key job_keys) eqn:Hkey.
  - pose proof (restored_job_keys j j0) as Hall.
    rewrite Forall_forall in Hall. apply Hall.
    unfold is_in in Hkey. apply existsb_exists in Hkey.
    destruct Hkey as (k & Hin & Heq). apply String.eqb_eq in Heq. subst k.
    apply list_elem_of_In. exact Hin.
  - rewrite (restored_lookup_other key job_keys _ Hkey (job_record_keys j)).
    rewrite (lookup_key_other key job_keys _ Hkey (RenderJob_dict_keys j0)).
    rewrite (lookup_key_other key job_keys _ Hkey (RenderJob_dict_keys (restore_fields j j0))).
    reflexivity.
Qed.

Lemma json_value_of_option_int (o : option Z) : json_value (of_option VInt o) = true.
Proof. destruct o; reflexivity. Qed.

Lemma json_value_of_option_float (o : option R) : json_value (of_option VFloat o) = true.
Proof. destruct o; reflexivity. Qed.

Lemma json_value_of_option_str (o : option string) : json_value (of_option VStr o) = true.
Proof. destruct o; reflexivity. Qed.

(** The record of a job can be written as JSON. *)
Lemma json_value_job_record (j : RenderJob) (blend_file : string) :
  json_value (VDict [("job", VDict (job_record j)); ("blend_file", VStr blend_file)]) = true.
Proof.
  unfold job_record.
  destruct (cancel_sign j); destruct (cancel_message j); cbn;
    rewrite !json_value_of_option_int, !json_value_of_option_float,
      !json_value_of_option_str;
    reflexivity.
Qed.

Lemma lookup_set_init (r : RenderJob) (key : string) :
  lookup_key key (RenderJob_dict (set_init true r))
  = if String.eqb "init" key then Some (VBool true) else lookup_key key (RenderJob_dict r).
Proof.
  unfold RenderJob_dict. cbn -[String.eqb].
  destruct (String.eqb "init" key); reflexivity.
Qed.

(** The items of a dictionary are read one after the other. *)
Lemma from_dict_app (bd : BlendData) (d1 d2 : list (string * pyval)) :
  ∀ object,
    from_dict bd object (VDict (d1 ++ d2))
    = (object' ← from_dict bd object (VDict d1); from_dict bd object' (VDict d2)).
Proof.
  induction d1 as [|[key value] d1 IH]; intros object; [reflexivity|].
  cbn [app]. rewrite !from_dict_cons.
  destruct (from_dict_item bd object key value) as [object'|e]; run; [apply IH|reflexivity].
Qed.

(** An item read into a plain instance leaves an instance, and under
    the other names what was there. *)
Lemma from_dict_item_keeps (bd : BlendData) (attrs : list (string * pyval))
    (key other : string) (value object' : pyval) :
  key ≠ other →
  from_dict_item bd (VObject PlainObject attrs) key value = Ok object' →
  ∃ attrs', object' = VObject PlainObject attrs'
            ∧ lookup_key other attrs' = lookup_key other attrs.
Proof.
  intros Hne.
  assert (Hstore : ∀ v, lookup_key other (store_key key v attrs) = lookup_key other attrs).
  { intros v. rewrite lookup_store_key.
    destruct (String.eqb_spec key other); [contradiction|reflexivity]. }
  assert (Hset : ∀ v o, setattr (VObject PlainObject attrs) key v = Ok o →
            ∃ attrs', o = VObject PlainObject attrs'
                      ∧ lookup_key other attrs' = lookup_key other attrs).
  { intros v o H. cbn [setattr] in H. injection H as <-.
    eexists. split; [reflexivity|apply Hstore]. }
  assert (Htry : ∀ v o, try_setattr (VObject PlainObject attrs) key v = Ok o →
            ∃ attrs', o = VObject PlainObject attrs'
                      ∧ lookup_key other attrs' = lookup_key other attrs).
  { intros v o H. apply (Hset v). exact H. }
  assert (Hlook : ∀ names k o,
            (v ← data_lookup names k value; setattr (VObject PlainObject attrs) key v) = Ok o →
            ∃ attrs', o = VObject PlainObject attrs'
                      ∧ lookup_key other attrs' = lookup_key other attrs).
  { intros names k o. destruct (data_lookup names k value) as [v|e]; run;
      [apply Hset|discriminate]. }
  unfold from_dict_item.
  destruct (String.eqb key "scene" && negb (is_none value))%bool; [apply Hlook|].
  destruct (String.eqb key "quiltImage" && negb (is_none value))%bool; [apply Hlook|].
  destruct (String.eqb key "lookingglassCamera" && negb (is_none value))%bool;
    [apply Hlook|].
  destruct value as [|b|i|f|s|l|d|c a|k n|]; try apply Htry;
    try (intros H; injection H as <-; eexists; split; reflexivity).
  destruct (getattr (VObject PlainObject attrs) key) as [current|e]; run;
    [|discriminate].
  destruct (is_dict current); [apply Htry|].
  destruct (from_dict bd current (VDict d)) as [inner|e]; run; [|discriminate].
  intros H. injection H as <-. cbn [mutated].
  eexists. split; [reflexivity|apply Hstore].
Qed.

Lemma from_dict_keeps (bd : BlendData) (other : string) (d : list (string * pyval)) :
  lookup_key other d = None →
  ∀ attrs object',
    from_dict bd (VObject PlainObject attrs) (VDict d) = Ok object' →
    ∃ attrs', object' = VObject PlainObject attrs'
              ∧ lookup_key other attrs' = lookup_key other attrs.
Proof.
  induction d as [|[key value] d IH]; intros Hd attrs object'.
  - intros H. injection H as <-. eexists. split; reflexivity.
  - cbn [lookup_key] in Hd. rewrite from_dict_cons.
    destruct (String.eqb_spec key other) as [->|Hne]; [discriminate|].
    destruct (from_dict_item bd (VObject PlainObject attrs) key value) as [o|e] eqn:Hitem;
      run; [|discriminate].
    destruct (from_dict_item_keeps bd attrs key other value o Hne Hitem)
      as (attrs1 & -> & H1).
    intros H. destruct (IH Hd attrs1 object' H) as (attrs' & -> & H').
    eexists. split; [reflexivity|]. rewrite H'. exact H1.
Qed.

(** The item [job] of the record, read into a settings object whose job
    is [j0]. *)
Lemma from_dict_item_job (bd : BlendData) (j j0 : RenderJob)
    (attrs : list (string * pyval)) :
  is_in (scene j) (scenes bd) = true →
  lookup_key "job" attrs = Some (VObject PlainObject (RenderJob_dict j0)) →
  from_dict_item bd (VObject PlainObject attrs) "job" (VDict (job_record j))
  = Ok (mutated (VObject PlainObject attrs) "job"
          (VObject PlainObject
             (foldl (fun a item => restore_item item.1 item.2 a)
                (RenderJob_dict j0) (job_record j)))).
Proof.
  intros Hscene Hjob. unfold from_dict_item.
  cbn [String.eqb Ascii.eqb Bool.eqb andb is_none negb getattr]. rewrite Hjob. run.
  cbn [is_dict].
  rewrite (from_dict_simple bd (job_record j) (job_record_simple bd j Hscene)).
  reflexivity.
Qed.

Lemma public_items_app (excluded : list string) (l1 l2 : list (string * pyval)) :
  public_items excluded (l1 ++ l2) = public_items excluded l1 ++ public_items excluded l2.
Proof.
  induction l1 as [|[k v] l1 IH]; cbn; [reflexivity|].
  destruct (negb (startswith_ k) && negb (is_in k excluded))%bool; cbn; rewrite IH;
    reflexivity.
Qed.

Lemma lookup_public_items_none (excluded : list string) (key : string)
    (l : list (string * pyval)) :
  lookup_key key l = None → lookup_key key (public_items excluded l) = None.
Proof.
  induction l as [|[k v] l IH]; cbn; [reflexivity|].
  destruct (String.eqb k key) eqn:E; [discriminate|]. intros H.
  destruct (negb (startswith_ k) && negb (is_in k excluded))%bool; cbn;
    [rewrite E|]; apply IH; exact H.
Qed.

Lemma lookup_key_middle (key : string) (x : pyval) (l1 l2 : list (string * pyval)) :
  lookup_key key l1 = None → lookup_key key (l1 ++ (key, x) :: l2) = Some x.
Proof.
  induction l1 as [|[k v] l1 IH]; cbn.
  - rewrite String.eqb_refl. reflexivity.
  - destruct (String.eqb k key); [discriminate|exact IH].
Qed.

(** Storing under one name leaves the item of another name where it is. *)
Lemma store_key_around (key other : string) (v x : pyval) (l1 l2 : list (string * pyval)) :
  key ≠ other → lookup_key other l1 = None → lookup_key other l2 = None →
  ∃ l1' l2',
    store_key key v (l1 ++ (other, x) :: l2) = l1' ++ (other, x) :: l2'
    ∧ lookup_key other l1' = None ∧ lookup_key other l2' = None.
Proof.
  intros Hne H1 H2.
  assert (Hstored : ∀ l, lookup_key other l = None →
            lookup_key other (store_key key v l) = None).
  { intros l Hl. rewrite lookup_store_key.
    destruct (String.eqb_spec key other); [contradiction|exact Hl]. }
  induction l1 as [|[k old] l1 IH]; cbn [app store_key].
  - destruct (String.eqb_spec other key) as [E|_]; [symmetry in E; contradiction|].
    exists [], (store_key key v l2). split; [reflexivity|]. split; [reflexivity|].
    apply Hstored. exact H2.
  - cbn [lookup_key] in H1. destruct (String.eqb k other) eqn:Ek; [discriminate|].
    destruct (String.eqb k key).
    + exists ((k, v) :: l1), l2. split; [reflexivity|]. split; [|exact H2].
      cbn [lookup_key]. rewrite Ek. exact H1.
    + destruct (IH H1) as (l1' & l2' & E & H1' & H2').
      exists ((k, old) :: l1'), l2'. split; [rewrite E; reflexivity|].
      split; [|exact H2']. cbn [lookup_key]. rewrite Ek. exact H1'.
Qed.

(** C3 (as amended).  The record written for the settings holds the
    record of the job [j] under [job], among the items [first] and [rest]
    made of the other attributes of the settings ([scene],
    [addon_settings] and so on) and of the path of the file.  Read back
    in a session where the scene of [j] exists, into settings whose job is
    [j0], whatever that one holds:

    - the record of the job itself is always read, and leaves a job with
      the attributes of [restore_fields j j0]: an attribute without a
      leading underscore has the value saved for it, unless that value was
      [None], in which case it keeps the value of [j0]; an attribute with
      a leading underscore keeps the value of [j0];
    - resuming reads the items before the job, then the job, then the
      items after it, and sets [init] to [True] whatever was saved; an
      item that cannot be read (a scene, an image or a camera of the
      record that is not there any more) ends the resume with its
      exception, though the scene of the job is there;
    - when the resume returns, the job of the settings has the attributes
      of [restore_fields j j0], with [init] set. *)
Theorem lockfile_restores_job_except_init (bd : BlendData) (j j0 : RenderJob)
    (blend_file : string) (before after before0 after0 : list (string * pyval)) :
  is_in (scene j) (scenes bd) = true →
  lookup_key "job" before = None → lookup_key "job" after = None →
  lookup_key "job" before0 = None →
  ∃ (text : pyval) (first rest restored : list (string * pyval)),
    lockfile_text (settings_instance before j after) blend_file = Ok text
    ∧ text = VDict (store_key "blend_file" (VStr blend_file)
                      (public_items [] before
                       ++ ("job", VDict (job_record j)) :: public_items [] after))
    ∧ text = VDict (first ++ ("job", VDict (job_record j)) :: rest)
    ∧ lookup_key "job" first = None ∧ lookup_key "job" rest = None
    ∧ from_dict bd (VObject PlainObject (RenderJob_dict j0)) (VDict (job_record j))
      = Ok (VObject PlainObject restored)
    ∧ (∀ key, lookup_key key restored
              = lookup_key key (RenderJob_dict (restore_fields j j0)))
    ∧ resume bd (settings_instance before0 j0 after0) text
      = (settings1 ← from_dict bd (settings_instance before0 j0 after0) (VDict first);
         settings2 ← from_dict bd
                       (mutated settings1 "job" (VObject PlainObject restored))
                       (VDict rest);
         Ok (mutated settings2 "job"
               (VObject PlainObject (store_key "init" (VBool true) restored))))
    ∧ ∀ settings',
        resume bd (settings_instance before0 j0 after0) text = Ok settings' →
        ∃ attrs',
          getattr settings' "job" = Ok (VObject PlainObject attrs')
          ∧ ∀ key, lookup_key key attrs'
                   = lookup_key key (RenderJob_dict (set_init true (restore_fields j j0))).
Proof.
  intros Hscene Hbefore Hafter Hbefore0.
  set (restored := foldl (fun a item => restore_item item.1 item.2 a)
                     (RenderJob_dict j0) (job_record j)).
  set (record := public_items [] before
                 ++ ("job", VDict (job_record j)) :: public_items [] after).
  destruct (store_key_around "blend_file" "job" (VStr blend_file) (VDict (job_record j))
              (public_items [] before) (public_items [] after) ltac:(discriminate)
              (lookup_public_items_none [] "job" before Hbefore)
              (lookup_public_items_none [] "job" after Hafter))
    as (first & rest & Hsplit & Hfirst & Hrest).
  fold record in Hsplit.
  assert (Hinit : ∀ key,
            lookup_key key (store_key "init" (VBool true) restored)
            = lookup_key key (RenderJob_dict (set_init true (restore_fields j j0)))).
  { intros key. rewrite lookup_store_key, lookup_set_init.
    destruct (String.eqb "init" key); [reflexivity|]. apply restored_job_lookup. }
  assert (Hresume :
    resume bd (settings_instance before0 j0 after0)
      (VDict (first ++ ("job", VDict (job_record j)) :: rest))
    = (settings1 ← from_dict bd (settings_instance before0 j0 after0) (VDict first);
       settings2 ← from_dict bd
                     (mutated settings1 "job" (VObject PlainObject restored))
                     (VDict rest);
       Ok (mutated settings2 "job"
             (VObject PlainObject (store_key "init" (VBool true) restored))))
    ∧ ∀ settings',
        resume bd (settings_instance before0 j0 after0)
          (VDict (first ++ ("job", VDict (job_record j)) :: rest)) = Ok settings' →
        getattr settings' "job"
        = Ok (VObject PlainObject (store_key "init" (VBool true) restored))).
  { unfold resume, read_from_lockfile, json_load.
    rewrite from_dict_app.
    destruct (from_dict bd (settings_instance before0 j0 after0) (VDict first))
      as [settings1|e] eqn:H1; run; [|split; [reflexivity|discriminate]].
    destruct (from_dict_keeps bd "job" first Hfirst _ settings1 H1)
      as (attrs1 & -> & Hjob1).
    rewrite (lookup_key_middle "job" _ before0 after0 Hbefore0) in Hjob1.
    rewrite from_dict_cons, (from_dict_item_job bd j j0 attrs1 Hscene Hjob1). run.
    fold restored.
    destruct (from_dict bd (mutated (VObject PlainObject attrs1) "job"
                              (VObject PlainObject restored)) (VDict rest))
      as [settings2|e] eqn:H2; run; [|split; [reflexivity|discriminate]].
    cbn [mutated] in H2.
    destruct (from_dict_keeps bd "job" rest Hrest _ settings2 H2)
      as (attrs2 & -> & Hjob2).
    rewrite lookup_store_key, String.eqb_refl in Hjob2.
    cbn [getattr]. rewrite Hjob2. run. cbn [setattr mutated]. split; [reflexivity|].
    intros settings' H. injection H as <-. cbn [getattr].
    rewrite lookup_store_key, String.eqb_refl. reflexivity. }
  exists (VDict (store_key "blend_file" (VStr blend_file) record)), first, rest, restored.
  split; [|split; [reflexivity|split; [rewrite Hsplit; reflexivity|
    split; [exact Hfirst|split; [exact Hrest|split; [|split; [|split]]]]]]].
  - unfold lockfile_text, settings_instance. rewrite to_dict_object.
    cbn [excluded_keys]. rewrite public_items_app.
    change (public_items [] (("job", VObject PlainObject (RenderJob_dict j)) :: after))
      with (("job", to_dict (VObject PlainObject (RenderJob_dict j)))
            :: public_items [] after).
    rewrite to_dict_job. fold record.
    unfold json_dumps. rewrite json_value_store_key; [reflexivity|reflexivity|].
    unfold record. rewrite <- to_dict_job.
    change (("job", to_dict (VObject PlainObject (RenderJob_dict j)))
            :: public_items [] after)
      with (public_items [] (("job", VObject PlainObject (RenderJob_dict j)) :: after)).
    rewrite <- public_items_app.
    rewrite <- (to_dict_object PlainObject). apply to_dict_serializable.
  - apply (from_dict_simple bd (job_record j) (job_record_simple bd j Hscene)).
  - intros key. apply restored_job_lookup.
  - rewrite Hsplit. exact (proj1 Hresume).
  - intros settings' H. rewrite Hsplit in H.
    exists (store_key "init" (VBool true) restored).
    split; [exact (proj2 Hresume settings' H)|exact Hinit].
Qed.


(** * Further properties *)

(** ** The render handlers *)

(** X1.  [cancel_render] puts the job in [CANCEL_RENDER] and raises the
    cancel flag of the scene; from then on [init_render], [pre_render],
    [post_render] and [completed_render] return at once and change
    nothing: no state, no buffer, no file.  The same holds whenever the
    job is in [CANCEL_RENDER] or the cancel flag is up. *)
Theorem cancelled_job_ignores_handlers :
  (∀ w : World,
     _state (job w) = CANCEL_RENDER ∨ render_cancel (host w) = true →
     init_render w = Done tt w ∧ pre_render w = Done tt w
     ∧ post_render w = Done tt w ∧ completed_render w = Done tt w)
  ∧ (∀ w : World, ∃ w',
       cancel_render w = Done tt w'
       ∧ _state (job w') = CANCEL_RENDER ∧ render_cancel (host w') = true
       ∧ files (host w') = files (host w)
       ∧ _view_images_pixels (job w') = _view_images_pixels (job w)
       ∧ init_render w' = Done tt w' ∧ pre_render w' = Done tt w'
       ∧ post_render w' = Done tt w' ∧ completed_render w' = Done tt w').
Proof using Type.
  assert (Hoff : ∀ w : World,
            _state (job w) = CANCEL_RENDER ∨ render_cancel (host w) = true →
            handler_enabled w = false).
  { intros w [Hs|Hc]; unfold handler_enabled.
    - rewrite Hs. reflexivity.
    - rewrite Hc. apply andb_false_r. }
  assert (Hnoop : ∀ w : World, handler_enabled w = false →
            init_render w = Done tt w ∧ pre_render w = Done tt w
            ∧ post_render w = Done tt w ∧ completed_render w = Done tt w).
  { intros w Hw. unfold init_render, pre_render, post_render, completed_render.
    run. rewrite Hw. repeat split. }
  split.
  - intros w Hw. apply Hnoop, Hoff, Hw.
  - intros w. eexists. split; [reflexivity|]. cbn.
    split; [reflexivity|]. split; [reflexivity|]. split; [reflexivity|].
    split; [reflexivity|]. apply Hnoop, Hoff. left. reflexivity.
Qed.

(** X2.  [post_render] saves the render result under the path of the
    current view and appends what it reads back from that file to the
    buffers of the job: the list grows by exactly one buffer, the render
    result; the file of the view holds it; every other file is as it was;
    the state is [POST_RENDER]. *)
Theorem post_render_saves_and_appends (op : Operator) (rs : RenderSettings)
    (j : RenderJob) (b : Blender) (dir base ext : string) (total : Z) :
  naming_set j dir base ext total →
  _state j ≠ CANCEL_RENDER → render_cancel b = false →
  ∃ (path : string) (w' : World),
    view_filepath j b None None = Ok path
    ∧ post_render (mkWorld op rs j b) = Done tt w'
    ∧ _state (job w') = POST_RENDER
    ∧ _view_images_pixels (job w') = _view_images_pixels j ++ [render_result b]
    ∧ files (host w') !! path = Some (render_result b)
    ∧ (∀ p, p ≠ path → files (host w') !! p = files b !! p)
    ∧ objects (host w') = objects b
    ∧ view (job w') = view j ∧ frame (job w') = frame j.
Proof.
  intros Hn Hs Hc.
  pose proof (view_filepath_stem j b None None dir base ext total Hn) as Hpath.
  eexists. eexists. split; [exact Hpath|].
  unfold post_render. run. unfold handler_enabled. cbn [job host].
  rewrite Hc, bool_decide_true by exact Hs. cbn [negb andb]. run.
  change (view_filepath (set__state POST_RENDER j) b None None)
    with (view_filepath j b None None).
  rewrite Hpath. run. unfold read_file. cbn [files set_files host].
  rewrite lookup_insert_eq.
  split; [reflexivity|]. cbn.
  split; [reflexivity|]. split; [reflexivity|].
  split; [apply lookup_insert_eq|].
  split; [intros p Hp; apply lookup_insert_ne; congruence|].
  repeat split.
Qed.

(** ** Errors of the camera set-up *)

Lemma get_view_matrices_no_camera (op : Operator) (rs : RenderSettings) (j : RenderJob)
    (b : Blender) :
  _camera_active j = None →
  get_view_matrices (mkWorld op rs j b) = Raised AttributeError (mkWorld op rs j b).
Proof. intros H. unfold get_view_matrices. run. rewrite H. reflexivity. Qed.

(** X3.  Without a camera selected for the Looking Glass, [setup_camera]
    raises [AttributeError] in both modes, on the first read of
    [self._camera_active.matrix_world]: no object is created, the camera
    of the scene and the render views stay as they are. *)
Theorem setup_camera_without_camera (op : Operator) (rs : RenderSettings)
    (j : RenderJob) (b : Blender) :
  lookingglassCamera b = None →
  init j = true ∨ use_multiview j = true →
  ∃ j', setup_camera (mkWorld op rs j b) = Raised AttributeError (mkWorld op rs j' b)
        ∧ _camera_active j' = None ∧ _camera_temp j' = _camera_temp j
        ∧ _view_matrix j' = _view_matrix j.
Proof.
  intros Hlg Hmode. unfold setup_camera. run.
  destruct (use_multiview j) eqn:Hmv; cbn [negb]; run.
  - rewrite Hlg. rewrite get_view_matrices_no_camera by reflexivity.
    eexists. split; [reflexivity|]. repeat split.
  - destruct Hmode as [Hinit|Hm]; [|discriminate]. rewrite Hinit. run. rewrite Hlg.
    rewrite get_view_matrices_no_camera by reflexivity.
    eexists. split; [reflexivity|]. repeat split.
Qed.

Lemma correct_scaling_zero (op : Operator) (rs : RenderSettings) (j : RenderJob) (b : Blender)
    (c : Vector → R) (axis : Vector) (act : nat) (cam : Object) (m : Matrix) :
  _camera_active j = Some act → objects b !! act = Some (Some cam) →
  _view_matrix j = Some m → c (scale cam) = 0%R →
  correct_scaling c axis (mkWorld op rs j b) = Raised ZeroDivisionError (mkWorld op rs j b).
Proof.
  intros Hact Hcam Hm Hc. unfold correct_scaling. run. rewrite Hm, Hact.
  rewrite (get_object_ok op rs j b act cam Hcam).
  rewrite Hc, float_truediv_zero. reflexivity.
Qed.

Lemma get_view_matrices_zero_scale (op : Operator) (rs : RenderSettings) (j : RenderJob)
    (b : Blender) (act : nat) (cam : Object) :
  _camera_active j = Some act → objects b !! act = Some (Some cam) →
  mathutils.x (scale cam) = 0%R ∨ mathutils.y (scale cam) = 0%R
  ∨ mathutils.z (scale cam) = 0%R →
  ∃ j', get_view_matrices (mkWorld op rs j b) = Raised ZeroDivisionError (mkWorld op rs j' b)
        ∧ _camera_temp j' = _camera_temp j ∧ _view_matrix_inv j' = _view_matrix_inv j.
Proof.
  intros Hact Hcam Hzero. unfold get_view_matrices. run. rewrite Hact.
  rewrite (get_object_ok op rs j b act cam Hcam).
  destruct (Req_dec_T (mathutils.x (scale cam)) 0) as [Hx|Hx].
  { rewrite (correct_scaling_zero op rs _ b mathutils.x _ act cam (matrix_world cam))
      by (reflexivity || assumption).
    eexists. split; [reflexivity|]. split; reflexivity. }
  rewrite (correct_scaling_ok op rs _ b mathutils.x _ act cam (matrix_world cam))
    by (reflexivity || assumption).
  destruct (Req_dec_T (mathutils.y (scale cam)) 0) as [Hy|Hy].
  { rewrite (correct_scaling_zero op rs _ b mathutils.y _ act cam _)
      by (reflexivity || assumption).
    eexists. split; [reflexivity|]. split; reflexivity. }
  rewrite (correct_scaling_ok op rs _ b mathutils.y _ act cam _)
    by (reflexivity || assumption).
  destruct Hzero as [Hz|[Hz|Hz]]; [contradiction|contradiction|].
  rewrite (correct_scaling_zero op rs _ b mathutils.z _ act cam _)
    by (reflexivity || assumption).
  eexists. split; [reflexivity|]. split; reflexivity.
Qed.

(** X4.  A Looking Glass camera scaled to zero along one of its axes makes
    [setup_camera] raise [ZeroDivisionError] (the scaling is corrected by
    [1 / scale]), in both modes, before any temporary camera is made: the
    objects, the camera of the scene and the render views are untouched and
    no inverse view matrix is stored. *)
Theorem setup_camera_zero_scale (op : Operator) (rs : RenderSettings)
    (j : RenderJob) (b : Blender) (lg : nat) (cam_lg : Object) :
  lookingglassCamera b = Some lg → objects b !! lg = Some (Some cam_lg) →
  mathutils.x (scale cam_lg) = 0%R ∨ mathutils.y (scale cam_lg) = 0%R
  ∨ mathutils.z (scale cam_lg) = 0%R →
  init j = true ∨ use_multiview j = true →
  ∃ j', setup_camera (mkWorld op rs j b) = Raised ZeroDivisionError (mkWorld op rs j' b)
        ∧ _camera_temp j' = _camera_temp j ∧ _view_matrix_inv j' = _view_matrix_inv j.
Proof.
  intros Hlg Hcam Hzero Hmode. unfold setup_camera. run.
  destruct (use_multiview j) eqn:Hmv; cbn [negb]; run.
  - rewrite Hlg.
    destruct (get_view_matrices_zero_scale op rs
                (set__camera_original (camera b) (set__camera_active (Some lg) j))
                b lg cam_lg eq_refl Hcam Hzero) as (j' & -> & Ht & Hi).
    exists j'. split; [reflexivity|]. split; [exact Ht|exact Hi].
  - destruct Hmode as [Hinit|Hm]; [|discriminate]. rewrite Hinit. run. rewrite Hlg.
    camera_fields.
    destruct (get_view_matrices_zero_scale op rs
                (set__camera_original (Some lg) (set__camera_active (Some lg) j))
                b lg cam_lg eq_refl Hcam Hzero) as (j' & -> & Ht & Hi).
    exists j'. split; [reflexivity|]. split; [exact Ht|exact Hi].
Qed.

(** X5.  With a single view ([total_views = 1]) the first call of
    [setup_camera] in single-camera mode raises [ZeroDivisionError] only
    after the temporary camera has been made: the exception leaves the new
    object in [bpy.data.objects], in [self._camera_temp] and as the camera of
    the scene, at the origin and with the shift of the camera it copies. *)
Theorem setup_camera_single_view_leaves_camera (op : Operator) (rs : RenderSettings)
    (j : RenderJob) (b : Blender) (lg : nat) (cam_lg : Object) (cone : R) :
  use_multiview j = false → init j = true →
  lookingglassCamera b = Some lg → objects b !! lg = Some (Some cam_lg) →
  mathutils.x (scale cam_lg) ≠ 0%R → mathutils.y (scale cam_lg) ≠ 0%R →
  mathutils.z (scale cam_lg) ≠ 0%R →
  total_views j = Some 1 → view_cone j = Some cone →
  ∃ w', setup_camera (mkWorld op rs j b) = Raised ZeroDivisionError w'
    ∧ camera (host w') = Some (length (objects b))
    ∧ _camera_temp (job w') = _camera_temp j ++ [length (objects b)]
    ∧ objects (host w')
      = objects b ++ [Some (set_matrix_world (scaled_matrix cam_lg)
                              (new_object (_camera_temp_basename j) (data cam_lg)))].
Proof.
  intros Hmode Hinit Hlg Hcam Hx Hy Hz Ht Hcone.
  unfold setup_camera. run. rewrite Hmode, Hinit. cbn [negb]. run. rewrite Hlg.
  rewrite (get_view_matrices_ok op rs _ b lg cam_lg) by (reflexivity || assumption).
  camera_fields.
  rewrite (get_object_ok op rs _ b lg cam_lg Hcam).
  rewrite objects_new_ok. camera_fields.
  rewrite last_camera_snoc. camera_fields.
  set (new := new_object (_camera_temp_basename j) (data cam_lg)).
  rewrite (update_object_ok op rs _ _ _ _ new) by apply lookup_snoc_length.
  camera_fields. rewrite insert_snoc_length.
  unfold apply_position_and_shift. run. camera_fields.
  rewrite (get_object_ok op rs _ _ (length (objects b))
             (set_matrix_world (scaled_matrix cam_lg) new))
    by (camera_fields; apply lookup_snoc_length).
  rewrite Ht, Hcone.
  destruct (offset_values (view j) 1 cone (focalPlane b)) as [_ E].
  camera_fields. rewrite E. cbn [Z.eqb]. run.
  eexists. split; [reflexivity|]. camera_fields. repeat split.
Qed.

(** ** The quilt assembly and surplus buffers *)

Lemma quilt_array_prefix (j : RenderJob) (surplus : list ndarray) (h w C R : nat) :
  (R * C ≤ length (_view_images_pixels j))%nat →
  quilt_array (set__view_images_pixels (_view_images_pixels j ++ surplus) j) h w C R
  = quilt_array j h w C R.
Proof.
  intros Hlen. unfold quilt_array. f_equal.
  apply map_ext_in. intros r Hr. apply in_seq in Hr.
  unfold row_strip. f_equal. unfold row_tiles.
  apply map_ext_in. intros c Hc. apply in_seq in Hc.
  unfold tile_at. cbn [_view_images_pixels set__view_images_pixels].
  rewrite app_nth1 by nia. reflexivity.
Qed.

(** X6.  The assembly reads the buffers at the positions
    [0 .. rows * columns - 1] and nothing else: buffers that follow them
    in the list change neither the success nor the result.  (So a list
    that still holds the buffers of an earlier frame in front gives the
    quilt of that frame.) *)
Theorem assembly_ignores_surplus_buffers (j : RenderJob) (b : Blender)
    (R C h w : nat) (surplus : list ndarray) :
  rows j = Some (Z.of_nat R) → columns j = Some (Z.of_nat C) →
  resolution_y b = Z.of_nat h → resolution_x b = Z.of_nat w →
  (0 < R)%nat → (0 < C)%nat →
  length (_view_images_pixels j) = (R * C)%nat →
  Forall (fun buf => length buf = (w * h * 4)%nat) (_view_images_pixels j) →
  ∃ quiltPixels : ndarray,
    assemble_quilt_pixels j b = Ok quiltPixels
    ∧ assemble_quilt_pixels
        (set__view_images_pixels (_view_images_pixels j ++ surplus) j) b
      = Ok quiltPixels.
Proof.
  intros Hrows Hcols Hy Hx HR HC Hlen Hsizes.
  pose proof (view_buffers_complete j R C h w Hlen Hsizes) as Hgood.
  exists (concat (concat (quilt_array j h w C R))). split.
  - apply (assemble_quilt_pixels_ok j b R C h w); assumption.
  - rewrite <- (quilt_array_prefix j surplus h w C R) by lia.
    apply (assemble_quilt_pixels_ok _ b R C h w); try assumption.
    intros r c Hr Hc. destruct (Hgood r c Hr Hc) as (buf & Hb & Hl).
    exists buf. split; [|exact Hl].
    cbn [_view_images_pixels set__view_images_pixels].
    apply lookup_app_l_Some. exact Hb.
Qed.

(** ** Deleting twice *)

(** The files [delete_files] leaves. *)
Definition files_after_delete (j : RenderJob) (b : Blender) (frame_arg : option Z)
    (total : Z) (ext out : string) (q : string) (m : gmap string ndarray)
  : gmap string ndarray :=
  let m1 := removed_views (view_path j b frame_arg total ext) 0 (Z.to_nat total) m in
  if (String.eqb (os_path_basename out) "" && negb (animation j))%bool
  then delete q m1 else m1.

Lemma delete_files_run (op : Operator) (rs : RenderSettings) (j : RenderJob) (b : Blender)
    (frame_arg : option Z) (dir base ext out q : string) (total : Z) :
  naming_set j dir base ext total → outputpath j = Some out →
  quilt_filepath j b frame_arg = Ok q →
  delete_files frame_arg (mkWorld op rs j b)
  = Done tt (mkWorld op rs (set__view_images_pixels [] j)
               (set_files (files_after_delete j b frame_arg total ext out q (files b)) b)).
Proof using Type.
  intros Hn Hout Hq. pose proof Hn as (Hd & Hb & He & Ht).
  assert (Hb0 : b = set_files (files b) b) by (destruct b; reflexivity).
  unfold delete_files, for_range, files_after_delete. run. rewrite Ht.
  pose proof (delete_views_loop op rs j b frame_arg dir base ext total Hn
                (Z.to_nat total) 0 (files b)) as Hloop.
  rewrite <- Hb0 in Hloop. revert Hloop. run. intros ->.
  run. rewrite Hout.
  destruct (String.eqb (os_path_basename out) "" && negb (animation j))%bool; run.
  - change (quilt_filepath j (set_files ?m b) frame_arg)
      with (quilt_filepath j b frame_arg).
    rewrite Hq. rewrite remove_if_file_spec. reflexivity.
  - reflexivity.
Qed.

Lemma removed_views_idempotent (path_of : Z → string) (rounds : nat) (start : Z)
    (m : gmap string ndarray) :
  removed_views path_of start rounds (removed_views path_of start rounds m)
  = removed_views path_of start rounds m.
Proof.
  apply map_eq. intros p.
  set (inner := removed_views path_of start rounds m).
  destruct (removed_views_lookup path_of rounds start inner p) as [E|E]; [|exact E].
  rewrite E.
  destruct (removed_views_lookup path_of rounds start m p) as [E'|E']; fold inner in E';
    [symmetry; exact E'|].
  destruct (m !! p) as [x|] eqn:Em; [|symmetry; exact E'].
  destruct (removed_views_changed path_of rounds start inner p) as (v & Hv & <-).
  - rewrite E, E'. discriminate.
  - symmetry. apply removed_views_gone. exact Hv.
Qed.

(** X7.  Deleting the files of a frame twice is deleting them once: the
    second [delete_files] ends normally and finds nothing to remove, so
    the files and the job are as the first call left them. *)
Theorem delete_files_idempotent (op : Operator) (rs : RenderSettings) (j : RenderJob)
    (b : Blender) (frame_arg : option Z) (dir base ext out : string) (total : Z) :
  naming_set j dir base ext total → outputpath j = Some out →
  ∃ w1 : World,
    delete_files frame_arg (mkWorld op rs j b) = Done tt w1
    ∧ delete_files frame_arg w1 = Done tt w1
    ∧ _view_images_pixels (job w1) = [].
Proof using Type.
  intros Hn Hout.
  pose proof (quilt_filepath_name j b frame_arg dir base ext total Hn) as Hq.
  set (q := os_path_join dir (name_stem j b frame_arg +:+ ext)) in *.
  eexists. split; [apply (delete_files_run op rs j b frame_arg dir base ext out q total);
                   assumption|].
  split; [|reflexivity].
  set (j1 := set__view_images_pixels [] j).
  set (m1 := files_after_delete j b frame_arg total ext out q (files b)).
  assert (Hn1 : naming_set j1 dir base ext total) by exact Hn.
  rewrite (delete_files_run op rs j1 (set_files m1 b) frame_arg dir base ext out q total
             Hn1 Hout) by exact Hq.
  f_equal. f_equal.
  assert (Em : files_after_delete j1 (set_files m1 b) frame_arg total ext out q
                 (files (set_files m1 b)) = m1).
  { unfold m1, files_after_delete. cbn [files set_files].
    change (view_path j1 (set_files ?m b) frame_arg total ext)
      with (view_path j b frame_arg total ext).
    change (animation j1) with (animation j).
    set (vp := view_path j b frame_arg total ext).
    destruct (String.eqb (os_path_basename out) "" && negb (animation j))%bool.
    - apply map_eq. intros p. destruct (decide (q = p)) as [<-|Hqp].
      + rewrite !lookup_delete_eq. reflexivity.
      + rewrite !lookup_delete_ne by exact Hqp.
        destruct (removed_views_lookup vp (Z.to_nat total) 0
                    (delete q (removed_views vp 0 (Z.to_nat total) (files b))) p)
          as [E|E].
        * rewrite E.
          destruct (removed_views_lookup vp (Z.to_nat total) 0 (files b) p) as [E'|E'];
            [symmetry; exact E'|].
          destruct (files b !! p) as [x|] eqn:Em; [|symmetry; exact E'].
          destruct (removed_views_changed vp (Z.to_nat total) 0
                      (delete q (removed_views vp 0 (Z.to_nat total) (files b))) p)
            as (v & Hv & <-).
          -- rewrite E, lookup_delete_ne by exact Hqp. rewrite E'. discriminate.
          -- symmetry. apply removed_views_gone. exact Hv.
        * rewrite E. apply lookup_delete_ne. exact Hqp.
    - apply removed_views_idempotent. }
  rewrite Em. destruct b; reflexivity.
Qed.

(** ** What reaches the lockfile *)

(** X8.  Whatever the attributes of the settings hold, [to_dict] gives a
    value [json.dumps] accepts: live handles and [None] become [null],
    data blocks their names, instances dictionaries.  So the text of the
    lockfile can always be written for a settings object, and it is a
    dictionary that holds the path of the open file under [blend_file]. *)
Theorem lockfile_text_always_written (c : pyclass) (attrs : list (string * pyval))
    (blend_file : string) :
  (∀ v, json_value (to_dict v) = true)
  ∧ ∃ d, lockfile_text (VObject c attrs) blend_file = Ok (VDict d)
         ∧ lookup_key "blend_file" d = Some (VStr blend_file).
Proof.
  split; [exact to_dict_serializable|].
  unfold lockfile_text. rewrite to_dict_object.
  exists (store_key "blend_file" (VStr blend_file) (public_items (excluded_keys c) attrs)).
  split.
  - unfold json_dumps. rewrite json_value_store_key; [reflexivity|reflexivity|].
    rewrite <- to_dict_object. apply to_dict_serializable.
  - rewrite lookup_store_key. rewrite String.eqb_refl. reflexivity.
Qed.

(** X9.  No attribute whose name starts with an underscore is written:
    the dictionary [to_dict] makes of an instance has no such key, and
    each key it has is an attribute of the instance that is not excluded
    for its class, with the converted value of its first occurrence. *)
Theorem to_dict_drops_private_attributes (c : pyclass) (attrs : list (string * pyval))
    (key : string) :
  ∃ d, to_dict (VObject c attrs) = VDict d
       ∧ (startswith_ key = true → lookup_key key d = None)
       ∧ (is_in key (excluded_keys c) = true → lookup_key key d = None)
       ∧ (startswith_ key = false → is_in key (excluded_keys c) = false →
          lookup_key key d = to_dict <$> lookup_key key attrs).
Proof.
  exists (public_items (excluded_keys c) attrs). split; [apply to_dict_object|].
  assert (Hskip : ∀ k, String.eqb k key = true →
            (negb (startswith_ k) && negb (is_in k (excluded_keys c)))%bool
            = (negb (startswith_ key) && negb (is_in key (excluded_keys c)))%bool).
  { intros k Hk. apply String.eqb_eq in Hk. subst k. reflexivity. }
  split; [|split].
  - intros Hp. induction attrs as [|[k v] attrs IH]; cbn; [reflexivity|].
    destruct (negb (startswith_ k) && negb (is_in k (excluded_keys c)))%bool eqn:Hk;
      [|exact IH].
    cbn. destruct (String.eqb k key) eqn:E; [|exact IH].
    rewrite (Hskip k E), Hp in Hk. discriminate.
  - intros Hx. induction attrs as [|[k v] attrs IH]; cbn; [reflexivity|].
    destruct (negb (startswith_ k) && negb (is_in k (excluded_keys c)))%bool eqn:Hk;
      [|exact IH].
    cbn. destruct (String.eqb k key) eqn:E; [|exact IH].
    rewrite (Hskip k E), Hx, andb_false_r in Hk. discriminate.
  - intros Hp Hx. induction attrs as [|[k v] attrs IH]; cbn; [reflexivity|].
    destruct (String.eqb k key) eqn:E.
    + rewrite (Hskip k E), Hp, Hx. cbn. rewrite E. reflexivity.
    + destruct (negb (startswith_ k) && negb (is_in k (excluded_keys c)))%bool;
        [cbn; rewrite E|]; exact IH.
Qed.

(** X10.  When the scene a record names is not in [bpy.data.scenes] any
    more, reading the record raises [KeyError] (at
    [bpy.data.scenes[value]]): the job is not resumed. *)
Theorem resume_without_scene_raises (bd : BlendData) (j j0 : RenderJob)
    (blend_file : string) (others0 : list (string * pyval)) :
  is_in (scene j) (scenes bd) = false →
  ∃ text,
    lockfile_text (settings_object j []) blend_file = Ok text
    ∧ read_from_lockfile bd (settings_object j0 others0) text = Raise KeyError
    ∧ resume bd (settings_object j0 others0) text = Raise KeyError.
Proof.
  intros Hscene.
  exists (VDict [("job", VDict (job_record j)); ("blend_file", VStr blend_file)]).
  assert (Hread : read_from_lockfile bd (settings_object j0 others0)
                    (VDict [("job", VDict (job_record j)); ("blend_file", VStr blend_file)])
                  = Raise KeyError).
  { unfold read_from_lockfile, json_load, settings_object.
    rewrite from_dict_cons.
    unfold from_dict_item. cbn [String.eqb Ascii.eqb Bool.eqb andb is_none negb].
    cbn [getattr lookup_key String.eqb Ascii.eqb Bool.eqb]. run. cbn [is_dict].
    unfold job_record. cbn [app].
    rewrite from_dict_cons.
    unfold from_dict_item at 1. cbn [String.eqb Ascii.eqb Bool.eqb andb is_none negb].
    cbn [try_setattr setattr]. run.
    rewrite from_dict_cons.
    unfold from_dict_item at 1. cbn [String.eqb Ascii.eqb Bool.eqb andb is_none negb].
    cbn [try_setattr setattr]. run.
    rewrite from_dict_cons.
    unfold from_dict_item at 1. cbn [String.eqb Ascii.eqb Bool.eqb andb is_none negb].
    unfold data_lookup. rewrite Hscene. reflexivity. }
  split; [|split; [exact Hread|]].
  - unfold lockfile_text, settings_object.
    change (to_dict (VObject PlainObject [("job", VObject PlainObject (RenderJob_dict j))]))
      with (VDict [("job", to_dict (VObject PlainObject (RenderJob_dict j)))]).
    rewrite to_dict_job. cbn [store_key String.eqb Ascii.eqb Bool.eqb].
    unfold json_dumps. rewrite json_value_job_record. reflexivity.
  - unfold resume. rewrite Hread. reflexivity.
Qed.

(** ** Resuming: the views found on disk *)

(** The buffers of the views [i], [i + 1], ... ([rounds] of them) as they
    are on disk. *)
Definition view_files (j : RenderJob) (b : Blender) (total : Z) (ext : string)
    (i : Z) (rounds : nat) : list ndarray :=
  map (fun k => default [] (files b !! view_path j b None total ext (i + Z.of_nat k)))
    (seq 0 rounds).

Lemma view_files_S (j : RenderJob) (b : Blender) (total : Z) (ext : string)
    (i : Z) (rounds : nat) :
  view_files j b total ext i (S rounds)
  = default [] (files b !! view_path j b None total ext i)
    :: view_files j b total ext (i + 1) rounds.
Proof.
  unfold view_files. cbn [seq map]. rewrite Z.add_0_r. f_equal.
  rewrite <- seq_shift, map_map. apply map_ext. intros k.
  replace (i + 1 + Z.of_nat k) with (i + Z.of_nat (S k)) by lia. reflexivity.
Qed.

Lemma view_files_length (j : RenderJob) (b : Blender) (total : Z) (ext : string)
    (i : Z) (rounds : nat) :
  length (view_files j b total ext i rounds) = rounds.
Proof. unfold view_files. rewrite length_map, length_seq. reflexivity. Qed.

(** The loop of [init_render] over views that are all on disk. *)
Lemma load_view_files_present (op : Operator) (rs : RenderSettings) (j : RenderJob)
    (b : Blender) (dir base ext : string) (total C R : Z) :
  naming_set j dir base ext total → columns j = Some C → rows j = Some R →
  ∀ (rounds : nat) (i : Z) (pixels : list ndarray) (img : option Image),
    (∀ v, i ≤ v < i + Z.of_nat rounds →
          is_Some (files b !! view_path j b None total ext v)) →
    ∃ img',
      load_view_files i rounds
        (mkWorld op rs (set__view_images_pixels pixels (set__view_image img j)) b)
      = Done true
          (mkWorld op rs
             (set__view_images_pixels (pixels ++ view_files j b total ext i rounds)
                (set__view_image img' j)) b).
Proof.
  intros Hn Hc Hr. pose proof Hn as (_ & _ & _ & Ht).
  induction rounds as [|k IH]; intros i pixels img Hfiles.
  - exists img. cbn [load_view_files]. unfold view_files. cbn [seq map].
    rewrite app_nil_r. reflexivity.
  - cbn [load_view_files]. run.
    rewrite (view_filepath_stem _ b (Some i) None dir base ext total
               (Hn : naming_set (set__view_images_pixels pixels (set__view_image img j))
                       dir base ext total)).
    cbn [default from_option]. unfold Datatypes.id. run.
    change (path_stem (set__view_images_pixels pixels (set__view_image img j)) b None)
      with (path_stem j b None).
    fold (view_path j b None total ext i).
    destruct (Hfiles i ltac:(lia)) as [buf Hbuf]. rewrite Hbuf. run.
    cbn [total_views set__view_images_pixels set__view_image _view_images_pixels view
         columns rows].
    rewrite Ht. run.
    rewrite view_files_S, Hbuf. cbn [default from_option]. unfold Datatypes.id.
    replace (pixels ++ buf :: view_files j b total ext (i + 1) k)
      with ((pixels ++ [buf]) ++ view_files j b total ext (i + 1) k)
      by (rewrite <- app_assoc; reflexivity).
    destruct (view j =? total - 1); run.
    + rewrite Hc, Hr. run.
      apply (IH (i + 1) (pixels ++ [buf]) _). intros v Hv. apply Hfiles. lia.
    + apply (IH (i + 1) (pixels ++ [buf]) _). intros v Hv. apply Hfiles. lia.
Qed.

(** The loop when the views before [i + present] are on disk and that one
    is not. *)
Lemma load_view_files_missing (op : Operator) (rs : RenderSettings) (j : RenderJob)
    (b : Blender) (dir base ext : string) (total C R : Z) (later : nat) :
  naming_set j dir base ext total → columns j = Some C → rows j = Some R →
  ∀ (present : nat) (i : Z) (pixels : list ndarray) (img : option Image),
    (∀ v, i ≤ v < i + Z.of_nat present →
          is_Some (files b !! view_path j b None total ext v)) →
    files b !! view_path j b None total ext (i + Z.of_nat present) = None →
    ∃ img',
      load_view_files i (present + S later)
        (mkWorld op rs (set__view_images_pixels pixels (set__view_image img j)) b)
      = Done false
          (mkWorld op rs
             (set_cancel_message (Some missing_view_message)
                (set_cancel_sign (Some "ERROR")
                   (set_file_force_keep true
                      (set__state CANCEL_RENDER
                         (set__view_images_pixels
                            (pixels ++ view_files j b total ext i present)
                            (set__view_image img' j))))))
             b).
Proof.
  intros Hn Hc Hr. pose proof Hn as (_ & _ & _ & Ht).
  induction present as [|k IH]; intros i pixels img Hfiles Hmissing.
  - exists img. cbn [Nat.add load_view_files]. run.
    rewrite (view_filepath_stem _ b (Some i) None dir base ext total
               (Hn : naming_set (set__view_images_pixels pixels (set__view_image img j))
                       dir base ext total)).
    cbn [default from_option]. unfold Datatypes.id. run.
    change (path_stem (set__view_images_pixels pixels (set__view_image img j)) b None)
      with (path_stem j b None).
    fold (view_path j b None total ext i).
    rewrite Z.add_0_r in Hmissing. rewrite Hmissing. run.
    unfold view_files. cbn [seq map]. rewrite app_nil_r. reflexivity.
  - cbn [Nat.add load_view_files]. run.
    rewrite (view_filepath_stem _ b (Some i) None dir base ext total
               (Hn : naming_set (set__view_images_pixels pixels (set__view_image img j))
                       dir base ext total)).
    cbn [default from_option]. unfold Datatypes.id. run.
    change (path_stem (set__view_images_pixels pixels (set__view_image img j)) b None)
      with (path_stem j b None).
    fold (view_path j b None total ext i).
    destruct (Hfiles i ltac:(lia)) as [buf Hbuf]. rewrite Hbuf. run.
    cbn [total_views set__view_images_pixels set__view_image _view_images_pixels view
         columns rows].
    rewrite Ht. run.
    rewrite view_files_S, Hbuf. cbn [default from_option]. unfold Datatypes.id.
    replace (pixels ++ buf :: view_files j b total ext (i + 1) k)
      with ((pixels ++ [buf]) ++ view_files j b total ext (i + 1) k)
      by (rewrite <- app_assoc; reflexivity).
    assert (Hnext : files b !! view_path j b None total ext (i + 1 + Z.of_nat k) = None).
    { replace (i + 1 + Z.of_nat k) with (i + Z.of_nat (S k)) by lia. exact Hmissing. }
    destruct (view j =? total - 1); run.
    + rewrite Hc, Hr. run.
      apply (IH (i + 1) (pixels ++ [buf]) _); [|exact Hnext].
      intros v Hv. apply Hfiles. lia.
    + apply (IH (i + 1) (pixels ++ [buf]) _); [|exact Hnext].
      intros v Hv. apply Hfiles. lia.
Qed.

(** X11.  [init_render] of a job that resumes (a lockfile job at its first
    render) whose earlier views [0 .. view - 1] are all on disk: the handler
    ends in the state [INIT_RENDER], the buffers of these files are appended
    in the order of the views, the lockfile flag is cleared, and the host
    (its files with it) is as it was. *)
Theorem init_render_loads_earlier_views (op : Operator) (rs : RenderSettings)
    (j : RenderJob) (b : Blender) (dir base ext : string) (total C R : Z) :
  naming_set j dir base ext total → columns j = Some C → rows j = Some R →
  _state j ≠ CANCEL_RENDER → render_cancel b = false →
  _use_lockfile j = true → init j = true →
  (∀ v, 0 ≤ v < view j → is_Some (files b !! view_path j b None total ext v)) →
  ∃ j',
    init_render (mkWorld op rs j b) = Done tt (mkWorld op rs j' b)
    ∧ _state j' = INIT_RENDER
    ∧ _use_lockfile j' = false
    ∧ _view_images_pixels j'
      = _view_images_pixels j ++ view_files j b total ext 0 (Z.to_nat (view j))
    ∧ length (_view_images_pixels j')
      = (length (_view_images_pixels j) + Z.to_nat (view j))%nat
    ∧ view j' = view j ∧ frame j' = frame j ∧ init j' = true.
Proof using Type.
  intros Hn Hc Hr Hstate Hcancel Hlock Hinit Hfiles.
  destruct (load_view_files_present op rs (set__state INIT_RENDER j) b dir base ext
              total C R Hn Hc Hr (Z.to_nat (view j)) 0 (_view_images_pixels j)
              (_view_image j)) as [img' Hloop].
  { intros v Hv. apply Hfiles. lia. }
  exists (set__use_lockfile false
            (set__view_images_pixels
               (_view_images_pixels j ++ view_files j b total ext 0 (Z.to_nat (view j)))
               (set__view_image img' (set__state INIT_RENDER j)))).
  split.
  - unfold init_render, handler_enabled. run.
    rewrite (bool_decide_true _ Hstate), Hcancel. cbn [negb andb]. run.
    cbn [_use_lockfile init set__state view]. rewrite Hlock, Hinit. cbn [andb]. run.
    change (set__state INIT_RENDER j)
      with (set__view_images_pixels (_view_images_pixels j)
              (set__view_image (_view_image j) (set__state INIT_RENDER j))).
    rewrite Hloop. run. reflexivity.
  - cbn [_state _use_lockfile _view_images_pixels view frame init
         set__use_lockfile set__view_images_pixels set__view_image set__state].
    rewrite length_app, view_files_length. repeat split; first [reflexivity|exact Hinit].
Qed.

(** X12.  [init_render] of a resuming job whose view [m] is the first one
    missing on disk: the handler stops there.  The job is in the state
    [CANCEL_RENDER] with the error message set, it is told to keep the view
    files, the lockfile flag stays set, and only the buffers of the views
    before [m] were appended. *)
Theorem init_render_missing_view_cancels (op : Operator) (rs : RenderSettings)
    (j : RenderJob) (b : Blender) (dir base ext : string) (total C R m : Z) :
  naming_set j dir base ext total → columns j = Some C → rows j = Some R →
  _state j ≠ CANCEL_RENDER → render_cancel b = false →
  _use_lockfile j = true → init j = true →
  0 ≤ m < view j →
  (∀ v, 0 ≤ v < m → is_Some (files b !! view_path j b None total ext v)) →
  files b !! view_path j b None total ext m = None →
  ∃ j',
    init_render (mkWorld op rs j b) = Done tt (mkWorld op rs j' b)
    ∧ _state j' = CANCEL_RENDER
    ∧ file_force_keep j' = true
    ∧ cancel_sign j' = Some "ERROR"
    ∧ cancel_message j' = Some missing_view_message
    ∧ _use_lockfile j' = true
    ∧ _view_images_pixels j'
      = _view_images_pixels j ++ view_files j b total ext 0 (Z.to_nat m)
    ∧ view j' = view j.
Proof using Type.
  intros Hn Hc Hr Hstate Hcancel Hlock Hinit Hm Hfiles Hmissing.
  destruct (load_view_files_missing op rs (set__state INIT_RENDER j) b dir base ext
              total C R (Z.to_nat (view j) - S (Z.to_nat m)) Hn Hc Hr
              (Z.to_nat m) 0 (_view_images_pixels j) (_view_image j))
    as [img' Hloop].
  { intros v Hv. apply Hfiles. lia. }
  { rewrite Z.add_0_l, Z2Nat.id by lia. exact Hmissing. }
  replace (Z.to_nat m + S (Z.to_nat (view j) - S (Z.to_nat m)))%nat
    with (Z.to_nat (view j)) in Hloop by lia.
  eexists. split.
  - unfold init_render, handler_enabled. run.
    rewrite (bool_decide_true _ Hstate), Hcancel. cbn [negb andb]. run.
    cbn [_use_lockfile init set__state view]. rewrite Hlock, Hinit. cbn [andb]. run.
    change (set__state INIT_RENDER j)
      with (set__view_images_pixels (_view_images_pixels j)
              (set__view_image (_view_image j) (set__state INIT_RENDER j))).
    rewrite Hloop. run. reflexivity.
  - cbn [_state _use_lockfile _view_images_pixels view file_force_keep cancel_sign
         cancel_message set_cancel_message set_cancel_sign set_file_force_keep
         set__view_images_pixels set__view_image set__state].
    repeat split; first [reflexivity|exact Hlock].
Qed.

(** ** The files of the views of a frame *)

(** X13.  The view can be read back from the digits of its file name, so
    no two views of a frame share a file: for views [v1], [v2] that are not
    negative, equal paths mean equal views. *)
Theorem view_files_do_not_collide (j : RenderJob) (b : Blender) (frame_arg : option Z)
    (dir base ext : string) (total v1 v2 : Z) :
  naming_set j dir base ext total → 0 ≤ v1 → 0 ≤ v2 →
  digits_value (view_digits total v1) = Some v1
  ∧ (view_filepath j b (Some v1) frame_arg = view_filepath j b (Some v2) frame_arg
     → v1 = v2).
Proof using Type.
  intros Hn H1 H2. split; [apply view_digits_value; exact H1|].
  rewrite !(view_filepath_stem j b _ frame_arg dir base ext total Hn).
  cbn [default from_option]. unfold Datatypes.id, view_segment. intros H.
  injection H as H. apply string_app_inv_head, string_app_inv_tail in H.
  apply (string_app_inv_head "_v") in H.
  apply (f_equal digits_value) in H.
  rewrite !view_digits_value in H by assumption. congruence.
Qed.

(** ** The progress bar *)

Lemma Int_part_percent (x : R) :
  (0 <= x <= 100)%R → 0 ≤ Int_part x ≤ 100.
Proof.
  intros [H0 H100]. destruct (base_Int_part x) as [Hle Hgt]. split.
  - assert (H : (IZR (-1) < IZR (Int_part x))%R) by lra.
    apply lt_IZR in H. lia.
  - apply le_IZR. lra.
Qed.

Lemma float_to_int_IZR (z : Z) : 0 ≤ z → float_to_int (IZR z) = z.
Proof.
  intros Hz. unfold float_to_int.
  destruct (Rle_dec 0 (IZR z)) as [_|Hn]; [|exfalso; apply Hn, IZR_le; exact Hz].
  symmetry. apply Int_part_spec. lra.
Qed.

(** The percentage of [n] out of [d] units of work, as the progress bar
    shows it. *)
Lemma percent_bounds (n d : Z) :
  0 ≤ n ≤ d → 0 < d →
  0 ≤ float_to_int (IZR n / IZR d * 100) ≤ 100
  ∧ (n = 0 → float_to_int (IZR n / IZR d * 100) = 0)
  ∧ (n = d → float_to_int (IZR n / IZR d * 100) = 100).
Proof.
  intros [Hn Hnd] Hd.
  assert (Hd' : (0 < IZR d)%R) by (apply IZR_lt; exact Hd).
  assert (Hn' : (0 <= IZR n)%R) by (apply IZR_le; exact Hn).
  assert (Hnd' : (IZR n <= IZR d)%R) by (apply IZR_le; exact Hnd).
  assert (Hq : (0 <= IZR n / IZR d <= 1)%R).
  { split.
    - apply Rmult_le_pos; [exact Hn'|]. left. apply Rinv_0_lt_compat. exact Hd'.
    - apply (Rmult_le_reg_r (IZR d)); [exact Hd'|].
      unfold Rdiv. rewrite Rmult_assoc, Rinv_l by lra. lra. }
  split; [|split].
  - unfold float_to_int.
    destruct (Rle_dec 0 (IZR n / IZR d * 100)) as [_|Hneg]; [|exfalso; apply Hneg; lra].
    apply Int_part_percent. lra.
  - intros ->. replace (0 / IZR d * 100)%R with (IZR 0) by (unfold Rdiv; lra).
    apply float_to_int_IZR. lia.
  - intros ->. replace (IZR d / IZR d * 100)%R with (IZR 100).
    + apply float_to_int_IZR. lia.
    + unfold Rdiv. rewrite Rinv_r by lra. lra.
Qed.

(** The percentage when there are two views or more and the view (and, in
    an animation, the frame) is within its range. *)
Lemma update_progress_ok (op : Operator) (rs : RenderSettings)
    (j : RenderJob) (b : Blender) (total : Z) :
  total_views j = Some total → 2 ≤ total → 0 ≤ view j ≤ total - 1 →
  (animation j = true → frame_start b ≤ frame j ≤ frame_end b) →
  ∃ p, update_progress (mkWorld op rs j b)
       = Done tt (mkWorld op rs j (set_render_progress p b))
       ∧ 0 ≤ p ≤ 100
       ∧ (view j = total - 1 → (animation j = true → frame j = frame_end b)
          → p = 100).
Proof.
  intros Ht Htotal Hview Hframe. unfold update_progress. run. rewrite Ht. run.
  destruct (animation j) eqn:Ha; cbn [negb]; run.
  - specialize (Hframe eq_refl).
    set (n := (frame j - frame_start b) * (total - 1) + view j).
    set (d := (total - 1) * (frame_end b - frame_start b + 1)).
    assert (Hn : 0 ≤ n ≤ d) by (unfold n, d; nia).
    assert (Hd : 0 < d) by (unfold d; nia).
    rewrite int_truediv_nonzero by lia. run.
    destruct (percent_bounds n d Hn Hd) as (Hb & _ & Hlast).
    eexists. split; [reflexivity|]. split; [exact Hb|].
    intros Hv Hf. apply Hlast. unfold n, d. rewrite Hv, (Hf eq_refl). ring.
  - assert (Hd : 0 < total - 1) by lia.
    rewrite int_truediv_nonzero by lia. run.
    destruct (percent_bounds (view j) (total - 1) Hview Hd) as (Hb & _ & Hlast).
    eexists. split; [reflexivity|]. split; [exact Hb|].
    intros Hv _. apply Hlast. exact Hv.
Qed.

(** X14.  The progress bar.  With a single view the percentage divides by
    zero, for a still image and for an animation alike.  With two views or
    more, and the view (and, in an animation, the frame) within its range,
    the percentage is between 0 and 100, it is 100 at the last view (of the
    last frame), and nothing else of the state changes.  (Floats are taken
    as reals.) *)
Theorem progress_between_0_and_100 (op : Operator) (rs : RenderSettings)
    (j : RenderJob) (b : Blender) (total : Z) :
  total_views j = Some total →
  (total = 1 →
   update_progress (mkWorld op rs j b) = Raised ZeroDivisionError (mkWorld op rs j b))
  ∧ (2 ≤ total → 0 ≤ view j ≤ total - 1 →
     (animation j = true → frame_start b ≤ frame j ≤ frame_end b) →
     ∃ p, update_progress (mkWorld op rs j b)
          = Done tt (mkWorld op rs j (set_render_progress p b))
          ∧ 0 ≤ p ≤ 100
          ∧ (view j = total - 1 → (animation j = true → frame j = frame_end b)
             → p = 100)).
Proof using Type.
  intros Ht. split.
  - intros ->. unfold update_progress. run. rewrite Ht. run.
    destruct (animation j); cbn [negb]; run; unfold int_truediv; reflexivity.
  - intros Htotal Hview Hframe.
    exact (update_progress_ok op rs j b total Ht Htotal Hview Hframe).
Qed.

(** ** The seed of the views under Cycles *)

(** The basis of the seed at a call of [invoke], on the scene [b1] that
    the frame has been set on: the seed of the scene at view 0, the seed
    the job has kept at any other view.  And the seed asked for from a
    basis [s]. *)
Definition seed_basis (j : RenderJob) (b1 : Blender) : option Z :=
  if view j =? 0 then Some (cycles_seed b1) else seed j.

Definition view_seed (j : RenderJob) (b1 : Blender) (s : Z) : Z :=
  if use_animated_seed b1 then s + frame j + view j else s + view j.

(** The job after the first statements of [invoke] under Cycles. *)
Definition seeded_job (j : RenderJob) (b1 : Blender) : RenderJob :=
  let j1 := set_subframe (frame_subframe b1) j in
  if view j =? 0 then set_seed (Some (cycles_seed b1)) j1 else j1.

Lemma seeded_job_seed (j : RenderJob) (b1 : Blender) :
  seed (seeded_job j b1) = seed_basis j b1
  ∧ view (seeded_job j b1) = view j ∧ frame (seeded_job j b1) = frame j.
Proof. unfold seeded_job, seed_basis. destruct (view j =? 0); repeat split. Qed.

Lemma invoke_cycles (op : Operator) (rs : RenderSettings) (j : RenderJob) (b : Blender) :
  engine (frame_set (frame j) (subframe j) b) = "CYCLES" →
  invoke (mkWorld op rs j b)
  = (let b1 := frame_set (frame j) (subframe j) b in
     match seed_basis j b1 with
     | Some s => assign_cycles_seed (view_seed j b1 s) (mkWorld op rs (seeded_job j b1) b1)
     | None => Raised TypeError (mkWorld op rs (seeded_job j b1) b1)
     end).
Proof.
  intros He. unfold invoke, seed_basis, view_seed, seeded_job. run. rewrite He.
  cbn [String.eqb Ascii.eqb Bool.eqb]. run. cbn [view set_subframe].
  destruct (view j =? 0); run; cbn [seed set_seed set_subframe frame view].
  - destruct (use_animated_seed _); reflexivity.
  - destruct (seed j); run; [destruct (use_animated_seed _)|]; reflexivity.
Qed.

(** X15.  [invoke] under Cycles.  The basis of the seed is the seed of the
    scene at view 0, where it is kept on the job, and the seed the job has
    kept at any other view.  The seed of the scene becomes the basis plus
    the view (plus the frame when the seed is animated) when that is a
    value of the property; the job keeps the basis, so the offsets of the
    views do not add up.  Beyond 2147483647 the assignment raises
    [ValueError], and a job that has kept no seed and is invoked at a view
    other than 0 raises [TypeError]. *)
Theorem seed_follows_view (op : Operator) (rs : RenderSettings) (j : RenderJob)
    (b : Blender) :
  engine (frame_set (frame j) (subframe j) b) = "CYCLES" →
  (∀ s, seed_basis j (frame_set (frame j) (subframe j) b) = Some s →
        0 ≤ view_seed j (frame_set (frame j) (subframe j) b) s ≤ INT_MAX →
        ∃ w', invoke (mkWorld op rs j b) = Done tt w'
          ∧ seed (job w') = Some s
          ∧ cycles_seed (host w')
            = view_seed j (frame_set (frame j) (subframe j) b) s
          ∧ view (job w') = view j ∧ frame (job w') = frame j)
  ∧ (∀ s, seed_basis j (frame_set (frame j) (subframe j) b) = Some s →
          INT_MAX < view_seed j (frame_set (frame j) (subframe j) b) s →
          ∃ w', invoke (mkWorld op rs j b) = Raised ValueError w'
            ∧ seed (job w') = Some s
            ∧ host w' = frame_set (frame j) (subframe j) b)
  ∧ (seed_basis j (frame_set (frame j) (subframe j) b) = None →
     ∃ w', invoke (mkWorld op rs j b) = Raised TypeError w'
       ∧ host w' = frame_set (frame j) (subframe j) b).
Proof using Type.
  intros He. rewrite (invoke_cycles op rs j b He). cbv zeta.
  set (b1 := frame_set (frame j) (subframe j) b).
  split; [|split].
  - intros s Hs Hrange. rewrite Hs. unfold assign_cycles_seed, INT_MIN.
    destruct (Z.leb_spec (-2147483648) (view_seed j b1 s)) as [_|E]; [|lia].
    destruct (Z.leb_spec (view_seed j b1 s) INT_MAX) as [_|E]; [|lia].
    cbn [andb]. run. eexists. split; [reflexivity|].
    cbn [job host cycles_seed set_cycles_seed].
    destruct (seeded_job_seed j b1) as (-> & -> & ->).
    split; [exact Hs|]. split; [lia|]. split; reflexivity.
  - intros s Hs Hover. rewrite Hs. unfold assign_cycles_seed.
    destruct (Z.leb_spec (view_seed j b1 s) INT_MAX) as [E|_]; [lia|].
    rewrite andb_false_r. run. eexists. split; [reflexivity|].
    cbn [job host]. destruct (seeded_job_seed j b1) as (-> & _).
    split; [exact Hs|reflexivity].
  - intros Hnone. rewrite Hnone. eexists. split; [reflexivity|]. reflexivity.
Qed.

(** ** A tick of the operator between two views *)

Lemma advance_next_view (op : Operator) (rs : RenderSettings) (j : RenderJob)
    (b : Blender) (total : Z) :
  total_views j = Some total → view j < total - 1 →
  advance (mkWorld op rs j b)
  = Done tt (mkWorld op rs (set__state INVOKE_RENDER (set_view (view j + 1) j)) b).
Proof.
  intros Ht Hview. unfold advance. run. rewrite Ht. run.
  destruct (Z.ltb_spec (view j) (total - 1)) as [_|E]; [|lia].
  destruct (animation j); reflexivity.
Qed.

(** X16.  The timer tick after a view other than the last has been
    rendered: the operator passes the event through, the job is at the next
    view of the same frame in the state [INVOKE_RENDER], and the buffers,
    the files, the objects and the operator are as they were. *)
Theorem tick_moves_to_next_view (op : Operator) (rs : RenderSettings) (j : RenderJob)
    (b : Blender) (total : Z) (render_cancelled : bool) :
  _state j = COMPLETE_RENDER → render_cancel b = false →
  total_views j = Some total → 0 ≤ view j < total - 1 →
  (animation j = true → frame_start b ≤ frame j ≤ frame_end b) →
  ∃ w', modal TIMER render_cancelled (mkWorld op rs j b) = Done PASS_THROUGH w'
    ∧ view (job w') = view j + 1 ∧ frame (job w') = frame j
    ∧ _state (job w') = INVOKE_RENDER
    ∧ _view_images_pixels (job w') = _view_images_pixels j
    ∧ files (host w') = files b ∧ objects (host w') = objects b
    ∧ 0 ≤ render_progress (host w') ≤ 100
    ∧ operator w' = op.
Proof using Type.
  intros Hstate Hcancel Ht Hview Hframe.
  destruct (update_progress_ok op rs j b total Ht ltac:(lia) ltac:(lia) Hframe)
    as (p & Hp & Hbounds & _).
  unfold modal. run. rewrite Hcancel, Hstate. cbn [negb].
  unfold modal_complete_render. run. rewrite Ht. run.
  destruct (Z.eqb_spec (view j) (total - 1)) as [E|_]; [lia|]. run.
  rewrite Hp. run.
  assert (Hnext : ∀ b', files b' = files b → objects b' = objects b →
            render_progress b' = p →
            ∃ w', match advance (mkWorld op rs j b') with
                  | Done _ w1 => Done PASS_THROUGH w1
                  | Raised e w1 => Raised e w1
                  end = Done PASS_THROUGH w'
              ∧ view (job w') = view j + 1 ∧ frame (job w') = frame j
              ∧ _state (job w') = INVOKE_RENDER
              ∧ _view_images_pixels (job w') = _view_images_pixels j
              ∧ files (host w') = files b ∧ objects (host w') = objects b
              ∧ 0 ≤ render_progress (host w') ≤ 100
              ∧ operator w' = op).
  { intros b' Hfiles Hobjects Hprogress.
    rewrite (advance_next_view op rs j b' total Ht) by lia.
    eexists. split; [reflexivity|]. cbn [job host operator view frame _state
      _view_images_pixels set__state set_view].
    rewrite Hprogress. repeat split; first [reflexivity|assumption|lia]. }
  destruct (bool_decide (is_Some (lockfile_path j))) eqn:Hlock; cbn [andb];
    [destruct (bool_decide (is_Some (lockfile (set_render_progress p b)))) eqn:Hsaved|];
    run; try (apply Hnext; reflexivity).
  unfold write_to_lockfile. run.
  apply bool_decide_eq_true in Hlock. destruct Hlock as [lock Hlock].
  destruct (negb (String.eqb (blend_filepath (set_render_progress p b)) "")); run;
    [rewrite Hlock; run|]; apply Hnext; reflexivity.
Qed.

(** ** Setting the camera up and cleaning up again *)

Lemma find_from_none (n : string) (l : list (option Object)) (k : nat) :
  (∀ i o, l !! i = Some (Some o) → name o ≠ n) → find_from n l k = None.
Proof.
  revert k. induction l as [|[o|] l IH]; intros k Hfresh; cbn [find_from].
  - reflexivity.
  - destruct (String.eqb_spec (name o) n) as [E|_].
    + exfalso. exact (Hfresh 0%nat o eq_refl E).
    + apply IH. intros i o' Hi. exact (Hfresh (S i) o' Hi).
  - apply IH. intros i o' Hi. exact (Hfresh (S i) o' Hi).
Qed.

Lemma find_from_snoc (n : string) (l : list (option Object)) (c : Object) (k : nat) :
  (∀ i o, l !! i = Some (Some o) → name o ≠ n) → name c = n →
  find_from n (l ++ [Some c]) k = Some (k + length l)%nat.
Proof.
  revert k. induction l as [|[o|] l IH]; intros k Hfresh Hc; cbn [find_from app length].
  - rewrite Hc, String.eqb_refl. f_equal. lia.
  - destruct (String.eqb_spec (name o) n) as [E|_].
    + exfalso. exact (Hfresh 0%nat o eq_refl E).
    + rewrite IH; [f_equal; lia| |exact Hc].
      intros i o' Hi. exact (Hfresh (S i) o' Hi).
  - rewrite IH; [f_equal; lia| |exact Hc].
    intros i o' Hi. exact (Hfresh (S i) o' Hi).
Qed.

(** The world after the first [setup_camera] of a job in single-camera
    mode. *)
Lemma setup_camera_single_world (op : Operator) (rs : RenderSettings) (j : RenderJob)
    (b : Blender) (lg : nat) (cam_lg : Object) (total : Z) (cone : R) :
  use_multiview j = false → init j = true →
  lookingglassCamera b = Some lg → objects b !! lg = Some (Some cam_lg) →
  mathutils.x (scale cam_lg) ≠ 0%R → mathutils.y (scale cam_lg) ≠ 0%R →
  mathutils.z (scale cam_lg) ≠ 0%R →
  total_views j = Some total → total ≠ 1 → view_cone j = Some cone →
  camera_size (focalPlane b) (angle (data cam_lg)) ≠ 0%R →
  ∃ cam j',
    setup_camera (mkWorld op rs j b)
    = Done tt (mkWorld op rs j'
                 (set_camera (Some (length (objects b)))
                    (set_objects (objects b ++ [Some cam]) b)))
    ∧ name cam = _camera_temp_basename j
    ∧ use_multiview j' = false
    ∧ _camera_temp_basename j' = _camera_temp_basename j
    ∧ _camera_original j' = Some lg
    ∧ _camera_temp j' = _camera_temp j ++ [length (objects b)].
Proof.
  intros Hmode Hinit Hlg Hcam Hx Hy Hz Ht Hne Hcone Hsize.
  assert (Hlt : (lg < length (objects b))%nat) by (apply (lookup_lt_Some _ _ _ Hcam)).
  unfold setup_camera. run. rewrite Hmode, Hinit. cbn [negb]. run. rewrite Hlg.
  rewrite (get_view_matrices_ok op rs _ b lg cam_lg) by (reflexivity || assumption).
  cbn [_camera_active set__view_matrix_inv set__view_matrix set__camera_original
       set__camera_active].
  camera_fields.
  rewrite (get_object_ok op rs _ b lg cam_lg Hcam).
  rewrite objects_new_ok. camera_fields.
  rewrite last_camera_snoc. camera_fields.
  set (m := scaled_matrix cam_lg).
  set (new := new_object (_camera_temp_basename j) (data cam_lg)).
  rewrite (update_object_ok op rs _ _ _ _ new) by apply lookup_snoc_length.
  camera_fields. rewrite insert_snoc_length.
  rewrite (apply_position_and_shift_ok op rs _ _ (view j) (length (objects b)) lg
             (set_matrix_world m new) cam_lg total cone m (inverted_safe m)).
  - camera_fields. rewrite insert_snoc_length.
    do 2 eexists. split; [reflexivity|]. camera_fields.
    repeat split; first [reflexivity|exact Hmode].
  - reflexivity.
  - reflexivity.
  - apply lookup_snoc_length.
  - camera_fields. rewrite lookup_app_l by exact Hlt. exact Hcam.
  - exact Ht.
  - exact Hne.
  - exact Hcone.
  - reflexivity.
  - reflexivity.
  - exact Hsize.
Qed.

(** X17.  [setup_camera] at the first view of a job in single-camera mode,
    then [clean_up], when no object has the name of the temporary camera
    beforehand: both end normally, the temporary camera is gone from the
    object store (its entry is dead, the entries before it are untouched),
    the job holds no temporary camera, and the camera of the scene is the
    camera of the add-on, whichever camera the scene had before. *)
Theorem setup_then_clean_up (op : Operator) (rs : RenderSettings) (j : RenderJob)
    (b : Blender) (lg : nat) (cam_lg : Object) (total : Z) (cone : R) :
  use_multiview j = false → init j = true →
  lookingglassCamera b = Some lg → objects b !! lg = Some (Some cam_lg) →
  mathutils.x (scale cam_lg) ≠ 0%R → mathutils.y (scale cam_lg) ≠ 0%R →
  mathutils.z (scale cam_lg) ≠ 0%R →
  total_views j = Some total → total ≠ 1 → view_cone j = Some cone →
  camera_size (focalPlane b) (angle (data cam_lg)) ≠ 0%R →
  (∀ i o, objects b !! i = Some (Some o) → name o ≠ _camera_temp_basename j) →
  ∃ w1 w2,
    setup_camera (mkWorld op rs j b) = Done tt w1
    ∧ clean_up w1 = Done tt w2
    ∧ objects (host w2) = objects b ++ [None]
    ∧ objects_find (host w2) (_camera_temp_basename j) = None
    ∧ _camera_temp (job w2) = []
    ∧ camera (host w2) = Some lg
    ∧ files (host w2) = files b.
Proof using Type.
  intros Hmode Hinit Hlg Hcam Hx Hy Hz Ht Hne Hcone Hsize Hfresh.
  destruct (setup_camera_single_world op rs j b lg cam_lg total cone)
    as (cam & j' & Hsetup & Hname & Hmode' & Hbase & Horig & Htemp); try assumption.
  do 2 eexists. split; [exact Hsetup|].
  unfold clean_up. run. rewrite Hmode'. cbn [negb]. run.
  unfold objects_find. cbn [objects set_camera set_objects]. rewrite Hbase.
  rewrite (find_from_snoc _ _ cam 0 Hfresh Hname). cbn [Nat.add]. run.
  unfold remove_object. run.
  cbn [objects set_camera set_objects _camera_original set__camera_temp].
  rewrite insert_snoc_length, Horig.
  split; [reflexivity|]. cbn [job host objects camera files set_camera set_objects
    _camera_temp set__camera_temp].
  split; [reflexivity|]. split; [|repeat split; reflexivity].
  apply find_from_none. intros i o Hi.
  destruct (decide (i < length (objects b))%nat) as [Hlt|Hge].
  - rewrite lookup_app_l in Hi by exact Hlt. exact (Hfresh i o Hi).
  - rewrite lookup_app_r in Hi by lia.
    destruct (i - length (objects b))%nat; cbn in Hi; discriminate.
Qed.

(** ** The quilt file *)

(** X18.  [assemble_quilt] with complete buffers.  When the file of the
    current view is on disk, the quilt file holds the assembled pixels
    afterwards, every other file is as it was, the buffers stay in the job
    and the quilt image has the size of the quilt.  When that view file is
    missing, the copy fails with [FileNotFoundError] and nothing has
    changed. *)
Theorem assemble_quilt_writes_quilt_file (op : Operator) (rs : RenderSettings)
    (j : RenderJob) (b : Blender) (R C h w : nat) (dir base ext : string) (total : Z) :
  naming_set j dir base ext total →
  rows j = Some (Z.of_nat R) → columns j = Some (Z.of_nat C) →
  resolution_y b = Z.of_nat h → resolution_x b = Z.of_nat w →
  (0 < R)%nat → (0 < C)%nat →
  length (_view_images_pixels j) = (R * C)%nat →
  Forall (fun buf => length buf = (w * h * 4)%nat) (_view_images_pixels j) →
  ∃ quilt_file quiltPixels,
    quilt_filepath j b None = Ok quilt_file
    ∧ assemble_quilt_pixels j b = Ok quiltPixels
    ∧ (is_Some (files b !! view_path j b None total ext (view j)) →
       ∃ w', assemble_quilt (mkWorld op rs j b) = Done tt w'
         ∧ files (host w') !! quilt_file = Some quiltPixels
         ∧ (∀ path, path ≠ quilt_file → files (host w') !! path = files b !! path)
         ∧ _view_images_pixels (job w') = _view_images_pixels j
         ∧ _quilt_image (job w')
           = Some (mkImage (file_temp_name j) quilt_file
                     (Some (Z.of_nat w * Z.of_nat C, Z.of_nat h * Z.of_nat R))
                     quiltPixels))
    ∧ (files b !! view_path j b None total ext (view j) = None →
       assemble_quilt (mkWorld op rs j b)
       = Raised FileNotFoundError (mkWorld op rs j b)).
Proof using Type.
  intros Hn Hrows Hcols Hy Hx HR HC Hlen Hsizes.
  pose proof (view_buffers_complete j R C h w Hlen Hsizes) as Hgood.
  pose proof (assemble_quilt_pixels_ok j b R C h w Hrows Hcols Hy Hx HR HC Hgood) as Hq.
  pose proof (quilt_filepath_name j b None dir base ext total Hn) as Hquilt.
  pose proof (view_filepath_stem j b None None dir base ext total Hn) as Hview.
  cbn [default from_option] in Hview.
  fold (view_path j b None total ext (view j)) in Hview.
  do 2 eexists. split; [exact Hquilt|]. split; [exact Hq|]. split.
  - intros [copied Hcopied]. unfold assemble_quilt. run.
    rewrite Hq. run. rewrite Hview. run. rewrite Hquilt. run.
    unfold read_file. rewrite Hcopied. run. cbn [files set_files].
    rewrite lookup_insert_eq. run. rewrite Hcols, Hrows. run.
    cbn [files set_files resolution_x resolution_y]. rewrite Hx, Hy.
    eexists. split; [reflexivity|].
    cbn [job host files set_files _view_images_pixels _quilt_image set__quilt_image].
    split; [apply lookup_insert_eq|]. split; [|split; reflexivity].
    intros path Hpath. rewrite !lookup_insert_ne by congruence. reflexivity.
  - intros Hmissing. unfold assemble_quilt. run.
    rewrite Hq. run. rewrite Hview. run. rewrite Hquilt. run.
    unfold read_file. rewrite Hmissing. reflexivity.
Qed.

(** ** The tick that completes a still image *)

(** The quilt image [assemble_quilt] leaves on the job. *)
Definition quilt_image_of (j : RenderJob) (b : Blender) (quilt_file : string)
    (C R : Z) (quiltPixels : ndarray) : Image :=
  mkImage (file_temp_name j) quilt_file
    (Some (resolution_x b * C, resolution_y b * R)) quiltPixels.

Lemma assemble_quilt_ok (op : Operator) (rs : RenderSettings) (j : RenderJob)
    (b : Blender) (dir base ext : string) (total C R : Z)
    (quilt_file : string) (quiltPixels copied : ndarray) :
  naming_set j dir base ext total → rows j = Some R → columns j = Some C →
  quilt_filepath j b None = Ok quilt_file →
  assemble_quilt_pixels j b = Ok quiltPixels →
  files b !! view_path j b None total ext (view j) = Some copied →
  assemble_quilt (mkWorld op rs j b)
  = Done tt (mkWorld op rs
               (set__quilt_image (Some (quilt_image_of j b quilt_file C R quiltPixels)) j)
               (set_files (<[quilt_file := quiltPixels]> (files b)) b)).
Proof.
  intros Hn Hrows Hcols Hquilt Hq Hcopied.
  pose proof (view_filepath_stem j b None None dir base ext total Hn) as Hview.
  cbn [default from_option] in Hview.
  fold (view_path j b None total ext (view j)) in Hview.
  unfold assemble_quilt. run.
  rewrite Hq. run. rewrite Hview. run. rewrite Hquilt. run.
  unfold read_file. rewrite Hcopied. run. cbn [files set_files].
  rewrite lookup_insert_eq. run. rewrite Hcols, Hrows. run.
  cbn [files set_files resolution_x resolution_y].
  rewrite insert_insert_eq. reflexivity.
Qed.

Lemma advance_last_view_still (op : Operator) (rs : RenderSettings) (j : RenderJob)
    (b : Blender) (total : Z) :
  total_views j = Some total → animation j = false → view j = total - 1 →
  advance (mkWorld op rs j b)
  = Done tt (mkWorld
               (set_op_cancel_message "Complete quilt rendered."
                  (set_op_cancel_sign "INFO" op))
               rs (set__state CANCEL_RENDER j) b).
Proof.
  intros Ht Ha Hv. unfold advance. run. rewrite Ht, Ha. cbn [negb]. run.
  destruct (Z.ltb_spec (view j) (total - 1)) as [E|_]; [lia|]. reflexivity.
Qed.

(** X19.  The timer tick after the last view of a still image (two views or
    more, the buffers complete, the file of the last view on disk): the
    quilt is assembled and written to the quilt file, every other file
    stays, the progress is 100, and the job goes to [CANCEL_RENDER] with
    the sign [INFO] and the message "Complete quilt rendered." set on the
    operator, which passes the event through. *)
Theorem tick_completes_still_image (op : Operator) (rs : RenderSettings)
    (j : RenderJob) (b : Blender) (R C h w : nat) (dir base ext : string) (total : Z)
    (render_cancelled : bool) :
  _state j = COMPLETE_RENDER → render_cancel b = false → animation j = false →
  naming_set j dir base ext total → 2 ≤ total → view j = total - 1 →
  rows j = Some (Z.of_nat R) → columns j = Some (Z.of_nat C) →
  resolution_y b = Z.of_nat h → resolution_x b = Z.of_nat w →
  (0 < R)%nat → (0 < C)%nat →
  length (_view_images_pixels j) = (R * C)%nat →
  Forall (fun buf => length buf = (w * h * 4)%nat) (_view_images_pixels j) →
  is_Some (files b !! view_path j b None total ext (view j)) →
  ∃ quilt_file quiltPixels w',
    quilt_filepath j b None = Ok quilt_file
    ∧ assemble_quilt_pixels j b = Ok quiltPixels
    ∧ modal TIMER render_cancelled (mkWorld op rs j b) = Done PASS_THROUGH w'
    ∧ files (host w') !! quilt_file = Some quiltPixels
    ∧ (∀ path, path ≠ quilt_file → files (host w') !! path = files b !! path)
    ∧ render_progress (host w') = 100
    ∧ _state (job w') = CANCEL_RENDER
    ∧ view (job w') = view j
    ∧ op_cancel_sign (operator w') = "INFO"
    ∧ op_cancel_message (operator w') = "Complete quilt rendered.".
Proof using Type.
  intros Hstate Hcancel Ha Hn Htotal Hview Hrows Hcols Hy Hx HR HC Hlen Hsizes
    [copied Hcopied].
  pose proof Hn as (_ & _ & _ & Ht).
  pose proof (view_buffers_complete j R C h w Hlen Hsizes) as Hgood.
  pose proof (assemble_quilt_pixels_ok j b R C h w Hrows Hcols Hy Hx HR HC Hgood) as Hq.
  pose proof (quilt_filepath_name j b None dir base ext total Hn) as Hquilt.
  set (q := concat (concat (quilt_array j h w C R))) in *.
  set (quilt_file := os_path_join dir (name_stem j b None +:+ ext)) in *.
  set (j1 := set__quilt_image
               (Some (quilt_image_of j b quilt_file (Z.of_nat C) (Z.of_nat R) q)) j).
  set (b1 := set_files (<[quilt_file := q]> (files b)) b).
  destruct (update_progress_ok op rs j1 b1 total Ht ltac:(lia)
              ltac:(change (view j1) with (view j); lia)
              ltac:(change (animation j1) with (animation j); congruence))
    as (p & Hp & _ & Hlast).
  assert (Hp100 : p = 100).
  { apply Hlast; [exact Hview|].
    change (animation j1) with (animation j). congruence. }
  subst p.
  assert (Hend : ∀ b', files b' = files b1 → render_progress b' = 100 →
            ∃ w', match advance (mkWorld op rs j1 b') with
                  | Done _ w1 => Done PASS_THROUGH w1
                  | Raised e w1 => Raised e w1
                  end = Done PASS_THROUGH w'
              ∧ files (host w') !! quilt_file = Some q
              ∧ (∀ path, path ≠ quilt_file → files (host w') !! path = files b !! path)
              ∧ render_progress (host w') = 100
              ∧ _state (job w') = CANCEL_RENDER
              ∧ view (job w') = view j
              ∧ op_cancel_sign (operator w') = "INFO"
              ∧ op_cancel_message (operator w') = "Complete quilt rendered.").
  { intros b' Hfiles Hprogress.
    rewrite (advance_last_view_still op rs j1 b' total Ht Ha Hview).
    eexists. split; [reflexivity|]. cbn [job host operator].
    rewrite Hfiles, Hprogress. unfold b1. cbn [files set_files].
    split; [apply lookup_insert_eq|]. split; [|repeat split; reflexivity].
    intros path Hpath. apply lookup_insert_ne. congruence. }
  assert (Hmain : ∃ w',
            modal TIMER render_cancelled (mkWorld op rs j b) = Done PASS_THROUGH w'
            ∧ files (host w') !! quilt_file = Some q
            ∧ (∀ path, path ≠ quilt_file → files (host w') !! path = files b !! path)
            ∧ render_progress (host w') = 100
            ∧ _state (job w') = CANCEL_RENDER
            ∧ view (job w') = view j
            ∧ op_cancel_sign (operator w') = "INFO"
            ∧ op_cancel_message (operator w') = "Complete quilt rendered.").
  { unfold modal. run. rewrite Hcancel, Hstate. cbn [negb].
    unfold modal_complete_render. run. rewrite Ht. run.
    destruct (Z.eqb_spec (view j) (total - 1)) as [_|E]; [|contradiction].
    rewrite (assemble_quilt_ok op rs j b dir base ext total (Z.of_nat C) (Z.of_nat R)
               quilt_file q copied Hn Hrows Hcols Hquilt Hq Hcopied).
    fold j1 b1. run. rewrite Hp. run.
    change (lockfile_path j1) with (lockfile_path j).
    destruct (bool_decide (is_Some (lockfile_path j))) eqn:Hlock; cbn [andb];
      [destruct (bool_decide (is_Some (lockfile (set_render_progress 100 b1)))) eqn:Hsaved|];
      run; try (apply Hend; reflexivity).
    unfold write_to_lockfile. run.
    apply bool_decide_eq_true in Hlock. destruct Hlock as [lock Hlock].
    destruct (negb (String.eqb (blend_filepath (set_render_progress 100 b1)) "")); run;
      [change (lockfile_path j1) with (lockfile_path j); rewrite Hlock; run|];
      apply Hend; reflexivity. }
  destruct Hmain as (w' & Hrun & Hrest).
  exists quilt_file, q, w'. split; [exact Hquilt|]. split; [exact Hq|].
  split; [exact Hrun|exact Hrest].
Qed.

(** ** What a call leaves alone *)

(** The state a call ends in, whether it returns or raises. *)
Definition final {A : Type} (o : outcome A) : World :=
  match o with
  | Done _ w => w
  | Raised _ w => w
  end.

(** The call [m] leaves the part [part] of the host as it is, however it
    ends. *)
Definition keeps {A T : Type} (part : Blender → T) (m : M A) : Prop :=
  ∀ w, part (host (final (m w))) = part (host w).

Section Keeps.

Context {T : Type} (part : Blender → T).

Lemma keeps_bind {A B : Type} (m : M A) (k : A → M B) :
  keeps part m → (∀ a, keeps part (k a)) → keeps part (m ≫= k).
Proof.
  intros Hm Hk w. specialize (Hm w). unfold mbind, M_bind.
  destruct (m w) as [a w'|e w']; cbn [final] in *; [|exact Hm].
  rewrite (Hk a w'). exact Hm.
Qed.

Lemma keeps_ret {A : Type} (a : A) : keeps part (mret a : M A).
Proof. intros w. reflexivity. Qed.

Lemma keeps_lift {A : Type} (r : result A) : keeps part (lift r).
Proof. intros w. destruct r; reflexivity. Qed.

Lemma keeps_world : keeps part world.
Proof. intros w. reflexivity. Qed.

Lemma keeps_self : keeps part self.
Proof. intros w. reflexivity. Qed.

Lemma keeps_bpy : keeps part bpy.
Proof. intros w. reflexivity. Qed.

Lemma keeps_assign (f : RenderJob → RenderJob) : keeps part (assign f).
Proof. intros w. reflexivity. Qed.

Lemma keeps_assign_operator (f : Operator → Operator) : keeps part (assign_operator f).
Proof. intros w. reflexivity. Qed.

Lemma keeps_assign_settings (f : RenderSettings → RenderSettings) :
  keeps part (assign_settings f).
Proof. intros w. reflexivity. Qed.

Lemma keeps_assign_host (f : Blender → Blender) :
  (∀ b, part (f b) = part b) → keeps part (assign_host f).
Proof. intros Hf w. apply Hf. Qed.

Lemma keeps_for_range_from (body : Z → M unit) (rounds : nat) (start : Z) :
  (∀ i, keeps part (body i)) → keeps part (for_range_from start rounds body).
Proof.
  intros Hbody. revert start. induction rounds as [|k IH]; intros start.
  - apply keeps_ret.
  - cbn [for_range_from]. apply keeps_bind; [apply Hbody|intros _; apply IH].
Qed.

End Keeps.

(** The steps of a proof that a call leaves a part of the host alone: the
    call is taken apart along its binds and its branches. *)
Ltac keeps_step :=
  first
    [ assumption
    | apply keeps_ret | apply keeps_lift | apply keeps_world | apply keeps_self
    | apply keeps_bpy | apply keeps_assign | apply keeps_assign_operator
    | apply keeps_assign_settings
    | apply keeps_assign_host; intros ?; reflexivity
    | apply keeps_for_range_from; intros ?
    | apply keeps_bind; [|intros ?]
    | match goal with
      | |- keeps _ (if ?c then _ else _) => destruct c
      | |- keeps _ (match ?x with _ => _ end) => destruct x
      end ].

Ltac keeps_all := repeat keeps_step.

Lemma keeps_get_object {T : Type} (part : Blender → T) (i : nat) :
  keeps part (get_object i).
Proof. unfold get_object. keeps_all. Qed.

Lemma keeps_load_view_files (rounds : nat) (i : Z) : keeps files (load_view_files i rounds).
Proof.
  revert i. induction rounds as [|k IH]; intros i; cbn [load_view_files].
  - apply keeps_ret.
  - pose proof (IH (i + 1)). keeps_all.
Qed.

Lemma keeps_clean_up_views (total : option Z) (cams : list nat) (view : Z) :
  keeps files (clean_up_views total view cams).
Proof.
  revert view. induction cams as [|cam rest IH]; intros view; cbn [clean_up_views].
  - apply keeps_ret.
  - pose proof (IH (view + 1)). unfold clean_up_view. keeps_all.
Qed.

(** X20.  Calls that never touch the files of the scene, whether they
    return or raise: [setup_camera], [clean_up], the handlers [init_render]
    (which only reads the view files), [pre_render], [completed_render] and
    [cancel_render], the progress bar, and the tick of the operator that
    takes the ESC key. *)
Theorem files_kept_by_camera_and_handlers :
  keeps files setup_camera ∧ keeps files clean_up
  ∧ keeps files init_render ∧ keeps files pre_render
  ∧ keeps files completed_render ∧ keeps files cancel_render
  ∧ keeps files update_progress
  ∧ (∀ render_cancelled, keeps files (modal ESC render_cancelled)).
Proof using Type.
  repeat apply conj.
  - unfold setup_camera. keeps_all.
  - unfold clean_up, set_view_use. keeps_all. apply keeps_clean_up_views.
  - unfold init_render. keeps_all. apply keeps_load_view_files.
  - unfold pre_render. keeps_all.
  - unfold completed_render. keeps_all.
  - unfold cancel_render. keeps_all.
  - unfold update_progress. keeps_all.
  - intros rc. unfold modal. keeps_all.
Qed.

(** X21.  The calls that deal with files leave the objects of the scene
    and its active camera alone, whether they return or raise:
    [post_render], [assemble_quilt], [delete_files], and with them
    [init_render], [pre_render] and the progress bar. *)
Theorem objects_kept_by_file_handling :
  let scene_objects := fun b => (objects b, camera b) in
  keeps scene_objects post_render ∧ keeps scene_objects assemble_quilt
  ∧ (∀ frame_arg, keeps scene_objects (delete_files frame_arg))
  ∧ keeps scene_objects init_render ∧ keeps scene_objects pre_render
  ∧ keeps scene_objects update_progress.
Proof using Type.
  intros scene_objects.
  assert (Hload : ∀ rounds i, keeps scene_objects (load_view_files i rounds)).
  { induction rounds as [|k IH]; intros i; cbn [load_view_files].
    - apply keeps_ret.
    - pose proof (IH (i + 1)). keeps_all. }
  repeat apply conj.
  - unfold post_render. keeps_all.
  - unfold assemble_quilt. keeps_all.
  - intros frame_arg. unfold delete_files, for_range, remove_if_file. keeps_all.
  - unfold init_render. keeps_all. apply Hload.
  - unfold pre_render. keeps_all.
  - unfold update_progress. keeps_all.
Qed.

(** ** Discarding an unfinished job *)

(** X22.  [cancel] when the operator was called to discard the lockfile of
    a still image: the view files of the job are deleted, also when the job
    was told to keep them, and no other file changes, but for the quilt
    file of a job that has no output name; the buffers and the images of
    the job are cleared, the lockfile is removed and the progress and the
    cancel flag are reset; but the cameras are not cleaned up and the
    settings are not restored: the objects and the camera of the scene stay
    as they are. *)
Theorem discarding_deletes_view_files (op : Operator) (rs : RenderSettings)
    (j : RenderJob) (b : Blender) (dir base ext out lock : string) (total : Z) :
  discard_lockfile op = true → animation j = false →
  naming_set j dir base ext total → outputpath j = Some out →
  lockfile_path j = Some lock →
  ∃ w', cancel (mkWorld op rs j b) = Done tt w'
    ∧ (∀ v, 0 ≤ v < total →
         files (host w') !! view_path j b None total ext v = None)
    ∧ (∀ path, files (host w') !! path = None
               ∨ files (host w') !! path = files b !! path)
    ∧ (∀ path, files (host w') !! path ≠ files b !! path →
         (∃ v, 0 ≤ v < total ∧ path = view_path j b None total ext v)
         ∨ (os_path_basename out = "" ∧ quilt_filepath j b None = Ok path))
    ∧ _view_images_pixels (job w') = []
    ∧ _view_image (job w') = None ∧ _quilt_image (job w') = None
    ∧ lockfile (host w') = None
    ∧ render_progress (host w') = 0 ∧ render_cancel (host w') = false
    ∧ objects (host w') = objects b ∧ camera (host w') = camera b
    ∧ _camera_temp (job w') = _camera_temp j
    ∧ op_use_lockfile (operator w') = false.
Proof using Type.
  intros Hdiscard Ha Hn Hout Hlock.
  pose proof (quilt_filepath_name j b None dir base ext total Hn) as Hq.
  set (q := os_path_join dir (name_stem j b None +:+ ext)) in *.
  set (j1 := set__view_images_pixels [] (set__quilt_image None (set__view_image None j))).
  assert (Hn1 : naming_set j1 dir base ext total) by exact Hn.
  pose proof (delete_files_run op rs j1 b None dir base ext out q total Hn1 Hout Hq)
    as Hdelete.
  unfold cancel, cancel_deletes_files. run. rewrite Hdiscard.
  rewrite orb_true_r. cbn [animation set__view_images_pixels set__quilt_image
    set__view_image negb]. rewrite Ha.
  fold j1. rewrite Hdelete. run. rewrite Hdiscard. cbn [negb]. run.
  cbn [lockfile_path set__view_images_pixels j1 set__quilt_image set__view_image].
  rewrite Hlock. run.
  eexists. split; [reflexivity|].
  cbn [job host operator files objects camera lockfile render_progress render_cancel
       set_files set_lockfile set_render_progress set_render_cancel
       _view_images_pixels _view_image _quilt_image _camera_temp
       set__view_images_pixels set__quilt_image set__view_image j1
       op_use_lockfile set_op_use_lockfile].
  unfold files_after_delete.
  change (view_path j1 b None total ext) with (view_path j b None total ext).
  set (vp := view_path j b None total ext).
  split; [|split; [|split; [|repeat split; reflexivity]]].
  - intros v Hv.
    assert (Hgone : removed_views vp 0 (Z.to_nat total) (files b) !! vp v = None)
      by (apply removed_views_gone; lia).
    destruct (String.eqb (os_path_basename out) "" && negb (animation j1))%bool;
      [|exact Hgone].
    destruct (decide (q = vp v)) as [<-|Hne];
      [apply lookup_delete_eq|rewrite lookup_delete_ne by exact Hne; exact Hgone].
  - intros path.
    destruct (String.eqb (os_path_basename out) "" && negb (animation j1))%bool.
    + destruct (decide (q = path)) as [<-|Hne]; [left; apply lookup_delete_eq|].
      rewrite lookup_delete_ne by exact Hne. apply removed_views_lookup.
    + apply removed_views_lookup.
  - intros path Hchanged.
    assert (Hviews : removed_views vp 0 (Z.to_nat total) (files b) !! path
                     ≠ files b !! path →
                     ∃ v, 0 ≤ v < total ∧ path = vp v).
    { intros Hp.
      destruct (removed_views_changed vp (Z.to_nat total) 0 (files b) path Hp)
        as (v & Hv & <-).
      exists v. split; [lia|reflexivity]. }
    destruct (String.eqb (os_path_basename out) "") eqn:Hbase; cbn [andb] in Hchanged.
    + change (animation j1) with (animation j) in Hchanged. rewrite Ha in Hchanged.
      cbn [negb] in Hchanged.
      destruct (decide (q = path)) as [<-|Hne].
      * right. split; [apply String.eqb_eq; exact Hbase|exact Hq].
      * left. apply Hviews. rewrite lookup_delete_ne in Hchanged by exact Hne.
        exact Hchanged.
    + left. apply Hviews. exact Hchanged.
Qed.

End Host.

(** * Sample data and instances *)

(** The operations of [mathutils] are parameters of the development.
    Where a closed statement needs some, these stand in for them; what is
    proved of them is proved for all. *)
Definition any_matmul : Matrix → Matrix → Matrix := fun a _ => a.
Definition any_matvec : Matrix → Vector → Vector := fun _ v => v.
Definition any_Scale : R → Z → Vector → Matrix := fun _ _ _ => identity_matrix.
Definition any_Translation : Vector → Matrix := fun _ => identity_matrix.
Definition any_inverted_safe : Matrix → Matrix := fun a => a.

(** Setting the frame on a scene in which nothing is animated. *)
Definition any_frame_set : Z → R → Blender → Blender :=
  fun frame subframe b => set_frame_subframe subframe (set_frame_current frame b).

(** A way of printing floats for the samples, which print one aspect
    ratio only, and never when the suffix is off. *)
Definition sample_float_str : R → string := fun _ => "0.75".

Lemma sample_naming : naming_set sample_job "/tmp/out" "quilt" ".png" 15.
Proof. repeat split. Defined.

(** * Instances of the properties *)

(** With a single view the offset angle is not 0: the division by
    [total_views - 1] raises. *)
Lemma single_view_offset_raises :
  offsetAngle 0 (Some 1) (Some 40%R) = Raise ZeroDivisionError
  ∧ offsetAngle 0 (Some 1) (Some 40%R) ≠ Ok 0%R
  ∧ view_offset 5 0 (Some 1) (Some 40%R) ≠ Ok 0%R.
Proof. repeat split; discriminate. Qed.

(** The scenario of the specification: a cone of 40 degrees, the focal
    plane at 5, five views. *)
Lemma offsets_of_five_views :
  view_offset 5 2 (Some 5) (Some 40%R) = Ok (offset_of 5 40 5 2)
  ∧ offset_of 5 40 5 2 = 0%R
  ∧ (offset_of 5 40 5 4 < offset_of 5 40 5 3 < offset_of 5 40 5 2)%R
  ∧ offset_of 5 40 5 0 = (5 * tan (radians (40 / 2)))%R.
Proof.
  destruct (offsets_decrease_between_opposite_ends 5 40 5 ltac:(lia) ltac:(lra) ltac:(lra))
    as (Hval & Hdec & H0 & _ & _ & _ & Hmid).
  split; [apply Hval|]. split; [apply (Hmid eq_refl)|].
  split; [|exact H0].
  split; apply Hdec; lia.
Defined.

(** The angles of 15 views in a cone of 40 degrees, in double precision.
    The angle of view 5 is 0.09973310011396168 and that of view 9 is
    -0.09973310011396172, three units in the last place apart from its
    opposite; the angles of the views 0 and 14 are opposite, and that of
    view 7 is 0. *)
Section RoundedAngles.
Import PrimFloat.

Lemma rounded_angles_not_opposite :
  offsetAngle_binary64 5 (Some 15) (Some 40%float) = Ok 0x1.9881bc35172e3p-4%float
  ∧ offsetAngle_binary64 9 (Some 15) (Some 40%float) = Ok (-0x1.9881bc35172e6p-4)%float
  ∧ (0x1.9881bc35172e3p-4 <? 0x1.9881bc35172e6p-4)%float = true
  ∧ offsetAngle_binary64 0 (Some 15) (Some 40%float) = Ok 0x1.657184ae74487p-2%float
  ∧ offsetAngle_binary64 14 (Some 15) (Some 40%float) = Ok (-0x1.657184ae74487p-2)%float
  ∧ offsetAngle_binary64 7 (Some 15) (Some 40%float) = Ok 0%float.
Proof. vm_compute. repeat split. Qed.

(** The five views of the scenario of the specification, in double
    precision: 0.3490658503988659, 0.17453292519943295, 0 and their
    opposites. *)
Lemma rounded_angles_of_five_views :
  offsetAngle_binary64 0 (Some 5) (Some 40%float) = Ok 0x1.657184ae74487p-2%float
  ∧ offsetAngle_binary64 1 (Some 5) (Some 40%float) = Ok 0x1.657184ae74487p-3%float
  ∧ offsetAngle_binary64 2 (Some 5) (Some 40%float) = Ok 0%float
  ∧ offsetAngle_binary64 3 (Some 5) (Some 40%float) = Ok (-0x1.657184ae74487p-3)%float
  ∧ offsetAngle_binary64 4 (Some 5) (Some 40%float) = Ok (-0x1.657184ae74487p-2)%float.
Proof. vm_compute. repeat split. Qed.

(** The rounded angles of the 15 views decrease from each view to the
    next. *)
Lemma rounded_angles_decrease :
  forallb
    (fun v =>
       match offsetAngle_binary64 v (Some 15) (Some 40%float),
             offsetAngle_binary64 (v + 1) (Some 15) (Some 40%float) with
       | Ok a, Ok a' => (a' <? a)%float
       | _, _ => false
       end)
    (map Z.of_nat (seq 0 14))
  = true.
Proof. vm_compute. reflexivity. Qed.

End RoundedAngles.

(** The paths of the sample job, which has 15 views: the views 3 and 12
    are written to [/tmp/out/quilt_v03.png] and [/tmp/out/quilt_v12.png],
    the quilt to [/tmp/out/quilt.png]. *)
Lemma sample_view_paths :
  view_filepath sample_float_str sample_job sample_host (Some 3) None
  = Ok "/tmp/out/quilt_v03.png"
  ∧ view_filepath sample_float_str sample_job sample_host (Some 12) None
    = Ok "/tmp/out/quilt_v12.png"
  ∧ quilt_filepath sample_float_str sample_job sample_host None = Ok "/tmp/out/quilt.png"
  ∧ view_digits 15 3 = "03" ∧ view_digits 15 12 = "12"
  ∧ digits_value "03" = Some 3
  ∧ view_filepath sample_float_str sample_job sample_host (Some 3) None
    ≠ view_filepath sample_float_str sample_job sample_host (Some 12) None.
Proof.
  destruct (paths_deterministic_view_segment sample_float_str) as (_ & Hpaths & Hdigits).
  destruct (Hpaths sample_job sample_host None "/tmp/out" "quilt" ".png" 15 sample_naming)
    as (stem & Hview & Hquilt & Hapart).
  destruct (Hdigits 15 3 ltac:(lia)) as (Hpad3 & _ & Hvalue3).
  destruct (Hdigits 15 12 ltac:(lia)) as (Hpad12 & _ & _).
  assert (Hstem : stem = "/tmp/out/quilt").
  { pose proof (Hquilt ltac:(discriminate)) as E. vm_compute in E.
    injection E as E. symmetry.
    apply (string_app_inv_tail ".png"). exact E. }
  assert (H3 : view_digits 15 3 = "03") by (rewrite Hpad3; reflexivity).
  assert (H12 : view_digits 15 12 = "12") by (rewrite Hpad12; reflexivity).
  split; [rewrite Hview, Hstem, H3; reflexivity|].
  split; [rewrite Hview, Hstem, H12; reflexivity|].
  split; [rewrite (Hquilt ltac:(discriminate)), Hstem; reflexivity|].
  split; [exact H3|]. split; [exact H12|].
  split; [rewrite <- H3; exact Hvalue3|].
  apply Hapart; lia.
Defined.

(** Deleting the files of a frame in a directory that is in use.  A job of
    two views named [/tmp/out/quilt.png] has its two view files, its quilt
    and a file of the user on disk, and two buffers: the view files go, the
    quilt and the other file stay, and the buffers are cleared.  The same
    job when the user gave a directory and no name (the quilt then has the
    temporary name): its quilt goes with the view files, the other file
    stays. *)
Definition named_job : RenderJob := tiled_job 1 2 [[1; 2; 3; 4]; [5; 6; 7; 8]]%R.

Definition named_directory : Blender :=
  set_files
    {[ "/tmp/out/quilt_v0.png" := [1; 2; 3; 4]%R;
       "/tmp/out/quilt_v1.png" := [5; 6; 7; 8]%R;
       "/tmp/out/quilt.png" := [1; 2; 3; 4; 5; 6; 7; 8]%R;
       "/tmp/out/notes.txt" := [7]%R ]}
    one_pixel_host.

Definition unnamed_job : RenderJob :=
  {| init := false; add_suffix := false; scene := "Scene"; animation := false;
     _use_lockfile := false; use_multiview := false; _state := COMPLETE_RENDER;
     frame := 1; subframe := 0; view := 1; seed := None;
     view_width := Some 1; view_height := Some 1; rows := Some 1; columns := Some 2;
     total_views := Some 2; quilt_aspect := Some 0.75%R; view_cone := Some 40%R;
     lockfile_path := Some "/tmp/alice.blend.lock"; outputpath := Some "/tmp/out/";
     file_use_temp := true; file_temp_name := "Quilt Render Result";
     file_dirname := Some "/tmp/out"; file_basename := Some "Quilt Render Result";
     file_extension := Some ".png"; file_quilt_suffix := None; file_force_keep := false;
     _camera_temp_basename := "_quilt_render_cam"; _camera_temp := [];
     _camera_active := None; _camera_original := None;
     _multiview_view_basename := "quilt_v"; _view_matrix := None; _view_matrix_inv := None;
     _view_image := None; _view_images_pixels := [[1; 2; 3; 4]; [5; 6; 7; 8]]%R;
     _quilt_image := None; cancel_sign := None; cancel_message := None |}.

Definition unnamed_directory : Blender :=
  set_files
    {[ "/tmp/out/Quilt Render Result_v0.png" := [1; 2; 3; 4]%R;
       "/tmp/out/Quilt Render Result_v1.png" := [5; 6; 7; 8]%R;
       "/tmp/out/Quilt Render Result.png" := [1; 2; 3; 4; 5; 6; 7; 8]%R;
       "/tmp/out/notes.txt" := [7]%R ]}
    one_pixel_host.

Lemma named_job_naming : naming_set named_job "/tmp/out" "quilt" ".png" 2.
Proof. repeat split. Defined.

Lemma unnamed_job_naming :
  naming_set unnamed_job "/tmp/out" "Quilt Render Result" ".png" 2.
Proof. repeat split. Defined.

Lemma sample_delete_files :
  (∃ files' : gmap string ndarray,
     delete_files sample_float_str None
       (mkWorld sample_operator sample_settings named_job named_directory)
     = Done tt (mkWorld sample_operator sample_settings
                  (set__view_images_pixels [] named_job)
                  (set_files files' named_directory))
     ∧ _view_images_pixels named_job = [[1; 2; 3; 4]; [5; 6; 7; 8]]%R
     ∧ files named_directory !! "/tmp/out/quilt_v0.png" = Some [1; 2; 3; 4]%R
     ∧ files' !! "/tmp/out/quilt_v0.png" = None
     ∧ files' !! "/tmp/out/quilt_v1.png" = None
     ∧ files' !! "/tmp/out/quilt.png" = Some [1; 2; 3; 4; 5; 6; 7; 8]%R
     ∧ files' !! "/tmp/out/notes.txt" = Some [7]%R)
  ∧ (∃ files' : gmap string ndarray,
       delete_files sample_float_str None
         (mkWorld sample_operator sample_settings unnamed_job unnamed_directory)
       = Done tt (mkWorld sample_operator sample_settings
                    (set__view_images_pixels [] unnamed_job)
                    (set_files files' unnamed_directory))
       ∧ files' !! "/tmp/out/Quilt Render Result_v0.png" = None
       ∧ files' !! "/tmp/out/Quilt Render Result_v1.png" = None
       ∧ files unnamed_directory !! "/tmp/out/Quilt Render Result.png"
         = Some [1; 2; 3; 4; 5; 6; 7; 8]%R
       ∧ files' !! "/tmp/out/Quilt Render Result.png" = None
       ∧ files' !! "/tmp/out/notes.txt" = Some [7]%R).
Proof.
  split.
  - destruct (delete_files_removes_views_only sample_float_str
                (mkWorld sample_operator sample_settings named_job named_directory) None
                "/tmp/out" "quilt" ".png" "/tmp/out/quilt.png" 2 named_job_naming eq_refl)
      as (files' & Hrun & _ & Hchanged & Hviews & Hquilt).
    exists files'. split; [exact Hrun|]. split; [reflexivity|].
    split; [vm_compute; reflexivity|].
    split; [apply (Hviews 0); [lia|vm_compute; reflexivity]|].
    split; [apply (Hviews 1); [lia|vm_compute; reflexivity]|].
    split.
    + rewrite (Hquilt "/tmp/out/quilt.png") by (vm_compute; reflexivity).
      vm_compute. reflexivity.
    + vm_compute in Hrun. injection Hrun as Hfiles. rewrite <- Hfiles.
      vm_compute. reflexivity.
  - destruct (delete_files_removes_views_only sample_float_str
                (mkWorld sample_operator sample_settings unnamed_job unnamed_directory)
                None "/tmp/out" "Quilt Render Result" ".png" "/tmp/out/" 2
                unnamed_job_naming eq_refl)
      as (files' & Hrun & _ & Hchanged & Hviews & Hquilt).
    exists files'. split; [exact Hrun|].
    split; [apply (Hviews 0); [lia|vm_compute; reflexivity]|].
    split; [apply (Hviews 1); [lia|vm_compute; reflexivity]|].
    split; [vm_compute; reflexivity|].
    split.
    + apply (Hquilt "/tmp/out/Quilt Render Result.png"). vm_compute. reflexivity.
    + vm_compute in Hrun. injection Hrun as Hfiles. rewrite <- Hfiles.
      vm_compute. reflexivity.
Defined.

(** Two views of one pixel side by side. *)
Lemma two_pixels_assembled :
  ∃ quiltPixels : ndarray,
    assemble_quilt_pixels (tiled_job 1 2 [[1; 2; 3; 4]; [5; 6; 7; 8]]%R) one_pixel_host
    = Ok quiltPixels
    ∧ length quiltPixels = 8%nat
    ∧ quiltPixels !! 0%nat = Some 1%R
    ∧ quiltPixels !! 4%nat = Some 5%R.
Proof.
  destruct (quilt_assembled_row_major
              (tiled_job 1 2 [[1; 2; 3; 4]; [5; 6; 7; 8]]%R) one_pixel_host 1 2 1 1
              eq_refl eq_refl eq_refl eq_refl ltac:(lia) ltac:(lia) eq_refl
              ltac:(repeat constructor))
    as (q & Hq & Hlen & Hat).
  exists q. split; [exact Hq|]. split; [exact Hlen|]. split.
  - exact (Hat 0 0 0 0 0 ltac:(lia) ltac:(lia) ltac:(lia) ltac:(lia) ltac:(lia))%nat.
  - exact (Hat 0 1 0 0 0 ltac:(lia) ltac:(lia) ltac:(lia) ltac:(lia) ltac:(lia))%nat.
Defined.

(** The scenario of the specification: 3 x 5 views of 256 x 256 pixels
    give a buffer of 1280 x 768 pixels, and the first view is the tile in
    the first rows and the first columns of it. *)
Lemma fifteen_views_assembled (pixels : list ndarray) :
  length pixels = 15%nat →
  Forall (fun buf => length buf = (256 * 256 * 4)%nat) pixels →
  ∃ quiltPixels : ndarray,
    assemble_quilt_pixels (tiled_job 3 5 pixels) sample_host = Ok quiltPixels
    ∧ length quiltPixels = (1280 * 768 * 4)%nat
    ∧ ∀ y x ch, (y < 256)%nat → (x < 256)%nat → (ch < 4)%nat →
        quiltPixels !! ((y * 1280 + x) * 4 + ch)%nat
        = pixels !! 0%nat ≫= (.!! ((y * 256 + x) * 4 + ch)%nat).
Proof.
  intros Hlen Hsizes.
  pose proof (view_buffers_complete (tiled_job 3 5 pixels) 3 5 256 256 Hlen Hsizes) as Hgood.
  destruct (quilt_array_regular _ _ _ _ _ Hgood) as [_ Hreg].
  exists (concat (concat (quilt_array (tiled_job 3 5 pixels) 256 256 5 3))).
  split; [|split].
  - apply (assemble_quilt_pixels_ok (tiled_job 3 5 pixels) sample_host 3 5 256 256);
      (reflexivity || lia || exact Hgood).
  - rewrite (flatten_length_regular _ _ _ _ Hreg). lia.
  - intros y x ch Hy Hx Hch.
    pose proof (quilt_array_lookup (tiled_job 3 5 pixels) 256 256 5 3 0 0 y x ch Hgood
                  ltac:(lia) ltac:(lia) Hy Hx Hch)%nat as E.
    replace ((y * 1280 + x) * 4 + ch)%nat
      with (((0 * 256 + y) * (5 * 256) + (0 * 256 + x)) * 4 + ch)%nat by lia.
    exact E.
Qed.

(** A buffer of three values where four are needed stops the completion
    of the frame. *)
Lemma short_buffer_aborts :
  ∃ e, assembly_error e
       ∧ ∀ render_cancelled,
           modal sample_float_str any_matmul any_matvec any_Scale any_Translation
             any_inverted_safe any_frame_set TIMER render_cancelled short_buffer_world
           = Raised e short_buffer_world.
Proof.
  destruct (wrong_buffer_aborts_frame sample_float_str any_matmul any_matvec any_Scale
              any_Translation any_inverted_safe any_frame_set short_buffer_world 2 1 2 1 eq_refl eq_refl eq_refl eq_refl eq_refl eq_refl
              ltac:(lia)
              ltac:(intros buf Hb; injection Hb as <-; cbn; lia))
    as (e & He & _ & _ & Hmodal).
  exists e. split; [exact He|exact Hmodal].
Defined.

(** The data blocks of the sample session. *)
Definition sample_blend_data : BlendData :=
  {| scenes := ["Scene"]; images := []; data_objects := ["Camera"] |}.

(** The attributes of the settings of the sample session, those assigned
    before the job and those assigned after it. *)
Definition settings_before : list (string * pyval) :=
  [ ("scene", VData SceneData "Scene");
    ("_use_lockfile", VBool true);
    ("animation", VBool false);
    ("use_multiview", VBool false);
    ("addon_settings",
     VObject AddonSettings
       [ ("focalPlane", VFloat 5);
         ("lookingglassCamera", VData ObjectData "Camera");
         ("quiltImage", VNone);
         ("render_cancel", VBool false);
         ("render_progress", VInt 0) ]) ].

Definition settings_after : list (string * pyval) :=
  [ ("resolution_x", VInt 256);
    ("resolution_y", VInt 256);
    ("filepath", VStr "/tmp/out/quilt.png");
    ("original", VDict [("resolution_x", VInt 1920); ("resolution_y", VInt 1080)]) ].

(** The record of a job that has rendered its views, read back in a new
    session. *)
Lemma sample_lockfile_round_trip :
  ∃ (text settings' : pyval) (attrs' : list (string * pyval)),
    lockfile_text (settings_instance settings_before (tiled_job 3 5 []) settings_after)
      "/tmp/alice.blend" = Ok text
    ∧ resume sample_blend_data (settings_instance settings_before sample_job settings_after)
        text = Ok settings'
    ∧ getattr settings' "job" = Ok (VObject PlainObject attrs')
    ∧ ∀ key, lookup_key key attrs'
             = lookup_key key
                 (RenderJob_dict (set_init true (restore_fields (tiled_job 3 5 []) sample_job))).
Proof.
  destruct (lockfile_restores_job_except_init sample_blend_data (tiled_job 3 5 [])
              sample_job "/tmp/alice.blend" settings_before settings_after
              settings_before settings_after eq_refl eq_refl eq_refl eq_refl)
    as (text & first & rest & restored & Htext & Hrecord & _ & _ & _ & _ & _ & _ & Hjob).
  assert (Hrun : ∃ settings',
            resume sample_blend_data
              (settings_instance settings_before sample_job settings_after) text
            = Ok settings').
  { rewrite Hrecord. eexists. vm_compute. reflexivity. }
  destruct Hrun as (settings' & Hrun).
  destruct (Hjob settings' Hrun) as (attrs' & Hget & Hkeys).
  exists text, settings', attrs'.
  split; [exact Htext|]. split; [exact Hrun|]. split; [exact Hget|exact Hkeys].
Defined.

(** A session in which the scene of the job is there and the camera of
    the add-on is not. *)
Definition blend_data_without_camera : BlendData :=
  {| scenes := ["Scene"]; images := []; data_objects := [] |}.

(** The job was saved with [init] false and view 14; it comes back with
    view 14 and [init] true.  And in the session without the camera the
    record is not read at all, though the scene of the job exists. *)
Lemma resumed_init_differs :
  ∃ (text settings' : pyval) (attrs' : list (string * pyval)),
    lockfile_text (settings_instance settings_before (tiled_job 3 5 []) settings_after)
      "/tmp/alice.blend" = Ok text
    ∧ resume sample_blend_data (settings_instance settings_before sample_job settings_after)
        text = Ok settings'
    ∧ getattr settings' "job" = Ok (VObject PlainObject attrs')
    ∧ lookup_key "view" (RenderJob_dict (tiled_job 3 5 [])) = Some (VInt 14)
    ∧ lookup_key "view" attrs' = Some (VInt 14)
    ∧ lookup_key "init" (RenderJob_dict (tiled_job 3 5 [])) = Some (VBool false)
    ∧ lookup_key "init" attrs' = Some (VBool true)
    ∧ lookup_key "init" attrs' ≠ lookup_key "init" (RenderJob_dict (tiled_job 3 5 []))
    ∧ is_in (scene (tiled_job 3 5 [])) (scenes blend_data_without_camera) = true
    ∧ resume blend_data_without_camera
        (settings_instance settings_before sample_job settings_after) text
      = Raise KeyError.
Proof.
  eexists. eexists. eexists.
  split; [vm_compute; reflexivity|].
  split; [vm_compute; reflexivity|].
  split; [vm_compute; reflexivity|].
  repeat (split; [vm_compute; reflexivity|]).
  split; [vm_compute; discriminate|].
  split; vm_compute; reflexivity.
Qed.

(** A second camera, away from the first and with a shifted lens, and a
    scene that has it as its active camera while the camera of the add-on
    is the first. *)
Definition overview_camera : Object :=
  {| name := "Overview"; matrix_world := identity_matrix;
     scale := mathutils.mkVector 1 1 1; location := mathutils.mkVector 0 (-10) 3;
     data := {| angle := (PI / 2)%R; shift_x := 1%R |} |}.

Definition two_camera_host : Blender :=
  set_camera (Some 1%nat) (set_objects [Some sample_camera; Some overview_camera] sample_host).

(** The sample job in multiview mode. *)
Definition sample_multiview_job : RenderJob :=
  {| init := true; add_suffix := false; scene := "Scene"; animation := false;
     _use_lockfile := false; use_multiview := true; _state := INVOKE_RENDER;
     frame := 1; subframe := 0; view := 0; seed := None;
     view_width := Some 256; view_height := Some 256; rows := Some 3; columns := Some 5;
     total_views := Some 15; quilt_aspect := Some 0.75%R; view_cone := Some 40%R;
     lockfile_path := Some "/tmp/alice.blend.lock"; outputpath := Some "/tmp/out/quilt.png";
     file_use_temp := false; file_temp_name := "Quilt Render Result";
     file_dirname := Some "/tmp/out"; file_basename := Some "quilt";
     file_extension := Some ".png"; file_quilt_suffix := None; file_force_keep := false;
     _camera_temp_basename := "_quilt_render_cam"; _camera_temp := [];
     _camera_active := None; _camera_original := None;
     _multiview_view_basename := "quilt_v"; _view_matrix := None; _view_matrix_inv := None;
     _view_image := None; _view_images_pixels := []; _quilt_image := None;
     cancel_sign := None; cancel_message := None |}.

(** On that scene the camera of view 0 has another shift in multiview
    mode than in single-camera mode: the cameras the two modes start from
    have the shifts 0 and 1. *)
Lemma two_cameras_two_poses :
  ∃ (w1 w2 : World) (i1 i2 : nat) (c1 c2 : Object),
    setup_camera any_matmul any_matvec any_Scale any_Translation any_inverted_safe
      (mkWorld sample_operator sample_settings sample_job two_camera_host)
    = Done tt w1
    ∧ setup_camera any_matmul any_matvec any_Scale any_Translation any_inverted_safe
        (mkWorld sample_operator sample_settings sample_multiview_job two_camera_host)
      = Done tt w2
    ∧ camera (host w1) = Some i1 ∧ objects (host w1) !! i1 = Some (Some c1)
    ∧ _camera_temp (job w2) !! 0%nat = Some i2
    ∧ objects (host w2) !! i2 = Some (Some c2)
    ∧ shift_x (data c1) ≠ shift_x (data c2)
    ∧ (shift_x (data c2) - shift_x (data c1) = 1)%R.
Proof.
  destruct (camera_modes_differ_in_original any_matmul any_matvec any_Scale
              any_Translation any_inverted_safe sample_operator sample_settings
              sample_job sample_multiview_job two_camera_host 0%nat 1%nat
              sample_camera overview_camera 15 40%R 0
              eq_refl eq_refl eq_refl eq_refl eq_refl eq_refl eq_refl eq_refl eq_refl
              eq_refl eq_refl eq_refl eq_refl
              ltac:(cbn; lra) ltac:(cbn; lra) ltac:(cbn; lra) ltac:(cbn; lra)
              ltac:(cbn; pose proof PI_RGT_0; lra) ltac:(lia) ltac:(lia))
    as (w1 & w2 & i1 & i2 & c1 & c2 & E1 & E2 & Hi1 & Hc1 & Hi2 & Hc2 & _ & _
        & Hs1 & Hs2 & Hiff & _).
  exists w1, w2, i1, i2, c1, c2.
  split; [exact E1|]. split; [exact E2|]. split; [exact Hi1|]. split; [exact Hc1|].
  split; [exact Hi2|]. split; [exact Hc2|]. split.
  - intros E. apply Hiff in E. cbn in E. lra.
  - rewrite Hs1, Hs2. unfold view_shift. cbn [shift_x data sample_camera overview_camera].
    lra.
Defined.

(** * Instances of the further properties *)

(** The sample job once it has been cancelled. *)
Definition cancelled_world : World :=
  mkWorld sample_operator sample_settings (set__state CANCEL_RENDER sample_job) sample_host.

Lemma cancelled_sample_ignores_handlers :
  init_render sample_float_str cancelled_world = Done tt cancelled_world
  ∧ post_render sample_float_str cancelled_world = Done tt cancelled_world.
Proof.
  destruct (proj1 (cancelled_job_ignores_handlers sample_float_str) cancelled_world
              (or_introl eq_refl)) as (Hinit & _ & Hpost & _).
  split; [exact Hinit|exact Hpost].
Defined.

(** The first view of the sample job is rendered and saved. *)
Lemma sample_post_render :
  ∃ (path : string) (w' : World),
    view_filepath sample_float_str sample_job sample_host None None = Ok path
    ∧ post_render sample_float_str sample_world = Done tt w'
    ∧ _view_images_pixels (job w') = [render_result sample_host]
    ∧ files (host w') !! path = Some (render_result sample_host).
Proof.
  destruct (post_render_saves_and_appends sample_float_str sample_operator sample_settings
              sample_job sample_host "/tmp/out" "quilt" ".png" 15 sample_naming
              ltac:(discriminate) eq_refl)
    as (path & w' & Hpath & Hrun & _ & Hbuffers & Hfile & _).
  exists path, w'. repeat split; assumption.
Defined.

(** A scene for which no camera was chosen in the add-on. *)
Definition no_camera_host : Blender := set_lookingglassCamera None sample_host.

Lemma sample_setup_without_camera :
  ∃ j',
    setup_camera any_matmul any_matvec any_Scale any_Translation any_inverted_safe
      (mkWorld sample_operator sample_settings sample_job no_camera_host)
    = Raised AttributeError (mkWorld sample_operator sample_settings j' no_camera_host)
    ∧ _camera_temp j' = [].
Proof.
  destruct (setup_camera_without_camera any_matmul any_matvec any_Scale any_Translation
              any_inverted_safe sample_operator sample_settings sample_job no_camera_host
              eq_refl (or_introl eq_refl))
    as (j' & Hrun & _ & Htemp & _).
  exists j'. split; [exact Hrun|exact Htemp].
Defined.

(** A camera that is scaled to nothing along its first axis. *)
Definition flat_camera : Object :=
  {| name := "Camera"; matrix_world := identity_matrix;
     scale := mathutils.mkVector 0 1 1; location := mathutils.mkVector 0 0 0;
     data := {| angle := (PI / 2)%R; shift_x := 0%R |} |}.

Definition flat_camera_host : Blender := set_objects [Some flat_camera] sample_host.

Lemma sample_setup_zero_scale :
  ∃ j',
    setup_camera any_matmul any_matvec any_Scale any_Translation any_inverted_safe
      (mkWorld sample_operator sample_settings sample_job flat_camera_host)
    = Raised ZeroDivisionError
        (mkWorld sample_operator sample_settings j' flat_camera_host)
    ∧ _camera_temp j' = [].
Proof.
  destruct (setup_camera_zero_scale any_matmul any_matvec any_Scale any_Translation
              any_inverted_safe sample_operator sample_settings sample_job
              flat_camera_host 0%nat flat_camera eq_refl eq_refl (or_introl eq_refl)
              (or_introl eq_refl))
    as (j' & Hrun & Htemp & _).
  exists j'. split; [exact Hrun|exact Htemp].
Defined.

(** The sample job with a single view. *)
Definition single_view_job : RenderJob :=
  {| init := true; add_suffix := false; scene := "Scene"; animation := false;
     _use_lockfile := false; use_multiview := false; _state := INVOKE_RENDER;
     frame := 1; subframe := 0; view := 0; seed := None;
     view_width := Some 256; view_height := Some 256; rows := Some 1; columns := Some 1;
     total_views := Some 1; quilt_aspect := Some 0.75%R; view_cone := Some 40%R;
     lockfile_path := Some "/tmp/alice.blend.lock"; outputpath := Some "/tmp/out/quilt.png";
     file_use_temp := false; file_temp_name := "Quilt Render Result";
     file_dirname := Some "/tmp/out"; file_basename := Some "quilt";
     file_extension := Some ".png"; file_quilt_suffix := None; file_force_keep := false;
     _camera_temp_basename := "_quilt_render_cam"; _camera_temp := [];
     _camera_active := None; _camera_original := None;
     _multiview_view_basename := "quilt_v"; _view_matrix := None; _view_matrix_inv := None;
     _view_image := None; _view_images_pixels := []; _quilt_image := None;
     cancel_sign := None; cancel_message := None |}.

Lemma sample_single_view_leaves_camera :
  ∃ w',
    setup_camera any_matmul any_matvec any_Scale any_Translation any_inverted_safe
      (mkWorld sample_operator sample_settings single_view_job sample_host)
    = Raised ZeroDivisionError w'
    ∧ camera (host w') = Some 1%nat
    ∧ _camera_temp (job w') = [1%nat].
Proof.
  destruct (setup_camera_single_view_leaves_camera any_matmul any_matvec any_Scale
              any_Translation any_inverted_safe sample_operator sample_settings
              single_view_job sample_host 0%nat sample_camera 40%R
              eq_refl eq_refl eq_refl eq_refl
              ltac:(cbn; lra) ltac:(cbn; lra) ltac:(cbn; lra) eq_refl eq_refl)
    as (w' & Hrun & Hcamera & Htemp & _).
  exists w'. split; [exact Hrun|]. split; [exact Hcamera|exact Htemp].
Defined.

(** Two views of one pixel, with a third buffer left in the list. *)
Lemma two_pixels_and_a_surplus :
  ∃ quiltPixels : ndarray,
    assemble_quilt_pixels (tiled_job 1 2 [[1; 2; 3; 4]; [5; 6; 7; 8]]%R) one_pixel_host
    = Ok quiltPixels
    ∧ assemble_quilt_pixels
        (tiled_job 1 2 [[1; 2; 3; 4]; [5; 6; 7; 8]; [0; 0; 0; 0]]%R) one_pixel_host
      = Ok quiltPixels.
Proof.
  exact (assembly_ignores_surplus_buffers
           (tiled_job 1 2 [[1; 2; 3; 4]; [5; 6; 7; 8]]%R) one_pixel_host 1 2 1 1
           [[0; 0; 0; 0]%R]
           eq_refl eq_refl eq_refl eq_refl ltac:(lia) ltac:(lia) eq_refl
           ltac:(repeat constructor)).
Defined.

(** Deleting the files of the sample job twice. *)
Lemma sample_delete_files_twice :
  ∃ w1 : World,
    delete_files sample_float_str None sample_world = Done tt w1
    ∧ delete_files sample_float_str None w1 = Done tt w1
    ∧ _view_images_pixels (job w1) = [].
Proof.
  exact (delete_files_idempotent sample_float_str sample_operator sample_settings
           sample_job sample_host None "/tmp/out" "quilt" ".png" "/tmp/out/quilt.png" 15
           sample_naming eq_refl).
Defined.

(** An object with a public and a private attribute. *)
Lemma private_attribute_dropped :
  ∃ d,
    to_dict (VObject PlainObject [("view", VInt 3); ("_state", VStr "IDLE")]) = VDict d
    ∧ lookup_key "_state" d = None
    ∧ lookup_key "view" d = Some (VInt 3).
Proof.
  destruct (to_dict_drops_private_attributes PlainObject
              [("view", VInt 3); ("_state", VStr "IDLE")] "_state")
    as (d & Hd & Hprivate & _).
  destruct (to_dict_drops_private_attributes PlainObject
              [("view", VInt 3); ("_state", VStr "IDLE")] "view")
    as (d' & Hd' & _ & _ & Hpublic).
  exists d. split; [exact Hd|]. split; [exact (Hprivate eq_refl)|].
  rewrite Hd in Hd'. injection Hd' as <-. exact (Hpublic eq_refl eq_refl).
Defined.

(** A session in which the scene of the job does not exist. *)
Definition other_blend_data : BlendData :=
  {| scenes := ["Other"]; images := []; data_objects := ["Camera"] |}.

Lemma sample_resume_without_scene :
  ∃ text,
    lockfile_text (settings_object sample_job []) "/tmp/alice.blend" = Ok text
    ∧ resume other_blend_data (settings_object sample_job []) text = Raise KeyError.
Proof.
  destruct (resume_without_scene_raises other_blend_data sample_job sample_job
              "/tmp/alice.blend" [] eq_refl)
    as (text & Htext & _ & Hresume).
  exists text. split; [exact Htext|exact Hresume].
Defined.

(** A still image of 3 x 5 views is resumed at view 2, with both earlier
    view files on disk. *)
Definition resumable_job : RenderJob := running_job false true true IDLE 1 2 3 5 [].

Definition both_views_host : Blender :=
  running_host 10 "1"
    {[ "/tmp/out/quilt_v00.png" := [1; 2; 3; 4]%R;
       "/tmp/out/quilt_v01.png" := [5; 6; 7; 8]%R ]}.

Lemma resumable_naming : naming_set resumable_job "/tmp/out" "quilt" ".png" 15.
Proof. repeat split. Defined.

Lemma resumed_with_both_views :
  ∃ j',
    init_render sample_float_str
      (mkWorld sample_operator sample_settings resumable_job both_views_host)
    = Done tt (mkWorld sample_operator sample_settings j' both_views_host)
    ∧ _state j' = INIT_RENDER
    ∧ _use_lockfile j' = false
    ∧ length (_view_images_pixels j') = 2%nat.
Proof.
  destruct (init_render_loads_earlier_views sample_float_str sample_operator
              sample_settings resumable_job both_views_host "/tmp/out" "quilt" ".png"
              15 5 3 resumable_naming eq_refl eq_refl ltac:(discriminate) eq_refl
              eq_refl eq_refl
              ltac:(intros v Hv; cbn [view resumable_job running_job] in Hv;
                    assert (E : v = 0 ∨ v = 1) by lia;
                    destruct E as [-> | ->]; eexists; vm_compute; reflexivity))
    as (j' & Hrun & Hstate & Hlock & _ & Hlen & _).
  exists j'. split; [exact Hrun|]. split; [exact Hstate|]. split; [exact Hlock|exact Hlen].
Defined.

(** The same job when the file of view 1 is missing. *)
Lemma resumed_with_missing_view :
  ∃ j',
    init_render sample_float_str resumed_world
    = Done tt (mkWorld (operator resumed_world) sample_settings j' (host resumed_world))
    ∧ _state j' = CANCEL_RENDER
    ∧ file_force_keep j' = true
    ∧ cancel_sign j' = Some "ERROR"
    ∧ _use_lockfile j' = true.
Proof.
  destruct (init_render_missing_view_cancels sample_float_str (operator resumed_world)
              sample_settings resumable_job (host resumed_world) "/tmp/out" "quilt" ".png"
              15 5 3 1 resumable_naming eq_refl eq_refl ltac:(discriminate) eq_refl
              eq_refl eq_refl ltac:(cbn; lia)
              ltac:(intros v Hv; assert (E : v = 0) by lia; subst v;
                    eexists; vm_compute; reflexivity)
              ltac:(vm_compute; reflexivity))
    as (j' & Hrun & Hstate & Hkeep & Hsign & _ & Hlock & _).
  exists j'. split; [exact Hrun|]. split; [exact Hstate|]. split; [exact Hkeep|].
  split; [exact Hsign|exact Hlock].
Defined.

(** The views 3 and 12 of the sample job have their own files. *)
Lemma sample_views_apart :
  digits_value (view_digits 15 3) = Some 3
  ∧ view_filepath sample_float_str sample_job sample_host (Some 3) None
    ≠ view_filepath sample_float_str sample_job sample_host (Some 12) None.
Proof.
  destruct (view_files_do_not_collide sample_float_str sample_job sample_host None
              "/tmp/out" "quilt" ".png" 15 3 12 sample_naming ltac:(lia) ltac:(lia))
    as [Hdigits Hpaths].
  split; [exact Hdigits|]. intros E. apply Hpaths in E. discriminate E.
Defined.

(** The progress of the sample job at view 7 of 15, and at the last view. *)
Lemma sample_progress :
  (∃ p, update_progress
          (mkWorld sample_operator sample_settings (set_view 7 sample_job) sample_host)
        = Done tt (mkWorld sample_operator sample_settings (set_view 7 sample_job)
                     (set_render_progress p sample_host))
        ∧ 0 ≤ p ≤ 100)
  ∧ update_progress
      (mkWorld sample_operator sample_settings (set_view 14 sample_job) sample_host)
    = Done tt (mkWorld sample_operator sample_settings (set_view 14 sample_job)
                 (set_render_progress 100 sample_host)).
Proof.
  split.
  - destruct (proj2 (progress_between_0_and_100 sample_operator sample_settings
                       (set_view 7 sample_job) sample_host 15 eq_refl)
                ltac:(lia) ltac:(cbn; lia) ltac:(discriminate))
      as (p & Hrun & Hbounds & _).
    exists p. split; [exact Hrun|exact Hbounds].
  - destruct (proj2 (progress_between_0_and_100 sample_operator sample_settings
                       (set_view 14 sample_job) sample_host 15 eq_refl)
                ltac:(lia) ltac:(cbn; lia) ltac:(discriminate))
      as (p & Hrun & _ & Hlast).
    rewrite Hrun, (Hlast eq_refl ltac:(discriminate)). reflexivity.
Defined.

(** The sample scene rendered with Cycles, the seed 7 set by the user:
    view 0 keeps the seed on the job; a job that has kept the seed 7
    renders view 3 with the seed 10 and still has the seed 7.  With the
    largest seed, view 3 cannot be invoked. *)
Definition cycles_host (user_seed : Z) : Blender :=
  set_cycles_seed user_seed (set_engine "CYCLES" sample_host).

Definition seeded_at_view (kept : Z) (at_view : Z) : RenderJob :=
  set_seed (Some kept) (set_view at_view sample_job).

Lemma sample_seed_of_views :
  (∃ w1,
     invoke any_frame_set
       (mkWorld sample_operator sample_settings sample_job (cycles_host 7)) = Done tt w1
     ∧ seed (job w1) = Some 7 ∧ cycles_seed (host w1) = 7)
  ∧ (∃ w2,
       invoke any_frame_set
         (mkWorld sample_operator sample_settings (seeded_at_view 7 3) (cycles_host 7))
       = Done tt w2
       ∧ seed (job w2) = Some 7 ∧ cycles_seed (host w2) = 10)
  ∧ (∃ w3,
       invoke any_frame_set
         (mkWorld sample_operator sample_settings (seeded_at_view 2147483647 3)
            (cycles_host 2147483647))
       = Raised ValueError w3
       ∧ cycles_seed (host w3) = 2147483647).
Proof.
  split; [|split].
  - destruct (proj1 (seed_follows_view any_frame_set sample_operator sample_settings
                       sample_job (cycles_host 7) eq_refl) 7 eq_refl
                ltac:(vm_compute; split; discriminate))
      as (w1 & Hrun & Hseed & Hscene & _).
    exists w1. split; [exact Hrun|]. split; [exact Hseed|exact Hscene].
  - destruct (proj1 (seed_follows_view any_frame_set sample_operator sample_settings
                       (seeded_at_view 7 3) (cycles_host 7) eq_refl) 7 eq_refl
                ltac:(vm_compute; split; discriminate))
      as (w2 & Hrun & Hseed & Hscene & _).
    exists w2. split; [exact Hrun|]. split; [exact Hseed|exact Hscene].
  - destruct (proj1 (proj2 (seed_follows_view any_frame_set sample_operator
                              sample_settings (seeded_at_view 2147483647 3)
                              (cycles_host 2147483647) eq_refl))
                2147483647 eq_refl ltac:(vm_compute; reflexivity))
      as (w3 & Hrun & _ & Hhost).
    exists w3. split; [exact Hrun|]. rewrite Hhost. reflexivity.
Defined.

(** The tick after view 3 of the sample job. *)
Definition view_3_done : RenderJob := set__state COMPLETE_RENDER (set_view 3 sample_job).

Lemma sample_tick_to_next_view :
  ∃ w',
    modal sample_float_str any_matmul any_matvec any_Scale any_Translation
      any_inverted_safe any_frame_set TIMER false
      (mkWorld sample_operator sample_settings view_3_done sample_host)
    = Done PASS_THROUGH w'
    ∧ view (job w') = 4
    ∧ _state (job w') = INVOKE_RENDER.
Proof.
  destruct (tick_moves_to_next_view sample_float_str any_matmul any_matvec any_Scale
              any_Translation any_inverted_safe any_frame_set sample_operator sample_settings
              view_3_done sample_host 15 false eq_refl eq_refl eq_refl
              ltac:(cbn; lia) ltac:(discriminate))
    as (w' & Hrun & Hview & _ & Hstate & _).
  exists w'. split; [exact Hrun|]. split; [exact Hview|exact Hstate].
Defined.

(** The camera of the sample job is set up and cleaned up again. *)
Lemma sample_setup_then_clean_up :
  ∃ w1 w2,
    setup_camera any_matmul any_matvec any_Scale any_Translation any_inverted_safe
      sample_world = Done tt w1
    ∧ clean_up w1 = Done tt w2
    ∧ objects (host w2) = [Some sample_camera; None]
    ∧ _camera_temp (job w2) = []
    ∧ camera (host w2) = Some 0%nat.
Proof.
  destruct (setup_then_clean_up any_matmul any_matvec any_Scale any_Translation
              any_inverted_safe sample_operator sample_settings sample_job sample_host
              0%nat sample_camera 15 40%R
              eq_refl eq_refl eq_refl eq_refl
              ltac:(cbn; lra) ltac:(cbn; lra) ltac:(cbn; lra)
              eq_refl ltac:(lia) eq_refl
              ltac:(apply camera_size_nonzero; cbn; pose proof PI_RGT_0; lra)
              ltac:(intros [|[|i]] o Hi; cbn in Hi; try discriminate Hi;
                    injection Hi as <-; discriminate))
    as (w1 & w2 & Hsetup & Hclean & Hobjects & _ & Htemp & Hcamera & _).
  exists w1, w2. split; [exact Hsetup|]. split; [exact Hclean|].
  split; [exact Hobjects|]. split; [exact Htemp|exact Hcamera].
Defined.

(** Two views of one pixel, the file of the second one on disk. *)
Definition second_view_host : Blender :=
  set_files {[ "/tmp/out/quilt_v1.png" := [5; 6; 7; 8]%R ]} one_pixel_host.

Lemma tiled_naming (pixels : list ndarray) :
  naming_set (tiled_job 1 2 pixels) "/tmp/out" "quilt" ".png" 2.
Proof. repeat split. Defined.

Lemma two_pixels_written :
  ∃ quilt_file quiltPixels w',
    quilt_filepath sample_float_str (tiled_job 1 2 [[1; 2; 3; 4]; [5; 6; 7; 8]]%R)
      second_view_host None = Ok quilt_file
    ∧ assemble_quilt sample_float_str
        (mkWorld sample_operator sample_settings
           (tiled_job 1 2 [[1; 2; 3; 4]; [5; 6; 7; 8]]%R) second_view_host)
      = Done tt w'
    ∧ files (host w') !! quilt_file = Some quiltPixels
    ∧ files (host w') !! "/tmp/out/quilt_v1.png" = Some [5; 6; 7; 8]%R.
Proof.
  destruct (assemble_quilt_writes_quilt_file sample_float_str sample_operator
              sample_settings (tiled_job 1 2 [[1; 2; 3; 4]; [5; 6; 7; 8]]%R)
              second_view_host 1 2 1 1 "/tmp/out" "quilt" ".png" 2
              (tiled_naming _) eq_refl eq_refl eq_refl eq_refl ltac:(lia) ltac:(lia)
              eq_refl ltac:(repeat constructor))
    as (quilt_file & q & Hpath & _ & Hpresent & _).
  destruct (Hpresent ltac:(eexists; vm_compute; reflexivity))
    as (w' & Hrun & Hquilt & Hothers & _).
  exists quilt_file, q, w'. split; [exact Hpath|]. split; [exact Hrun|].
  split; [exact Hquilt|].
  rewrite Hothers; [vm_compute; reflexivity|].
  intros E. rewrite <- E in Hpath. vm_compute in Hpath. discriminate Hpath.
Defined.

(** The tick after the second of these two views. *)
Lemma two_pixels_completed :
  ∃ w',
    modal sample_float_str any_matmul any_matvec any_Scale any_Translation
      any_inverted_safe any_frame_set TIMER false
      (mkWorld sample_operator sample_settings
         (tiled_job 1 2 [[1; 2; 3; 4]; [5; 6; 7; 8]]%R) second_view_host)
    = Done PASS_THROUGH w'
    ∧ render_progress (host w') = 100
    ∧ _state (job w') = CANCEL_RENDER
    ∧ op_cancel_message (operator w') = "Complete quilt rendered.".
Proof.
  destruct (tick_completes_still_image sample_float_str any_matmul any_matvec any_Scale
              any_Translation any_inverted_safe any_frame_set sample_operator sample_settings
              (tiled_job 1 2 [[1; 2; 3; 4]; [5; 6; 7; 8]]%R) second_view_host
              1 2 1 1 "/tmp/out" "quilt" ".png" 2 false
              eq_refl eq_refl eq_refl (tiled_naming _) ltac:(lia) eq_refl
              eq_refl eq_refl eq_refl eq_refl ltac:(lia) ltac:(lia) eq_refl
              ltac:(repeat constructor) ltac:(eexists; vm_compute; reflexivity))
    as (quilt_file & q & w' & _ & _ & Hrun & _ & _ & Hprogress & Hstate & _ & _ & Hmessage).
  exists w'. split; [exact Hrun|]. split; [exact Hprogress|].
  split; [exact Hstate|exact Hmessage].
Defined.

(** The scene of the sample job with the file of a view and a file of the
    user in the output directory. *)
Definition sample_host_with_files : Blender :=
  set_files
    {[ "/tmp/out/quilt_v00.png" := [1; 2; 3; 4]%R; "/tmp/out/notes.txt" := [7]%R ]}
    sample_host.

(** Setting up the camera of the sample job leaves the two files as they
    are, and saving its first view moves no object. *)
Lemma sample_setup_keeps_files :
  files (host (final (setup_camera any_matmul any_matvec any_Scale any_Translation
                        any_inverted_safe
                        (mkWorld sample_operator sample_settings sample_job
                           sample_host_with_files))))
  = files sample_host_with_files
  ∧ files sample_host_with_files !! "/tmp/out/notes.txt" = Some [7]%R.
Proof.
  split; [|vm_compute; reflexivity].
  exact (proj1 (files_kept_by_camera_and_handlers sample_float_str
                  any_matmul any_matvec any_Scale any_Translation
                  any_inverted_safe any_frame_set)
           (mkWorld sample_operator sample_settings sample_job sample_host_with_files)).
Defined.

Lemma sample_post_render_keeps_objects :
  objects (host (final (post_render sample_float_str sample_world)))
  = objects sample_host.
Proof.
  exact (f_equal fst (proj1 (objects_kept_by_file_handling sample_float_str) sample_world)).
Defined.

(** A resumed job that was told to keep its view files is discarded, in a
    directory that holds the file of its first view, an earlier quilt and
    a file of the user: the view file goes, the two others stay. *)
Definition discarding_operator : Operator :=
  {| op_animation := false; op_use_lockfile := true; discard_lockfile := true;
     op_use_multiview := false; op_cancel_sign := "INFO";
     op_cancel_message := "Quilt rendering was cancelled."; reports := [] |}.

Definition keeping_job : RenderJob := set_file_force_keep true resumable_job.

Definition busy_directory_host : Blender :=
  running_host 10 "0"
    {[ "/tmp/out/quilt_v00.png" := [1; 2; 3; 4]%R;
       "/tmp/out/quilt.png" := [0; 0; 0; 0]%R;
       "/tmp/out/notes.txt" := [7]%R ]}.

Lemma resumed_job_discarded :
  ∃ w',
    cancel sample_float_str
      (mkWorld discarding_operator sample_settings keeping_job busy_directory_host)
    = Done tt w'
    ∧ files busy_directory_host !! "/tmp/out/quilt_v00.png" = Some [1; 2; 3; 4]%R
    ∧ files (host w') !! "/tmp/out/quilt_v00.png" = None
    ∧ files (host w') !! "/tmp/out/quilt.png" = Some [0; 0; 0; 0]%R
    ∧ files (host w') !! "/tmp/out/notes.txt" = Some [7]%R
    ∧ objects (host w') = objects busy_directory_host.
Proof.
  destruct (discarding_deletes_view_files sample_float_str discarding_operator
              sample_settings keeping_job busy_directory_host
              "/tmp/out" "quilt" ".png" "/tmp/out/quilt.png" "/tmp/alice.blend.lock" 15
              eq_refl eq_refl resumable_naming eq_refl eq_refl)
    as (w' & Hrun & Hviews & _ & _ & _ & _ & _ & _ & _ & _ & Hobjects & _).
  exists w'. split; [exact Hrun|]. split; [vm_compute; reflexivity|].
  split; [exact (Hviews 0 ltac:(lia))|].
  split; [|split; [|exact Hobjects]].
  - vm_compute in Hrun. injection Hrun as <-. vm_compute. reflexivity.
  - vm_compute in Hrun. injection Hrun as <-. vm_compute. reflexivity.
Defined.
